(** * The ledger core of trading_system.py

    A shallow embedding of [StockTradingSystem] (src/trading_system.py):
    the six SQLite tables as lists of rows, every method as a function
    from the database before the call to its result and the database
    after it.

    Conventions of the embedding.
    - A SQLite [REAL] / Python [float] is an exact rational ([Q]); equality
      of money is [Qeq] ([==]).  Rounding is not modelled.
    - A SQLite [INTEGER] / Python [int] is [Z].
    - A [TEXT] column is a [string]; [CURRENT_TIMESTAMP] columns are left
      out, the order of a list is the order of insertion.
    - [uuid.uuid4()] and [random.uniform] are inputs of the functions that
      call them: the value drawn is an argument.
    - PRIMARY KEY and UNIQUE constraints are checked by the [insert]
      functions, which fail with [IntegrityError]; foreign keys are not
      (SQLite does not enforce them unless asked to).
    - A method that returns before [conn.commit()], or reaches
      [conn.rollback()], leaves the database as it found it.
    - The arguments of a method have the types the request models
      declare: a [str] is a [string], an [int] a [Z], a [float] a [Q];
      None is no argument.
    - [run] composes calls taken one after the other, each ending before
      the next begins; what is proved of [run] is proved of such
      sequences.  The program also serves calls in parallel threads:
      [run_schedule] interleaves the reads and the writes of calls of
      [buy_stock]. *)

From Stdlib Require Import ZArith QArith List String Ascii Bool Lia Lqa.
From Stdlib Require Import DecimalString Sorted Permutation.
Import ListNotations.

Local Open Scope string_scope.
Local Open Scope list_scope.
Local Open Scope Z_scope.
Local Open Scope Q_scope.

(** ** Python values *)

(** [a < b] on floats. *)
Definition Qlt_bool (a b : Q) : bool := negb (Qle_bool b a).

(** Python's [min(a, b)]: the first argument unless the second is smaller. *)
Definition py_min (a b : Q) : Q := if Qlt_bool b a then b else a.

(** Python's [max(a, b)]: the first argument unless the second is larger. *)
Definition py_max (a b : Q) : Q := if Qlt_bool a b then b else a.

(** [max(1.0, min(100.0, price))], lines 205 and 228. *)
Definition clamp_price (price : Q) : Q := py_max 1 (py_min 100 price).

(** [str.upper] on ASCII text. *)
Definition upper_ascii (c : ascii) : ascii :=
  let n := nat_of_ascii c in
  if ((97 <=? n) && (n <=? 122))%nat then ascii_of_nat (n - 32) else c.

Fixpoint upper (s : string) : string :=
  match s with
  | EmptyString => EmptyString
  | String c r => String (upper_ascii c) (upper r)
  end.

(** The exceptions the methods can meet. *)
Inductive exn : Type :=
| IntegrityError
| ZeroDivisionError
| TypeError
| OverflowError.

(** An [int] that the sqlite3 module can bind to a parameter: SQLite's
    INTEGER has 64 bits, and a larger [int] raises [OverflowError] when
    the statement is executed. *)
Definition fits_int64 (z : Z) : bool :=
  ((- 2 ^ 63 <=? z) && (z <? 2 ^ 63))%Z.

(** ** SQL statements on a table *)

Section Sql.
Context {A : Type}.

(** [SELECT ... WHERE p] followed by [fetchone()]. *)
Definition select_one (p : A -> bool) (t : list A) : option A := find p t.

(** [SELECT ... WHERE p] followed by [fetchall()]. *)
Definition select_all (p : A -> bool) (t : list A) : list A := filter p t.

(** [UPDATE ... SET f WHERE p]. *)
Definition update_where (p : A -> bool) (f : A -> A) (t : list A) : list A :=
  map (fun r => if p r then f r else r) t.

(** [DELETE FROM ... WHERE p]. *)
Definition delete_where (p : A -> bool) (t : list A) : list A :=
  filter (fun r => negb (p r)) t.

(** [INSERT INTO ...] under a constraint: [clash r] tells whether row [r]
    of the table forbids the new row. *)
Definition insert_unless (clash : A -> bool) (row : A) (t : list A)
  : option (list A) :=
  if existsb clash t then None else Some (t ++ [row]).

End Sql.

(** ** The tables (lines 31-106) *)

Module Users.
Record row : Type := mk {
  id : string;
  username : string;
  balance : Q;
  loan_amount : Q;
  max_loan : Q
}.
Definition has_id (i : string) (r : row) : bool := String.eqb (id r) i.
Definition set_balance (b : Q) (r : row) : row :=
  mk (id r) (username r) b (loan_amount r) (max_loan r).
Definition set_balance_loan (b l : Q) (r : row) : row :=
  mk (id r) (username r) b l (max_loan r).
(** [id TEXT PRIMARY KEY], [username TEXT UNIQUE]. *)
Definition insert (new : row) (t : list row) : option (list row) :=
  insert_unless
    (fun r => String.eqb (id r) (id new) || String.eqb (username r) (username new))
    new t.
End Users.

Module Stocks.
Record row : Type := mk {
  id : string;
  symbol : string;
  name : string;
  current_price : Q;
  available_quantity : Z
}.
Definition has_id (i : string) (r : row) : bool := String.eqb (id r) i.
Definition has_symbol (s : string) (r : row) : bool := String.eqb (symbol r) s.
Definition set_current_price (p : Q) (r : row) : row :=
  mk (id r) (symbol r) (name r) p (available_quantity r).
Definition set_available_quantity (q : Z) (r : row) : row :=
  mk (id r) (symbol r) (name r) (current_price r) q.
(** [id TEXT PRIMARY KEY], [symbol TEXT UNIQUE]. *)
Definition insert (new : row) (t : list row) : option (list row) :=
  insert_unless
    (fun r => String.eqb (id r) (id new) || String.eqb (symbol r) (symbol new))
    new t.
End Stocks.

Module History.
Record row : Type := mk {
  stock_id : string;
  price : Q
}.
Definition of_stock (i : string) (r : row) : bool := String.eqb (stock_id r) i.
End History.

Module Portfolios.
Record row : Type := mk {
  user_id : string;
  stock_id : string;
  quantity : Z;
  avg_buy_price : Q
}.
Definition has_key (u s : string) (r : row) : bool :=
  String.eqb (user_id r) u && String.eqb (stock_id r) s.
Definition of_stock (s : string) (r : row) : bool := String.eqb (stock_id r) s.
Definition set_quantity (q : Z) (r : row) : row :=
  mk (user_id r) (stock_id r) q (avg_buy_price r).
Definition set_quantity_avg (q : Z) (a : Q) (r : row) : row :=
  mk (user_id r) (stock_id r) q a.
(** [UNIQUE(user_id, stock_id)]. *)
Definition insert (new : row) (t : list row) : option (list row) :=
  insert_unless (has_key (user_id new) (stock_id new)) new t.
End Portfolios.

Inductive transaction_kind : Type := BUY | SELL.

Module Transactions.
Record row : Type := mk {
  id : string;
  user_id : string;
  stock_id : string;
  transaction_type : transaction_kind;
  quantity : Z;
  price : Q;
  total_amount : Q
}.
Definition of_stock (s : string) (r : row) : bool := String.eqb (stock_id r) s.
(** [id TEXT PRIMARY KEY]. *)
Definition insert (new : row) (t : list row) : option (list row) :=
  insert_unless (fun r => String.eqb (id r) (id new)) new t.
End Transactions.

Module Loans.
Record row : Type := mk {
  id : string;
  user_id : string;
  amount : Q;
  interest_rate : Q
}.
(** [interest_rate REAL DEFAULT 0.05]. *)
Definition default_interest_rate : Q := 5 # 100.
(** [id TEXT PRIMARY KEY]. *)
Definition insert (new : row) (t : list row) : option (list row) :=
  insert_unless (fun r => String.eqb (id r) (id new)) new t.
End Loans.

(** The database: one list per table. *)
Record db : Type := mkdb {
  users : list Users.row;
  stocks : list Stocks.row;
  stock_price_history : list History.row;
  user_portfolios : list Portfolios.row;
  transactions : list Transactions.row;
  loans : list Loans.row
}.

Definition empty_db : db := mkdb [] [] [] [] [] [].

Definition with_users (s : db) (t : list Users.row) : db :=
  mkdb t (stocks s) (stock_price_history s) (user_portfolios s)
       (transactions s) (loans s).
Definition with_stocks (s : db) (t : list Stocks.row) : db :=
  mkdb (users s) t (stock_price_history s) (user_portfolios s)
       (transactions s) (loans s).
Definition with_history (s : db) (t : list History.row) : db :=
  mkdb (users s) (stocks s) t (user_portfolios s) (transactions s) (loans s).
Definition with_portfolios (s : db) (t : list Portfolios.row) : db :=
  mkdb (users s) (stocks s) (stock_price_history s) t (transactions s) (loans s).
Definition with_transactions (s : db) (t : list Transactions.row) : db :=
  mkdb (users s) (stocks s) (stock_price_history s) (user_portfolios s) t (loans s).
Definition with_loans (s : db) (t : list Loans.row) : db :=
  mkdb (users s) (stocks s) (stock_price_history s) (user_portfolios s)
       (transactions s) t.

(** ** What a method returns *)

(** The texts of ["message"]. *)
Inductive message : Type :=
| Stock_not_found                  (* "Stock not found" *)
| Insufficient_stock_availability  (* "Insufficient stock availability" *)
| User_not_found                   (* "User not found" *)
| Insufficient_balance             (* "Insufficient balance" *)
| Insufficient_stocks_to_sell      (* "Insufficient stocks to sell" *)
| Loan_amount_exceeds (max_loan : Q)
    (* f"Loan amount exceeds maximum limit of {max_loan}" *)
| Stock_symbol_already_exists      (* "Stock symbol already exists" *)
| Str (e : exn).                   (* str(e), lines 414 and 498 *)

(** [Success d] is the dictionary [{"success": True, **d}], [Failure m] is
    [{"success": False, "message": m}], and [Raised e] is an exception
    that leaves the method. *)
Inductive result (A : Type) : Type :=
| Success (payload : A)
| Failure (m : message)
| Raised (e : exn).
Arguments Success {A} payload.
Arguments Failure {A} m.
Arguments Raised {A} e.

Definition is_success {A : Type} (r : result A) : bool :=
  match r with Success _ => true | _ => false end.

Record loan_receipt : Type := mk_loan_receipt {
  lr_loan_id : string;
  lr_amount : Q;
  lr_new_balance : Q;
  lr_total_loan : Q
}.

Record buy_receipt : Type := mk_buy_receipt {
  br_transaction_id : string;
  br_symbol : string;
  br_quantity : Z;
  br_price : Q;
  br_total_cost : Q;
  br_new_balance : Q
}.

Record sell_receipt : Type := mk_sell_receipt {
  sr_transaction_id : string;
  sr_symbol : string;
  sr_quantity : Z;
  sr_price : Q;
  sr_total_earnings : Q;
  sr_new_balance : Q
}.

(** ** setup_initial_data (lines 118-161) *)

Definition sample_stocks : list (string * string * Q * Z) :=
  [ ("AAPL", "Apple Inc.", 150, 1000%Z);
    ("GOOGL", "Alphabet Inc.", 80, 800%Z);
    ("MSFT", "Microsoft Corp.", 90, 900%Z);
    ("TSLA", "Tesla Inc.", 75, 600%Z);
    ("AMZN", "Amazon.com Inc.", 85, 700%Z) ].

(** The loop of lines 135-146; [uuid4 i] is the identifier drawn in round
    [i].  [None] is an [IntegrityError]. *)
Fixpoint insert_sample_stocks (l : list (string * string * Q * Z)) (i : nat)
    (uuid4 : nat -> string) (s : db) : option db :=
  match l with
  | [] => Some s
  | (symbol, name, price, quantity) :: rest =>
      let stock_id := uuid4 i in
      match Stocks.insert (Stocks.mk stock_id symbol name price quantity) (stocks s) with
      | None => None
      | Some t =>
          let s1 := with_stocks s t in
          let s2 := with_history s1
                      (stock_price_history s1 ++ [History.mk stock_id price]) in
          insert_sample_stocks rest (S i) uuid4 s2
      end
  end.

(** [f"user_{i+1}"]. *)
Definition user_name (i : nat) : string :=
  "user_" ++ NilEmpty.string_of_uint (Nat.to_uint (S i)).

(** The loop of lines 152-158, [todo] rounds from round [i]; the columns
    left out of the INSERT take their defaults. *)
Fixpoint insert_test_users (todo : nat) (i : nat) (uuid4 : nat -> string)
    (s : db) : option db :=
  match todo with
  | O => Some s
  | S todo' =>
      let user_id := uuid4 i in
      match Users.insert (Users.mk user_id (user_name i) 10000 0 100000) (users s) with
      | None => None
      | Some t => insert_test_users todo' (S i) uuid4 (with_users s t)
      end
  end.

Definition setup_initial_data (stock_uuid4 user_uuid4 : nat -> string) (s : db)
  : result unit * db :=
  let after_stocks :=
    if (List.length (stocks s) =? 0)%nat
    then insert_sample_stocks sample_stocks 0 stock_uuid4 s
    else Some s in
  match after_stocks with
  | None => (Raised IntegrityError, s)
  | Some s1 =>
      let after_users :=
        if (List.length (users s1) =? 0)%nat
        then insert_test_users 10 0 user_uuid4 s1
        else Some s1 in
      match after_users with
      | None => (Raised IntegrityError, s)
      | Some s2 => (Success tt, s2)
      end
  end.

(** ** update_stock_prices (lines 189-219) *)

(** The loop of lines 197-216 over the rows fetched at line 195;
    [change_percent i] is the value [random.uniform(-0.1, 0.1)] returns in
    round [i]. *)
Fixpoint update_each (fetched : list Stocks.row) (i : nat)
    (change_percent : nat -> Q) (s : db) : db :=
  match fetched with
  | [] => s
  | stock :: rest =>
      let stock_id := Stocks.id stock in
      let new_price :=
        clamp_price (Stocks.current_price stock * (1 + change_percent i)) in
      let s1 := with_stocks s
                  (update_where (Stocks.has_id stock_id)
                                (Stocks.set_current_price new_price) (stocks s)) in
      let s2 := with_history s1
                  (stock_price_history s1 ++ [History.mk stock_id new_price]) in
      update_each rest (S i) change_percent s2
  end.

Definition update_stock_prices (change_percent : nat -> Q) (s : db) : db :=
  update_each (stocks s) 0 change_percent s.

(** ** register_stock (lines 221-246) *)

(** [name] is a [str] and [quantity] an [int], as the request model
    declares them.  The parameters of the INSERT of line 230 are bound
    before it runs: a [quantity] beyond 64 bits raises [OverflowError],
    which the [except] of line 243 does not catch, so that it leaves the
    method with nothing written.  Both constraints of the table raise
    [IntegrityError], answered at line 244. *)
Definition register_stock (stock_id symbol name : string) (price : Q)
    (quantity : Z) (s : db) : result string * db :=
  let price := clamp_price price in
  if fits_int64 quantity then
    match Stocks.insert (Stocks.mk stock_id (upper symbol) name price quantity)
                        (stocks s) with
    | None => (Failure Stock_symbol_already_exists, s)
    | Some t =>
        let s1 := with_stocks s t in
        let s2 := with_history s1
                    (stock_price_history s1 ++ [History.mk stock_id price]) in
        (Success stock_id, s2)
    end
  else (Raised OverflowError, s).

(** ** take_loan (lines 275-319) *)

Definition take_loan (loan_id user_id : string) (amount : Q) (s : db)
  : result loan_receipt * db :=
  match select_one (Users.has_id user_id) (users s) with
  | None => (Failure User_not_found, s)
  | Some user =>
      let current_loan := Users.loan_amount user in
      let max_loan := Users.max_loan user in
      if Qlt_bool max_loan (current_loan + amount)
      then (Failure (Loan_amount_exceeds max_loan), s)
      else
        let new_balance := Users.balance user + amount in
        let new_loan_amount := current_loan + amount in
        match Loans.insert
                (Loans.mk loan_id user_id amount Loans.default_interest_rate)
                (loans s) with
        | None => (Raised IntegrityError, s)
        | Some t =>
            let s1 := with_loans s t in
            let s2 := with_users s1
                        (update_where (Users.has_id user_id)
                           (Users.set_balance_loan new_balance new_loan_amount)
                           (users s1)) in
            (Success (mk_loan_receipt loan_id amount new_balance new_loan_amount), s2)
        end
  end.

(** ** buy_stock (lines 321-416) *)

(** What the SELECTs of lines 328-344 give the method. *)
Record buy_reads : Type := mk_buy_reads {
  rd_stock_id : string;
  rd_price : Q;
  rd_available : Z;
  rd_balance : Q
}.

(** Lines 327-352: the two SELECTs and the checks on what they return.
    Nothing is written; the sqlite3 module opens the transaction at the
    first UPDATE (line 360). *)
Definition buy_stock_reads (user_id symbol : string) (quantity : Z) (s : db)
  : message + buy_reads :=
  match select_one (Stocks.has_symbol (upper symbol)) (stocks s) with
  | None => inl Stock_not_found
  | Some stock =>
      let stock_id := Stocks.id stock in
      let price := Stocks.current_price stock in
      let available := Stocks.available_quantity stock in
      if (available <? quantity)%Z then inl Insufficient_stock_availability
      else
        match select_one (Users.has_id user_id) (users s) with
        | None => inl User_not_found
        | Some user =>
            let total_cost := price * inject_Z quantity in
            if Qlt_bool (Users.balance user) total_cost
            then inl Insufficient_balance
            else inr (mk_buy_reads stock_id price available (Users.balance user))
        end
  end.

(** Lines 369-392: the position of [(user_id, stock_id)] after the buy. *)
Definition upsert_position (user_id stock_id : string) (quantity : Z) (price : Q)
    (t : list Portfolios.row) : exn + list Portfolios.row :=
  match select_one (Portfolios.has_key user_id stock_id) t with
  | Some portfolio =>
      let old_qty := Portfolios.quantity portfolio in
      let old_avg := Portfolios.avg_buy_price portfolio in
      let new_qty := (old_qty + quantity)%Z in
      if (new_qty =? 0)%Z then inl ZeroDivisionError
      else
        let new_avg :=
          (inject_Z old_qty * old_avg + inject_Z quantity * price)
          / inject_Z new_qty in
        inr (update_where (Portfolios.has_key user_id stock_id)
                          (Portfolios.set_quantity_avg new_qty new_avg) t)
  | None =>
      match Portfolios.insert (Portfolios.mk user_id stock_id quantity price) t with
      | None => inl IntegrityError
      | Some t' => inr t'
      end
  end.

(** Lines 354-416: the transaction.  The values written to [users] and
    [stocks] are computed from what was read; the position is read inside
    the transaction.  An exception is caught at line 412 and the
    transaction rolled back. *)
Definition buy_stock_writes (transaction_id user_id symbol : string)
    (quantity : Z) (r : buy_reads) (s : db) : result buy_receipt * db :=
  let stock_id := rd_stock_id r in
  let price := rd_price r in
  let total_cost := price * inject_Z quantity in
  let new_balance := rd_balance r - total_cost in
  let new_available := (rd_available r - quantity)%Z in
  let s1 := with_users s
              (update_where (Users.has_id user_id)
                            (Users.set_balance new_balance) (users s)) in
  let s2 := with_stocks s1
              (update_where (Stocks.has_id stock_id)
                            (Stocks.set_available_quantity new_available)
                            (stocks s1)) in
  match upsert_position user_id stock_id quantity price (user_portfolios s2) with
  | inl e => (Failure (Str e), s)
  | inr t =>
      let s3 := with_portfolios s2 t in
      match Transactions.insert
              (Transactions.mk transaction_id user_id stock_id BUY quantity
                               price total_cost)
              (transactions s3) with
      | None => (Failure (Str IntegrityError), s)
      | Some t' =>
          (Success (mk_buy_receipt transaction_id (upper symbol) quantity price
                                   total_cost new_balance),
           with_transactions s3 t')
      end
  end.

(** One call, nothing else touching the database meanwhile. *)
Definition buy_stock (transaction_id user_id symbol : string) (quantity : Z)
    (s : db) : result buy_receipt * db :=
  match buy_stock_reads user_id symbol quantity s with
  | inl m => (Failure m, s)
  | inr r => buy_stock_writes transaction_id user_id symbol quantity r s
  end.

(** ** sell_stock (lines 418-500) *)

Definition sell_stock (transaction_id user_id symbol : string) (quantity : Z)
    (s : db) : result sell_receipt * db :=
  match select_one (Stocks.has_symbol (upper symbol)) (stocks s) with
  | None => (Failure Stock_not_found, s)
  | Some stock =>
      let stock_id := Stocks.id stock in
      let price := Stocks.current_price stock in
      let available := Stocks.available_quantity stock in
      match select_one (Portfolios.has_key user_id stock_id) (user_portfolios s) with
      | None => (Failure Insufficient_stocks_to_sell, s)
      | Some portfolio =>
          if (Portfolios.quantity portfolio <? quantity)%Z
          then (Failure Insufficient_stocks_to_sell, s)
          else
            match select_one (Users.has_id user_id) (users s) with
            | None =>
                (* user['balance'] with user = None, line 454 *)
                (Failure (Str TypeError), s)
            | Some user =>
                let total_earnings := price * inject_Z quantity in
                let new_balance := Users.balance user + total_earnings in
                let new_portfolio_qty := (Portfolios.quantity portfolio - quantity)%Z in
                let new_available := (available + quantity)%Z in
                let s1 := with_users s
                            (update_where (Users.has_id user_id)
                                          (Users.set_balance new_balance) (users s)) in
                let s2 := with_stocks s1
                            (update_where (Stocks.has_id stock_id)
                               (Stocks.set_available_quantity new_available)
                               (stocks s1)) in
                let s3 := with_portfolios s2
                            (if (new_portfolio_qty =? 0)%Z
                             then delete_where (Portfolios.has_key user_id stock_id)
                                               (user_portfolios s2)
                             else update_where (Portfolios.has_key user_id stock_id)
                                    (Portfolios.set_quantity new_portfolio_qty)
                                    (user_portfolios s2)) in
                match Transactions.insert
                        (Transactions.mk transaction_id user_id stock_id SELL
                                         quantity price total_earnings)
                        (transactions s3) with
                | None => (Failure (Str IntegrityError), s)
                | Some t' =>
                    (Success (mk_sell_receipt transaction_id (upper symbol)
                                quantity price total_earnings new_balance),
                     with_transactions s3 t')
                end
            end
      end
  end.

(** ** Calls in parallel threads

    Flask serves every request in a thread of its own (line 1006) and
    [simulate_trading_session] (line 891) starts up to ten; each call has
    its own connection.  The SELECTs of [buy_stock] run before its
    transaction opens, so between the reads of one call and its writes
    another call may read or commit.  A call is [Ready] before its reads,
    [HasRead] between its reads and its transaction, and [Returned]
    after. *)
Inductive call : Type :=
| Ready (transaction_id user_id symbol : string) (quantity : Z)
| HasRead (transaction_id user_id symbol : string) (quantity : Z) (r : buy_reads)
| Returned (res : result buy_receipt).

(** The next phase of one call. *)
Definition advance (c : call) (s : db) : call * db :=
  match c with
  | Ready tid uid sym q =>
      match buy_stock_reads uid sym q s with
      | inl m => (Returned (Failure m), s)
      | inr r => (HasRead tid uid sym q r, s)
      end
  | HasRead tid uid sym q r =>
      let (res, s') := buy_stock_writes tid uid sym q r s in
      (Returned res, s')
  | Returned res => (Returned res, s)
  end.

(** Call number [i] of the pool takes its next phase. *)
Fixpoint advance_nth (i : nat) (pool : list call) (s : db) : list call * db :=
  match pool with
  | [] => ([], s)
  | c :: rest =>
      match i with
      | O => let (c', s') := advance c s in (c' :: rest, s')
      | S i' => let (rest', s') := advance_nth i' rest s in (c :: rest', s')
      end
  end.

(** A schedule names, phase after phase, the call that runs. *)
Fixpoint run_schedule (schedule : list nat) (pool : list call) (s : db)
  : list call * db :=
  match schedule with
  | [] => (pool, s)
  | i :: rest =>
      let (pool', s') := advance_nth i pool s in
      run_schedule rest pool' s'
  end.

Definition succeeded (c : call) : bool :=
  match c with Returned (Success _) => true | _ => false end.

Definition out_of_stock (c : call) : bool :=
  match c with
  | Returned (Failure Insufficient_stock_availability) => true
  | _ => false
  end.

(** Calls for one unit each of one stock, taken one after the other; a
    call is a transaction identifier and a user. *)
Fixpoint buy_one_each (calls : list (string * string)) (symbol : string) (s : db)
  : list (result buy_receipt) * db :=
  match calls with
  | [] => ([], s)
  | (transaction_id, user_id) :: rest =>
      let (r, s1) := buy_stock transaction_id user_id symbol 1 s in
      let (rs, s2) := buy_one_each rest symbol s1 in
      (r :: rs, s2)
  end.

Definition sold_out (r : result buy_receipt) : bool :=
  match r with
  | Failure Insufficient_stock_availability => true
  | _ => false
  end.

(** ** get_stock_report (lines 589-625) *)

(** [LEFT JOIN t ON on]: the matching rows of [t], or one row of NULLs. *)
Definition left_join {A : Type} (on : A -> bool) (t : list A) : list (option A) :=
  match filter on t with
  | [] => [None]
  | l => map Some l
  end.

(** The rows of the group of stock [st] at line 609:
    [stocks LEFT JOIN transactions LEFT JOIN stock_price_history]. *)
Definition joined_rows (s : db) (st : Stocks.row)
  : list (option Transactions.row * option History.row) :=
  flat_map
    (fun t =>
       map (fun h => (t, h))
           (left_join (History.of_stock (Stocks.id st)) (stock_price_history s)))
    (left_join (Transactions.of_stock (Stocks.id st)) (transactions s)).

(** The values of a column that are not NULL. *)
Definition not_null {A B : Type} (col : A -> option B) (rows : list A) : list B :=
  flat_map (fun r => match col r with Some v => [v] | None => [] end) rows.

Definition sql_count {A B : Type} (col : A -> option B) (rows : list A) : Z :=
  Z.of_nat (List.length (not_null col rows)).

Definition sql_sum (l : list Z) : Z := fold_right Z.add 0%Z l.

Definition Qsum (l : list Q) : Q := fold_right Qplus 0 l.

Definition sql_avg (l : list Q) : option Q :=
  match l with
  | [] => None
  | _ => Some (Qsum l / inject_Z (Z.of_nat (List.length l)))
  end.

Definition sql_max (l : list Q) : option Q :=
  match l with
  | [] => None
  | x :: r => Some (fold_left py_max r x)
  end.

Definition sql_min (l : list Q) : option Q :=
  match l with
  | [] => None
  | x :: r => Some (fold_left py_min r x)
  end.

(** [CASE WHEN t.transaction_type = k THEN t.quantity ELSE 0 END]. *)
Definition quantity_if (k : transaction_kind) (t : option Transactions.row) : Z :=
  match t with
  | Some r =>
      match Transactions.transaction_type r, k with
      | BUY, BUY | SELL, SELL => Transactions.quantity r
      | _, _ => 0%Z
      end
  | None => 0%Z
  end.

(** The truth value Python gives a column: NULL and 0.0 are false. *)
Definition truthy (v : option Q) : bool :=
  match v with
  | Some x => negb (Qeq_bool x 0)
  | None => false
  end.

Record stock_report_row : Type := mk_stock_report_row {
  rp_symbol : string;
  rp_name : string;
  rp_current_price : Q;
  rp_available_quantity : Z;
  transaction_count : Z;
  total_bought : Z;
  total_sold : Z;
  avg_transaction_price : option Q;
  max_price : option Q;
  min_price : option Q;
  volatility_percent : Q
}.

(** Lines 615-621. *)
Definition volatility (max_price min_price : option Q) : Q :=
  match max_price, min_price with
  | Some mx, Some mn =>
      if truthy max_price && truthy min_price then ((mx - mn) / mn) * 100 else 0
  | _, _ => 0
  end.

Definition stock_report_of (s : db) (st : Stocks.row) : stock_report_row :=
  let rows := joined_rows s st in
  let t_price := not_null (fun r => option_map Transactions.price (fst r)) rows in
  let h_price := not_null (fun r => option_map History.price (snd r)) rows in
  let mx := sql_max h_price in
  let mn := sql_min h_price in
  mk_stock_report_row
    (Stocks.symbol st) (Stocks.name st) (Stocks.current_price st)
    (Stocks.available_quantity st)
    (sql_count (fun r => option_map Transactions.id (fst r)) rows)
    (sql_sum (map (fun r => quantity_if BUY (fst r)) rows))
    (sql_sum (map (fun r => quantity_if SELL (fst r)) rows))
    (sql_avg t_price) mx mn (volatility mx mn).

(** One group per stock ([stocks.id] is the primary key); the order of the
    groups is the order of the table here. *)
Definition get_stock_report (s : db) : list stock_report_row :=
  map (stock_report_of s) (stocks s).

(** ** get_user_report (lines 502-587) *)

Definition of_user (user_id : string) (r : Portfolios.row) : bool :=
  String.eqb (Portfolios.user_id r) user_id.

Definition by_user (user_id : string) (t : Transactions.row) : bool :=
  String.eqb (Transactions.user_id t) user_id.

(** The rows of the query of lines 518-523:
    [user_portfolios up JOIN stocks s ON up.stock_id = s.id WHERE up.user_id = ?].
    The query has no ORDER BY and leaves the order of its rows to SQLite;
    they come here in the order of the table, and what is stated of them
    is stated up to their order. *)
Definition holdings_of (user_id : string) (s : db)
  : list (Portfolios.row * Stocks.row) :=
  flat_map
    (fun up =>
       map (fun st => (up, st))
           (select_all (Stocks.has_id (Portfolios.stock_id up)) (stocks s)))
    (select_all (of_user user_id) (user_portfolios s)).

(** One entry of ["portfolio"], lines 531-549. *)
Record holding : Type := mk_holding {
  hd_symbol : string;
  hd_quantity : Z;
  hd_avg_buy_price : Q;
  hd_current_price : Q;
  position_value : Q;
  position_pnl : Q
}.

Definition holding_of (row : Portfolios.row * Stocks.row) : holding :=
  let qty := Portfolios.quantity (fst row) in
  let avg_price := Portfolios.avg_buy_price (fst row) in
  let current_price := Stocks.current_price (snd row) in
  mk_holding (Stocks.symbol (snd row)) qty avg_price current_price
             (inject_Z qty * current_price)
             (inject_Z qty * (current_price - avg_price)).

(** [CASE WHEN transaction_type = k THEN total_amount ELSE 0 END]. *)
Definition amount_if (k : transaction_kind) (t : Transactions.row) : Q :=
  match Transactions.transaction_type t, k with
  | BUY, BUY | SELL, SELL => Transactions.total_amount t
  | _, _ => 0
  end.

(** The sums of lines 552-561, 0 for a user without transactions. *)
Definition total_sales_of (user_id : string) (s : db) : Q :=
  Qsum (map (amount_if SELL) (select_all (by_user user_id) (transactions s))).

Definition total_purchases_of (user_id : string) (s : db) : Q :=
  Qsum (map (amount_if BUY) (select_all (by_user user_id) (transactions s))).

(** Line 564. *)
Definition initial_balance : Q := 10000.

Record user_report : Type := mk_user_report {
  ur_username : string;
  ur_balance : Q;
  ur_loan_amount : Q;
  ur_portfolio_value : Q;
  ur_net_worth : Q;
  ur_total_pnl : Q;
  ur_unrealized_pnl : Q;
  ur_realized_pnl : Q;
  ur_total_purchases : Q;
  ur_total_sales : Q;
  ur_portfolio : list holding
}.

Definition get_user_report (user_id : string) (s : db) : result user_report :=
  match select_one (Users.has_id user_id) (users s) with
  | None => Failure User_not_found
  | Some user =>
      let portfolio_details := map holding_of (holdings_of user_id s) in
      let portfolio_value :=
        fold_left (fun acc h => acc + position_value h) portfolio_details 0 in
      let unrealized_pnl :=
        fold_left (fun acc h => acc + position_pnl h) portfolio_details 0 in
      let total_sales := total_sales_of user_id s in
      let total_purchases := total_purchases_of user_id s in
      let net_worth :=
        Users.balance user + portfolio_value - Users.loan_amount user in
      let total_pnl := net_worth - initial_balance in
      Success (mk_user_report (Users.username user) (Users.balance user)
                 (Users.loan_amount user) portfolio_value net_worth total_pnl
                 unrealized_pnl (total_sales - total_purchases)
                 total_purchases total_sales portfolio_details)
  end.

(** ** Sorting and slicing as Python does *)

(** [l.sort(reverse=True)] keeps, among the elements none of which is
    smaller than the other, the order they came in: an element goes in
    front of the first one it is not smaller than. *)
Fixpoint insert_desc {A : Type} (lt : A -> A -> bool) (x : A) (l : list A)
  : list A :=
  match l with
  | [] => [x]
  | y :: l' => if lt x y then y :: insert_desc lt x l' else x :: l
  end.

Definition sort_desc {A : Type} (lt : A -> A -> bool) (l : list A) : list A :=
  fold_right (insert_desc lt) [] l.

(** [x] is not smaller than [y] in the order of a sort. *)
Definition not_smaller {A : Type} (lt : A -> A -> bool) (x y : A) : Prop :=
  lt x y = false.

(** [l[:limit]]: the first [limit] elements, all but the last [-limit]
    when [limit] is negative. *)
Definition py_prefix {A : Type} (limit : Z) (l : list A) : list A :=
  if (0 <=? limit)%Z then firstn (Z.to_nat limit) l
  else firstn (List.length l - Z.to_nat (- limit)) l.

(** ** get_top_users (lines 627-665) *)

(** The rows of the group of user [u] at line 643:
    [users LEFT JOIN user_portfolios LEFT JOIN stocks]. *)
Definition user_rows (u : Users.row) (s : db)
  : list (option Portfolios.row * option Stocks.row) :=
  flat_map
    (fun up =>
       map (fun st => (up, st))
           (left_join
              (fun st => match up with
                         | Some p => Stocks.has_id (Portfolios.stock_id p) st
                         | None => false
                         end)
              (stocks s)))
    (left_join (of_user (Users.id u)) (user_portfolios s)).

(** [up.quantity * s.current_price], NULL when a side is. *)
Definition row_value (r : option Portfolios.row * option Stocks.row) : option Q :=
  match r with
  | (Some p, Some st) => Some (inject_Z (Portfolios.quantity p) * Stocks.current_price st)
  | _ => None
  end.

(** [COALESCE(SUM(up.quantity * s.current_price), 0)]. *)
Definition portfolio_value_of (u : Users.row) (s : db) : Q :=
  Qsum (not_null row_value (user_rows u s)).

Record ranked_user : Type := mk_ranked_user {
  ru_username : string;
  ru_balance : Q;
  ru_portfolio_value : Q;
  ru_loan_amount : Q;
  ru_net_worth : Q;
  ru_total_pnl : Q
}.

(** Lines 647-659. *)
Definition rank_user (s : db) (u : Users.row) : ranked_user :=
  let portfolio_value := portfolio_value_of u s in
  let net_worth := Users.balance u + portfolio_value - Users.loan_amount u in
  let total_pnl := net_worth - 10000 in
  mk_ranked_user (Users.username u) (Users.balance u) portfolio_value
                 (Users.loan_amount u) net_worth total_pnl.

Definition by_total_pnl (x y : ranked_user) : bool :=
  Qlt_bool (ru_total_pnl x) (ru_total_pnl y).

(** One group per user ([users.id] is the primary key), in the order of the
    table here. *)
Definition get_top_users (limit : Z) (s : db) : list ranked_user :=
  py_prefix limit (sort_desc by_total_pnl (map (rank_user s) (users s))).

(** ** get_top_stocks (lines 667-702) *)

Record ranked_stock : Type := mk_ranked_stock {
  rs_symbol : string;
  rs_name : string;
  rs_current_price : Q;
  rs_transaction_count : Z;
  rs_total_volume : Z;
  rs_avg_price : option Q;
  price_performance_percent : Q
}.

(** Lines 690-693. *)
Definition price_performance (current_price : Q) (avg_price : option Q) : Q :=
  match avg_price with
  | Some avg =>
      if truthy avg_price then ((current_price - avg) / avg) * 100 else 0
  | None => 0
  end.

(** [COUNT(sph.id)] of the group of a stock. *)
Definition history_count (s : db) (st : Stocks.row) : Z :=
  sql_count (fun r => option_map History.stock_id (snd r)) (joined_rows s st).

Definition rank_stock (s : db) (st : Stocks.row) : ranked_stock :=
  let rows := joined_rows s st in
  let avg_price :=
    sql_avg (not_null (fun r => option_map History.price (snd r)) rows) in
  mk_ranked_stock
    (Stocks.symbol st) (Stocks.name st) (Stocks.current_price st)
    (sql_count (fun r => option_map Transactions.id (fst r)) rows)
    (sql_sum (map (fun r => quantity_if BUY (fst r)) rows))
    avg_price (price_performance (Stocks.current_price st) avg_price).

(** The order of the tuples [(total_volume or 0, price_performance_percent)]. *)
Definition by_volume_then_performance (x y : ranked_stock) : bool :=
  (rs_total_volume x <? rs_total_volume y)%Z
  || ((rs_total_volume x =? rs_total_volume y)%Z
      && Qlt_bool (price_performance_percent x) (price_performance_percent y)).

(** [HAVING COUNT(sph.id) > 1], the sort of line 699 and the slice. *)
Definition get_top_stocks (limit : Z) (s : db) : list ranked_stock :=
  py_prefix limit
    (sort_desc by_volume_then_performance
       (map (rank_stock s)
            (filter (fun st => (1 <? history_count s st)%Z) (stocks s)))).

(** ** What the methods keep true of users and of the audit tables *)

(** An identifier names at most one user; no loan exceeds its limit;
    positions, transactions and loans belong to users of the table, and
    transactions to stocks of the table; the amount of a transaction is
    its price times its quantity; and the balance of a user is the
    10000 of the start, plus the loans, plus the sales, minus the
    purchases. *)
Record ledger (s : db) : Prop := mk_ledger {
  lg_user_id : forall i,
    (List.length (select_all (Users.has_id i) (users s)) <= 1)%nat;
  lg_loan_bound : forall u,
    In u (users s) -> Users.loan_amount u <= Users.max_loan u;
  lg_position_user : forall r,
    In r (user_portfolios s) ->
    existsb (Users.has_id (Portfolios.user_id r)) (users s) = true;
  lg_transaction_user : forall t,
    In t (transactions s) ->
    existsb (Users.has_id (Transactions.user_id t)) (users s) = true;
  lg_transaction_stock : forall t,
    In t (transactions s) ->
    existsb (Stocks.has_id (Transactions.stock_id t)) (stocks s) = true;
  lg_loan_user : forall l,
    In l (loans s) ->
    existsb (Users.has_id (Loans.user_id l)) (users s) = true;
  lg_amount : forall t,
    In t (transactions s) ->
    Transactions.total_amount t
    == Transactions.price t * inject_Z (Transactions.quantity t);
  lg_cash : forall u,
    In u (users s) ->
    Users.balance u
    == initial_balance + Users.loan_amount u
       + (total_sales_of (Users.id u) s - total_purchases_of (Users.id u) s)
}.

(** ** Quantities the properties speak of *)

(** The rows of a stock, by identifier and by symbol. *)
Definition stock_by_id (stock_id : string) (s : db) : option Stocks.row :=
  select_one (Stocks.has_id stock_id) (stocks s).

Definition stock_by_symbol (symbol : string) (s : db) : option Stocks.row :=
  select_one (Stocks.has_symbol symbol) (stocks s).

Definition user_by_id (user_id : string) (s : db) : option Users.row :=
  select_one (Users.has_id user_id) (users s).

Definition position (user_id stock_id : string) (s : db) : option Portfolios.row :=
  select_one (Portfolios.has_key user_id stock_id) (user_portfolios s).

(** Units of a stock in the portfolios of all users. *)
Definition held_in (stock_id : string) (t : list Portfolios.row) : Z :=
  sql_sum (map Portfolios.quantity (select_all (Portfolios.of_stock stock_id) t)).

Definition held (stock_id : string) (s : db) : Z :=
  held_in stock_id (user_portfolios s).

(** Units of a stock on offer, over the rows that carry the identifier
    (one row, the identifier being the primary key). *)
Definition available (stock_id : string) (s : db) : Z :=
  sql_sum (map Stocks.available_quantity
               (select_all (Stocks.has_id stock_id) (stocks s))).

(** Units of a stock in existence. *)
Definition total_units (stock_id : string) (s : db) : Z :=
  (available stock_id s + held stock_id s)%Z.

(** The value of a position at the prices of a table of stocks, and the
    value of the positions of a user. *)
Definition value_at (t : list Stocks.row) (up : Portfolios.row) : Q :=
  Qsum (map (fun st => inject_Z (Portfolios.quantity up) * Stocks.current_price st)
            (select_all (Stocks.has_id (Portfolios.stock_id up)) t)).

Definition holdings_value (user_id : string) (s : db) : Q :=
  Qsum (map (value_at (stocks s))
            (select_all (of_user user_id) (user_portfolios s))).

(** The transactions and the price history of a stock. *)
Definition transactions_of (stock_id : string) (s : db) : list Transactions.row :=
  select_all (Transactions.of_stock stock_id) (transactions s).

Definition history_of (stock_id : string) (s : db) : list History.row :=
  select_all (History.of_stock stock_id) (stock_price_history s).

Definition quantity_of_kind (k : transaction_kind) (r : Transactions.row) : Z :=
  quantity_if k (Some r).

(** The units of a stock a user holds: the quantity of the position, 0
    without one. *)
Definition units_held (user_id stock_id : string) (s : db) : Z :=
  sql_sum (map Portfolios.quantity
             (select_all (Portfolios.has_key user_id stock_id) (user_portfolios s))).

(** The transactions of a user in a stock, and what they add up to: the
    quantities bought less the quantities sold. *)
Definition trade_of (user_id stock_id : string) (t : Transactions.row) : bool :=
  String.eqb (Transactions.user_id t) user_id
  && String.eqb (Transactions.stock_id t) stock_id.

Definition signed_quantity (t : Transactions.row) : Z :=
  match Transactions.transaction_type t with
  | BUY => Transactions.quantity t
  | SELL => (- Transactions.quantity t)%Z
  end.

Definition net_bought (user_id stock_id : string) (s : db) : Z :=
  sql_sum (map signed_quantity
             (select_all (trade_of user_id stock_id) (transactions s))).

(** ** Sequences of calls *)

(** One call of a method that writes, with everything it draws. *)
Inductive op : Type :=
| Setup_initial_data (stock_uuid4 user_uuid4 : nat -> string)
| Update_stock_prices (change_percent : nat -> Q)
| Register_stock (stock_id symbol name : string) (price : Q) (quantity : Z)
| Take_loan (loan_id user_id : string) (amount : Q)
| Buy_stock (transaction_id user_id symbol : string) (quantity : Z)
| Sell_stock (transaction_id user_id symbol : string) (quantity : Z).

(** The database a call leaves behind. *)
Definition apply (o : op) (s : db) : db :=
  match o with
  | Setup_initial_data su uu => snd (setup_initial_data su uu s)
  | Update_stock_prices cp => update_stock_prices cp s
  | Register_stock i sym n p q => snd (register_stock i sym n p q s)
  | Take_loan l u a => snd (take_loan l u a s)
  | Buy_stock t u sym q => snd (buy_stock t u sym q s)
  | Sell_stock t u sym q => snd (sell_stock t u sym q s)
  end.

(** Calls taken one after the other: each ends before the next begins. *)
Definition run (ops : list op) (s : db) : db :=
  fold_left (fun s o => apply o s) ops s.

(** A database the methods can build from the empty one. *)
Definition reachable (s : db) : Prop := exists ops, s = run ops empty_db.

(** What the constraints of the schema and the methods together keep
    true: an identifier names at most one stock, a key at most one
    position, and positions and price records belong to a stock of the
    table. *)
Record wf (s : db) : Prop := mk_wf {
  wf_stock_id : forall i,
    (List.length (select_all (Stocks.has_id i) (stocks s)) <= 1)%nat;
  wf_position_key : forall u i,
    (List.length (select_all (Portfolios.has_key u i) (user_portfolios s)) <= 1)%nat;
  wf_position_stock : forall r,
    In r (user_portfolios s) ->
    existsb (Stocks.has_id (Portfolios.stock_id r)) (stocks s) = true;
  wf_history_stock : forall h,
    In h (stock_price_history s) ->
    existsb (Stocks.has_id (History.stock_id h)) (stocks s) = true
}.

(** A price within the bounds of lines 205 and 228. *)
Definition in_bounds (st : Stocks.row) : Prop :=
  1 <= Stocks.current_price st <= 100.


(** ** Databases used as examples *)

Definition example_uuid4 (prefix : string) (i : nat) : string :=
  prefix ++ NilEmpty.string_of_uint (Nat.to_uint i).

(** The call the constructor makes. *)
Definition boot : op :=
  Setup_initial_data (example_uuid4 "stock-") (example_uuid4 "user-").

(** The database the constructor of the system leaves on a new file. *)
Definition seeded : db := run [boot] empty_db.

(** One unit of a new stock on top of [seeded]. *)
Definition one_unit : db :=
  run [boot; Register_stock "stock-xyz" "XYZ" "Xyz Corp." 50 1] empty_db.

(** A hundred units of a new stock on top of [seeded]. *)
Definition hundred_units : db :=
  run [boot; Register_stock "stock-xyz" "xyz" "Xyz Corp." 50 100] empty_db.

(** Calls after the registration of XYZ. *)
Definition trades : list op :=
  [ Buy_stock "t1" "user-0" "XYZ" 10;
    Update_stock_prices (fun _ => 1 # 20);
    Buy_stock "t2" "user-1" "xyz" 5;
    Sell_stock "t3" "user-0" "XYZ" 4;
    Take_loan "l1" "user-2" 500;
    Sell_stock "t4" "user-1" "XYZ" 5 ].

(** Ten units of XYZ at 50, a rise of 5%, thirty more. *)
Definition first_buy : result buy_receipt * db :=
  buy_stock "t1" "user-0" "XYZ" 10 hundred_units.
Definition risen : db := update_stock_prices (fun _ => 1 # 20) (snd first_buy).
Definition second_buy : result buy_receipt * db :=
  buy_stock "t2" "user-0" "XYZ" 30 risen.

(** user_1 after 9000 spent on MSFT. *)
Definition after_purchase : db :=
  run [boot; Buy_stock "t1" "user-0" "MSFT" 100] empty_db.

(** A buy of MSFT, then one update of the prices. *)
Definition after_update : db :=
  run [boot; Buy_stock "t1" "user-0" "MSFT" 10;
       Update_stock_prices (fun _ => 1 # 20)] empty_db.

(** Two users ask for the one unit of XYZ at the same time. *)
Definition two_buyers : list call :=
  [ Ready "t1" "user-0" "XYZ" 1; Ready "t2" "user-1" "XYZ" 1 ].

(** * Properties *)

(** Evaluation of a closed statement. *)
Ltac by_evaluation := vm_compute; reflexivity.

(** ** Comparisons and the clamp *)

Lemma Qlt_bool_true (a b : Q) : Qlt_bool a b = true <-> a < b.
Proof.
  unfold Qlt_bool. rewrite negb_true_iff. split; intro H.
  - apply Qnot_le_lt. intro L. apply Qle_bool_iff in L. congruence.
  - destruct (Qle_bool b a) eqn:E; [|reflexivity].
    apply Qle_bool_iff in E. exfalso. exact (Qlt_not_le _ _ H E).
Qed.

Lemma Qlt_bool_false (a b : Q) : Qlt_bool a b = false <-> b <= a.
Proof.
  unfold Qlt_bool. rewrite negb_false_iff. apply Qle_bool_iff.
Qed.

Lemma clamp_price_bounds (price : Q) : 1 <= clamp_price price <= 100.
Proof.
  unfold clamp_price, py_max, py_min.
  destruct (Qlt_bool price 100) eqn:E1.
  - apply Qlt_bool_true in E1.
    destruct (Qlt_bool 1 price) eqn:E2.
    + apply Qlt_bool_true in E2. split; lra.
    + split; lra.
  - destruct (Qlt_bool 1 100) eqn:E2.
    + split; lra.
    + apply Qlt_bool_false in E2. lra.
Qed.


(** ** The SQL statements on lists *)

Section SqlFacts.
Context {A : Type}.
Implicit Types (m p : A -> bool) (f : A -> A) (g : A -> Z) (t : list A).

Lemma sql_sum_app (l1 l2 : list Z) :
  sql_sum (l1 ++ l2) = (sql_sum l1 + sql_sum l2)%Z.
Proof.
  induction l1 as [|x l1 IH]; simpl; [reflexivity|]. rewrite IH. lia.
Qed.

Lemma filter_nil_forall p t :
  filter p t = [] -> forall r, In r t -> p r = false.
Proof.
  induction t as [|a t IH]; simpl; intros H r Hr; [contradiction|].
  destruct (p a) eqn:E; [discriminate|].
  destruct Hr as [<-|Hr]; auto.
Qed.

Lemma existsb_false_filter p t : existsb p t = false -> filter p t = [].
Proof.
  induction t as [|a t IH]; simpl; [reflexivity|].
  destruct (p a); simpl; [discriminate|]. exact IH.
Qed.

Lemma find_existsb p t r : find p t = Some r -> existsb p t = true.
Proof.
  intro H. apply find_some in H. apply existsb_exists. exists r. exact H.
Qed.

Lemma update_where_untouched m f t :
  filter m t = [] -> update_where m f t = t.
Proof.
  induction t as [|a t IH]; simpl; [reflexivity|].
  destruct (m a); [discriminate|]. intro H. now rewrite IH.
Qed.

Lemma delete_where_untouched m t :
  filter m t = [] -> delete_where m t = t.
Proof.
  unfold delete_where.
  induction t as [|a t IH]; simpl; [reflexivity|].
  destruct (m a); [discriminate|]. simpl. intro H. now rewrite IH.
Qed.

(** At most one row matches [m] and [r] is a row that does. *)
Lemma find_the_row m t r :
  (List.length (filter m t) <= 1)%nat -> In r t -> m r = true ->
  find m t = Some r.
Proof.
  induction t as [|a t IH]; simpl; intros Hu Hin Hm; [contradiction|].
  destruct (m a) eqn:E.
  - destruct Hin as [->|Hin]; [reflexivity|].
    simpl in Hu.
    assert (Hnil : filter m t = []) by (destruct (filter m t); [reflexivity|simpl in Hu; lia]).
    rewrite (filter_nil_forall _ _ Hnil r Hin) in Hm. discriminate.
  - destruct Hin as [->|Hin]; [congruence|]. auto.
Qed.

Lemma find_update_where m f t :
  (forall r, m (f r) = m r) ->
  find m (update_where m f t) = option_map f (find m t).
Proof.
  intro Hf. induction t as [|a t IH]; simpl; [reflexivity|].
  destruct (m a) eqn:E.
  - rewrite Hf, E. reflexivity.
  - rewrite E. exact IH.
Qed.

Lemma filter_update_where_length m p f t :
  (forall r, p (f r) = p r) ->
  List.length (filter p (update_where m f t)) = List.length (filter p t).
Proof.
  intro Hf. induction t as [|a t IH]; simpl; [reflexivity|].
  destruct (m a).
  - rewrite Hf. destruct (p a); simpl; now rewrite IH.
  - destruct (p a); simpl; now rewrite IH.
Qed.

Lemma filter_delete_where_length m p t :
  (List.length (filter p (delete_where m t)) <= List.length (filter p t))%nat.
Proof.
  unfold delete_where. induction t as [|a t IH]; simpl; [lia|].
  destruct (m a); simpl; destruct (p a); simpl; lia.
Qed.

Lemma existsb_update_where m p f t :
  (forall r, p (f r) = p r) ->
  existsb p (update_where m f t) = existsb p t.
Proof.
  intro Hf. induction t as [|a t IH]; simpl; [reflexivity|].
  rewrite IH. destruct (m a); [rewrite Hf|]; reflexivity.
Qed.

Lemma in_update_where m f t r :
  In r (update_where m f t) ->
  exists r0, In r0 t /\ ((m r0 = false /\ r = r0) \/ (m r0 = true /\ r = f r0)).
Proof.
  unfold update_where. intro H. apply in_map_iff in H.
  destruct H as [r0 [E H]]. exists r0. split; [exact H|].
  destruct (m r0); [right|left]; auto.
Qed.

Lemma in_delete_where m t r : In r (delete_where m t) -> In r t.
Proof.
  unfold delete_where. intro H. apply filter_In in H. tauto.
Qed.

(** The sum of a column over the rows selected by [p], after an UPDATE of
    the one row that matches [m]. *)
Lemma sum_update_where m p g f t r :
  (List.length (filter m t) <= 1)%nat -> find m t = Some r ->
  sql_sum (map g (filter p (update_where m f t)))
  = (sql_sum (map g (filter p t))
     - (if p r then g r else 0) + (if p (f r) then g (f r) else 0))%Z.
Proof.
  induction t as [|a t IH]; simpl; intros Hu Hf; [discriminate|].
  destruct (m a) eqn:E.
  - injection Hf as ->. simpl in Hu.
    assert (Hnil : filter m t = []) by (destruct (filter m t); [reflexivity|simpl in Hu; lia]).
    rewrite (update_where_untouched _ _ _ Hnil).
    destruct (p r), (p (f r)); simpl; lia.
  - specialize (IH Hu Hf). destruct (p a); simpl; rewrite IH; lia.
Qed.

(** The same after a DELETE of the one row that matches [m]. *)
Lemma sum_delete_where m p g t r :
  (List.length (filter m t) <= 1)%nat -> find m t = Some r ->
  sql_sum (map g (filter p (delete_where m t)))
  = (sql_sum (map g (filter p t)) - (if p r then g r else 0))%Z.
Proof.
  induction t as [|a t IH]; intros Hu Hf; [discriminate|].
  simpl in Hu, Hf. unfold delete_where. simpl. fold (delete_where m t).
  destruct (m a) eqn:E; simpl.
  - injection Hf as ->. simpl in Hu.
    assert (Hnil : filter m t = []) by (destruct (filter m t); [reflexivity|simpl in Hu; lia]).
    rewrite (delete_where_untouched _ _ Hnil).
    destruct (p r); simpl; lia.
  - specialize (IH Hu Hf). destruct (p a); simpl; rewrite IH; lia.
Qed.

(** The same after an INSERT. *)
Lemma sum_insert p g t row :
  sql_sum (map g (filter p (t ++ [row])))
  = (sql_sum (map g (filter p t)) + (if p row then g row else 0))%Z.
Proof.
  rewrite filter_app, map_app, sql_sum_app. simpl.
  destruct (p row); simpl; lia.
Qed.

Lemma insert_unless_some clash row t t' :
  insert_unless clash row t = Some t' ->
  filter clash t = [] /\ t' = t ++ [row].
Proof.
  unfold insert_unless. destruct (existsb clash t) eqn:E; [discriminate|].
  intro H. injection H as <-. split; [now apply existsb_false_filter|reflexivity].
Qed.

End SqlFacts.

(** ** The invariant [wf], statement by statement *)

Lemma wf_empty : wf empty_db.
Proof.
  constructor; simpl; intros; try lia; contradiction.
Qed.

Lemma wf_with_users s t : wf s -> wf (with_users s t).
Proof. intros [H1 H2 H3 H4]. constructor; assumption. Qed.

Lemma wf_with_loans s t : wf s -> wf (with_loans s t).
Proof. intros [H1 H2 H3 H4]. constructor; assumption. Qed.

Lemma wf_with_transactions s t : wf s -> wf (with_transactions s t).
Proof. intros [H1 H2 H3 H4]. constructor; assumption. Qed.

(** An UPDATE of [stocks] that leaves [id] alone. *)
Lemma wf_update_stocks s m f :
  (forall r, Stocks.id (f r) = Stocks.id r) ->
  wf s -> wf (with_stocks s (update_where m f (stocks s))).
Proof.
  intros Hf [H1 H2 H3 H4].
  assert (Hp : forall i r, Stocks.has_id i (f r) = Stocks.has_id i r)
    by (intros i r; unfold Stocks.has_id; now rewrite Hf).
  constructor; simpl.
  - intro i. unfold select_all. rewrite filter_update_where_length by auto. apply H1.
  - exact H2.
  - intros r Hr. rewrite existsb_update_where by auto. auto.
  - intros h Hh. rewrite existsb_update_where by auto. auto.
Qed.

Lemma has_id_clash new r :
  Stocks.has_id (Stocks.id new) r = true ->
  (String.eqb (Stocks.id r) (Stocks.id new)
   || String.eqb (Stocks.symbol r) (Stocks.symbol new))%bool = true.
Proof. unfold Stocks.has_id. intros ->. reflexivity. Qed.

(** No row of a table that accepted [new] carries its identifier. *)
Lemma stocks_insert_fresh new t t' :
  Stocks.insert new t = Some t' ->
  filter (Stocks.has_id (Stocks.id new)) t = [] /\ t' = t ++ [new].
Proof.
  unfold Stocks.insert. intro H. apply insert_unless_some in H.
  destruct H as [Hnil ->]. split; [|reflexivity].
  destruct (filter (Stocks.has_id (Stocks.id new)) t) as [|r l] eqn:E; [reflexivity|].
  assert (Hin : In r (filter (Stocks.has_id (Stocks.id new)) t)) by (rewrite E; now left).
  apply filter_In in Hin. destruct Hin as [Hin Hr].
  apply has_id_clash in Hr.
  rewrite (filter_nil_forall _ _ Hnil r Hin) in Hr. discriminate.
Qed.

(** An INSERT into [stocks]. *)
Lemma wf_insert_stock s new t' :
  Stocks.insert new (stocks s) = Some t' -> wf s -> wf (with_stocks s t').
Proof.
  intros Hi [H1 H2 H3 H4]. apply stocks_insert_fresh in Hi.
  destruct Hi as [Hnil ->].
  constructor; simpl.
  - intro i. unfold select_all. rewrite filter_app, length_app. simpl.
    destruct (Stocks.has_id i new) eqn:E; simpl; [|specialize (H1 i); unfold select_all in H1; lia].
    unfold Stocks.has_id in E. apply String.eqb_eq in E. subst i.
    rewrite Hnil. simpl. lia.
  - exact H2.
  - intros r Hr. rewrite existsb_app, (H3 r Hr). reflexivity.
  - intros h Hh. rewrite existsb_app, (H4 h Hh). reflexivity.
Qed.

(** An INSERT into [stock_price_history] for a stock of the table. *)
Lemma wf_insert_history s i p :
  existsb (Stocks.has_id i) (stocks s) = true ->
  wf s ->
  wf (with_history s (stock_price_history s ++ [History.mk i p])).
Proof.
  intros He [H1 H2 H3 H4]. constructor; simpl; auto.
  intros h Hh. apply in_app_or in Hh. destruct Hh as [Hh|[<-|[]]]; auto.
Qed.

(** An UPDATE of [user_portfolios] that leaves the key alone. *)
Lemma wf_update_portfolios s m f :
  (forall r, Portfolios.user_id (f r) = Portfolios.user_id r) ->
  (forall r, Portfolios.stock_id (f r) = Portfolios.stock_id r) ->
  wf s -> wf (with_portfolios s (update_where m f (user_portfolios s))).
Proof.
  intros Hu Hs [H1 H2 H3 H4]. constructor; simpl; auto.
  - intros u i. unfold select_all. rewrite filter_update_where_length; [apply H2|].
    intro r. unfold Portfolios.has_key. now rewrite Hu, Hs.
  - intros r Hr. apply in_update_where in Hr.
    destruct Hr as [r0 [Hin [[_ ->]|[_ ->]]]]; [|rewrite Hs]; auto.
Qed.

(** A DELETE on [user_portfolios]. *)
Lemma wf_delete_portfolios s m :
  wf s -> wf (with_portfolios s (delete_where m (user_portfolios s))).
Proof.
  intros [H1 H2 H3 H4]. constructor; simpl; auto.
  - intros u i. unfold select_all.
    eapply Nat.le_trans; [apply filter_delete_where_length|apply H2].
  - intros r Hr. apply in_delete_where in Hr. auto.
Qed.

(** An INSERT into [user_portfolios] for a stock of the table. *)
Lemma wf_insert_portfolio s new t' :
  Portfolios.insert new (user_portfolios s) = Some t' ->
  existsb (Stocks.has_id (Portfolios.stock_id new)) (stocks s) = true ->
  wf s -> wf (with_portfolios s t').
Proof.
  intros Hi He [H1 H2 H3 H4]. unfold Portfolios.insert in Hi.
  apply insert_unless_some in Hi. destruct Hi as [Hnil ->].
  constructor; simpl; auto.
  - intros u i. unfold select_all. rewrite filter_app, length_app. simpl.
    destruct (Portfolios.has_key u i new) eqn:E; simpl;
      [|specialize (H2 u i); unfold select_all in H2; lia].
    unfold Portfolios.has_key in E. apply andb_true_iff in E.
    destruct E as [Eu Es]. apply String.eqb_eq in Eu, Es. subst u i.
    rewrite Hnil. simpl. lia.
  - intros r Hr. apply in_app_or in Hr. destruct Hr as [Hr|[<-|[]]]; auto.
Qed.

(** ** Units on offer and units held, statement by statement *)

Lemma has_id_of_find i t st :
  select_one (Stocks.has_id i) t = Some st -> Stocks.id st = i.
Proof.
  intro H. apply find_some in H. destruct H as [_ H].
  now apply String.eqb_eq in H.
Qed.

(** The row a symbol selects is the row its identifier selects. *)
Lemma find_by_symbol_by_id s sym st :
  wf s ->
  select_one (Stocks.has_symbol sym) (stocks s) = Some st ->
  select_one (Stocks.has_id (Stocks.id st)) (stocks s) = Some st.
Proof.
  intros Hwf H. apply find_some in H. destruct H as [Hin _].
  apply find_the_row; [apply (wf_stock_id s Hwf)|exact Hin|].
  unfold Stocks.has_id. apply String.eqb_refl.
Qed.

(** [UPDATE stocks SET available_quantity = q WHERE id = i]. *)
Lemma available_update s s' i q st sid :
  wf s ->
  select_one (Stocks.has_id i) (stocks s) = Some st ->
  stocks s'
  = update_where (Stocks.has_id i) (Stocks.set_available_quantity q) (stocks s) ->
  available sid s'
  = (available sid s
     + (if String.eqb i sid then q - Stocks.available_quantity st else 0))%Z.
Proof.
  intros Hwf Hf Hs. unfold available, select_all. rewrite Hs.
  rewrite (sum_update_where _ _ _ _ _ st (wf_stock_id s Hwf i) Hf).
  pose proof (has_id_of_find _ _ _ Hf) as Hid.
  unfold Stocks.has_id at 2 3. simpl. rewrite Hid.
  destruct (String.eqb i sid); lia.
Qed.

(** The units held after the upsert of lines 369-392. *)
Lemma held_upsert u i q p t t' sid :
  (List.length (select_all (Portfolios.has_key u i) t) <= 1)%nat ->
  upsert_position u i q p t = inr t' ->
  held_in sid t' = (held_in sid t + (if String.eqb i sid then q else 0))%Z.
Proof.
  intros Hu. unfold upsert_position.
  destruct (select_one (Portfolios.has_key u i) t) as [pos|] eqn:Ef.
  - destruct (Portfolios.quantity pos + q =? 0)%Z; [discriminate|].
    intro H. injection H as <-. unfold held_in, select_all.
    rewrite (sum_update_where _ _ _ _ _ pos Hu Ef).
    apply find_some in Ef. destruct Ef as [_ Ek].
    unfold Portfolios.has_key in Ek. apply andb_true_iff in Ek.
    destruct Ek as [_ Ek]. apply String.eqb_eq in Ek.
    unfold Portfolios.of_stock. simpl. rewrite Ek.
    destruct (String.eqb i sid); lia.
  - destruct (Portfolios.insert _ t) as [t''|] eqn:Ei; [|discriminate].
    intro H. injection H as <-. unfold Portfolios.insert in Ei.
    apply insert_unless_some in Ei. destruct Ei as [_ ->].
    unfold held_in, select_all. rewrite sum_insert.
    unfold Portfolios.of_stock. simpl. reflexivity.
Qed.

(** The units held after lines 468-476 of a sale of [q] units. *)
Lemma held_after_sale s u i q pos sid :
  wf s ->
  select_one (Portfolios.has_key u i) (user_portfolios s) = Some pos ->
  held_in sid
    (if (Portfolios.quantity pos - q =? 0)%Z
     then delete_where (Portfolios.has_key u i) (user_portfolios s)
     else update_where (Portfolios.has_key u i)
            (Portfolios.set_quantity (Portfolios.quantity pos - q))
            (user_portfolios s))
  = (held sid s - (if String.eqb i sid then q else 0))%Z.
Proof.
  intros Hwf Ef. pose proof (wf_position_key s Hwf u i) as Hu.
  pose proof Ef as Ek. apply find_some in Ek. destruct Ek as [_ Ek].
  unfold Portfolios.has_key in Ek. apply andb_true_iff in Ek.
  destruct Ek as [_ Ek]. apply String.eqb_eq in Ek.
  unfold held, held_in, select_all.
  destruct (Portfolios.quantity pos - q =? 0)%Z eqn:Ez.
  - apply Z.eqb_eq in Ez.
    rewrite (sum_delete_where _ _ _ _ pos Hu Ef).
    unfold Portfolios.of_stock. rewrite Ek.
    destruct (String.eqb i sid); lia.
  - rewrite (sum_update_where _ _ _ _ _ pos Hu Ef).
    unfold Portfolios.of_stock. simpl. rewrite Ek.
    destruct (String.eqb i sid); lia.
Qed.

(** The upsert keeps [wf]. *)
Lemma wf_upsert s u i q p t' :
  existsb (Stocks.has_id i) (stocks s) = true ->
  upsert_position u i q p (user_portfolios s) = inr t' ->
  wf s -> wf (with_portfolios s t').
Proof.
  intros He. unfold upsert_position.
  destruct (select_one (Portfolios.has_key u i) (user_portfolios s)) as [pos|].
  - destruct (Portfolios.quantity pos + q =? 0)%Z; [discriminate|].
    intro H. injection H as <-. now apply wf_update_portfolios.
  - destruct (Portfolios.insert _ _) as [t''|] eqn:Ei; [|discriminate].
    intro H. injection H as <-. eapply wf_insert_portfolio; eauto.
Qed.

(** ** The methods keep [wf] *)

Lemma wf_register_stock i sym n p q s :
  wf s -> wf (snd (register_stock i sym n p q s)).
Proof.
  intro Hwf. unfold register_stock.
  destruct (fits_int64 q); [|exact Hwf].
  destruct (Stocks.insert _ (stocks s)) as [t|] eqn:Ei; simpl; [|exact Hwf].
  apply (wf_insert_history (with_stocks s t)).
  - apply stocks_insert_fresh in Ei. destruct Ei as [_ ->]. simpl.
    rewrite existsb_app. simpl. unfold Stocks.has_id at 2. simpl.
    rewrite String.eqb_refl. apply orb_true_iff. right. reflexivity.
  - eapply wf_insert_stock; eauto.
Qed.

Lemma wf_update_each cp fetched i s :
  (forall st, In st fetched ->
     existsb (Stocks.has_id (Stocks.id st)) (stocks s) = true) ->
  wf s -> wf (update_each fetched i cp s).
Proof.
  revert i s. induction fetched as [|st rest IH]; intros i s Hin Hwf; simpl; [exact Hwf|].
  apply IH.
  - intros st' Hst'. simpl. rewrite existsb_update_where by reflexivity.
    apply Hin. now right.
  - apply (wf_insert_history (with_stocks s _)).
    + simpl. rewrite existsb_update_where by reflexivity. apply Hin. now left.
    + apply wf_update_stocks; [reflexivity|exact Hwf].
Qed.

Lemma wf_update_stock_prices cp s : wf s -> wf (update_stock_prices cp s).
Proof.
  intro Hwf. apply wf_update_each; [|exact Hwf].
  intros st Hst. apply existsb_exists. exists st. split; [exact Hst|].
  unfold Stocks.has_id. apply String.eqb_refl.
Qed.

Lemma wf_take_loan l u a s : wf s -> wf (snd (take_loan l u a s)).
Proof.
  intro Hwf. unfold take_loan.
  destruct (select_one _ (users s)) as [user|]; simpl; [|exact Hwf].
  destruct (Qlt_bool _ _); simpl; [exact Hwf|].
  destruct (Loans.insert _ _); simpl; [|exact Hwf].
  now apply wf_with_users, wf_with_loans.
Qed.

Lemma wf_buy_stock_writes t u sym q r s :
  existsb (Stocks.has_id (rd_stock_id r)) (stocks s) = true ->
  wf s -> wf (snd (buy_stock_writes t u sym q r s)).
Proof.
  intros He Hwf. unfold buy_stock_writes.
  destruct (upsert_position _ _ _ _ _) as [e|t1] eqn:Eu; simpl; [exact Hwf|].
  destruct (Transactions.insert _ _) as [t2|]; simpl; [|exact Hwf].
  apply wf_with_transactions.
  simpl in Eu. eapply (wf_upsert (with_stocks (with_users s _) _)).
  - simpl. rewrite existsb_update_where by reflexivity. exact He.
  - simpl. exact Eu.
  - apply (wf_update_stocks (with_users s _)); [reflexivity|].
    now apply wf_with_users.
Qed.

Lemma buy_stock_reads_stock u sym q s r :
  buy_stock_reads u sym q s = inr r ->
  exists st,
    select_one (Stocks.has_symbol (upper sym)) (stocks s) = Some st
    /\ rd_stock_id r = Stocks.id st
    /\ rd_price r = Stocks.current_price st
    /\ rd_available r = Stocks.available_quantity st.
Proof.
  unfold buy_stock_reads.
  destruct (select_one _ (stocks s)) as [st|]; [|discriminate].
  destruct (_ <? _)%Z; [discriminate|].
  destruct (select_one _ (users s)) as [user|]; [|discriminate].
  destruct (Qlt_bool _ _); [discriminate|].
  intro H. injection H as <-. exists st. simpl. auto.
Qed.

Lemma wf_buy_stock t u sym q s : wf s -> wf (snd (buy_stock t u sym q s)).
Proof.
  intro Hwf. unfold buy_stock.
  destruct (buy_stock_reads u sym q s) as [m|r] eqn:Er; simpl; [exact Hwf|].
  apply wf_buy_stock_writes; [|exact Hwf].
  apply buy_stock_reads_stock in Er. destruct Er as [st [Hf [-> _]]].
  apply find_by_symbol_by_id in Hf; [|exact Hwf].
  eapply find_existsb; exact Hf.
Qed.

Lemma wf_sell_stock t u sym q s : wf s -> wf (snd (sell_stock t u sym q s)).
Proof.
  intro Hwf. unfold sell_stock.
  destruct (select_one _ (stocks s)) as [st|]; simpl; [|exact Hwf].
  destruct (select_one _ (user_portfolios s)) as [pos|]; simpl; [|exact Hwf].
  destruct (_ <? _)%Z; simpl; [exact Hwf|].
  destruct (select_one _ (users s)) as [user|]; simpl; [|exact Hwf].
  destruct (Transactions.insert _ _) as [t2|]; simpl; [|exact Hwf].
  apply wf_with_transactions.
  assert (Hs2 : wf (with_stocks (with_users s
            (update_where (Users.has_id u)
               (Users.set_balance
                  (Users.balance user + Stocks.current_price st * inject_Z q))
               (users s)))
            (update_where (Stocks.has_id (Stocks.id st))
               (Stocks.set_available_quantity (Stocks.available_quantity st + q))
               (stocks s)))).
  { apply (wf_update_stocks (with_users s _)); [reflexivity|].
    now apply wf_with_users. }
  destruct (_ =? 0)%Z.
  - exact (wf_delete_portfolios _ (Portfolios.has_key u (Stocks.id st)) Hs2).
  - exact (wf_update_portfolios _ (Portfolios.has_key u (Stocks.id st))
             (Portfolios.set_quantity (Portfolios.quantity pos - q))
             (fun _ => eq_refl) (fun _ => eq_refl) Hs2).
Qed.

Lemma wf_insert_sample_stocks l i uuid4 s s' :
  insert_sample_stocks l i uuid4 s = Some s' -> wf s -> wf s'.
Proof.
  revert i s. induction l as [|[[[sym n] p] q] rest IH]; simpl; intros i s H Hwf.
  - injection H as <-. exact Hwf.
  - destruct (Stocks.insert _ (stocks s)) as [t|] eqn:Ei; [|discriminate].
    apply IH in H; [exact H|].
    apply (wf_insert_history (with_stocks s t)).
    + apply stocks_insert_fresh in Ei. destruct Ei as [_ ->]. simpl.
      rewrite existsb_app. simpl. unfold Stocks.has_id at 2. simpl.
      rewrite String.eqb_refl. apply orb_true_iff. right. reflexivity.
    + eapply wf_insert_stock; eauto.
Qed.

Lemma wf_insert_test_users todo i uuid4 s s' :
  insert_test_users todo i uuid4 s = Some s' -> wf s -> wf s'.
Proof.
  revert i s. induction todo as [|todo IH]; simpl; intros i s H Hwf.
  - injection H as <-. exact Hwf.
  - destruct (Users.insert _ (users s)) as [t|]; [|discriminate].
    apply IH in H; [exact H|]. now apply wf_with_users.
Qed.

Lemma wf_setup_initial_data su uu s :
  wf s -> wf (snd (setup_initial_data su uu s)).
Proof.
  intro Hwf. unfold setup_initial_data.
  destruct (if (List.length (stocks s) =? 0)%nat then _ else _) as [s1|] eqn:E1;
    [|exact Hwf].
  assert (Hwf1 : wf s1).
  { destruct (List.length (stocks s) =? 0)%nat.
    - exact (wf_insert_sample_stocks _ _ _ _ _ E1 Hwf).
    - injection E1 as <-. exact Hwf. }
  destruct (if (List.length (users s1) =? 0)%nat then _ else _) as [s2|] eqn:E2;
    [|exact Hwf].
  cbn [snd]. destruct (List.length (users s1) =? 0)%nat.
  - exact (wf_insert_test_users _ _ _ _ _ E2 Hwf1).
  - injection E2 as <-. exact Hwf1.
Qed.

Lemma wf_apply o s : wf s -> wf (apply o s).
Proof.
  destruct o; simpl.
  - apply wf_setup_initial_data.
  - apply wf_update_stock_prices.
  - apply wf_register_stock.
  - apply wf_take_loan.
  - apply wf_buy_stock.
  - apply wf_sell_stock.
Qed.

Lemma wf_run ops s : wf s -> wf (run ops s).
Proof.
  revert s. induction ops as [|o ops IH]; intros s Hwf; simpl; [exact Hwf|].
  apply IH, wf_apply, Hwf.
Qed.

Lemma wf_reachable s : reachable s -> wf s.
Proof.
  intros [ops ->]. apply wf_run, wf_empty.
Qed.

(** ** The methods keep the units of the stocks of the table *)

Lemma sum_update_where_same {A : Type} (m p : A -> bool) (g : A -> Z) f t :
  (forall r, p (f r) = p r) -> (forall r, g (f r) = g r) ->
  sql_sum (map g (filter p (update_where m f t))) = sql_sum (map g (filter p t)).
Proof.
  intros Hp Hg. induction t as [|a t IH]; simpl; [reflexivity|].
  destruct (m a).
  - rewrite Hp. destruct (p a); simpl; rewrite ?Hg, IH; reflexivity.
  - destruct (p a); simpl; rewrite IH; reflexivity.
Qed.

(** A stock the table accepts carries an identifier no row has. *)
Lemma insert_stock_units s new t sid :
  Stocks.insert new (stocks s) = Some t ->
  existsb (Stocks.has_id sid) (stocks s) = true ->
  existsb (Stocks.has_id sid) t = true
  /\ available sid (with_stocks s t) = available sid s.
Proof.
  intros Hi He. apply stocks_insert_fresh in Hi. destruct Hi as [Hnil ->].
  split; [rewrite existsb_app, He; reflexivity|].
  unfold available, select_all. simpl. rewrite sum_insert.
  destruct (Stocks.has_id sid new) eqn:E; [|lia].
  unfold Stocks.has_id in E. apply String.eqb_eq in E. subst sid.
  apply existsb_exists in He. destruct He as [r [Hin Hr]].
  rewrite (filter_nil_forall _ _ Hnil r Hin) in Hr. discriminate.
Qed.

Lemma units_register_stock i sym n p q s sid :
  existsb (Stocks.has_id sid) (stocks s) = true ->
  existsb (Stocks.has_id sid) (stocks (snd (register_stock i sym n p q s))) = true
  /\ total_units sid (snd (register_stock i sym n p q s)) = total_units sid s.
Proof.
  intro He. unfold register_stock.
  destruct (fits_int64 q); [|auto].
  destruct (Stocks.insert _ (stocks s)) as [t|] eqn:Ei; simpl; [|auto].
  destruct (insert_stock_units _ _ _ _ Ei He) as [He' Ha].
  split; [exact He'|]. unfold total_units. f_equal. exact Ha.
Qed.

Lemma units_update_each cp fetched i s sid :
  existsb (Stocks.has_id sid) (stocks s) = true ->
  existsb (Stocks.has_id sid) (stocks (update_each fetched i cp s)) = true
  /\ total_units sid (update_each fetched i cp s) = total_units sid s.
Proof.
  revert i s. induction fetched as [|st rest IH]; intros i s He; simpl; [auto|].
  match goal with |- context [update_each rest (S i) cp ?s2] =>
    destruct (IH (S i) s2) as [He' Hu] end.
  - simpl. rewrite existsb_update_where by reflexivity. exact He.
  - split; [exact He'|]. rewrite Hu. unfold total_units. f_equal.
    unfold available, select_all. simpl.
    apply sum_update_where_same; reflexivity.
Qed.

Lemma units_take_loan l u a s sid :
  stocks (snd (take_loan l u a s)) = stocks s
  /\ total_units sid (snd (take_loan l u a s)) = total_units sid s.
Proof.
  unfold take_loan.
  destruct (select_one _ (users s)) as [user|]; simpl; [|auto].
  destruct (Qlt_bool _ _); simpl; [auto|].
  destruct (Loans.insert _ _); simpl; auto.
Qed.

Lemma units_buy_stock t u sym q s sid :
  wf s ->
  existsb (Stocks.has_id sid) (stocks (snd (buy_stock t u sym q s)))
  = existsb (Stocks.has_id sid) (stocks s)
  /\ total_units sid (snd (buy_stock t u sym q s)) = total_units sid s.
Proof.
  intro Hwf. unfold buy_stock.
  destruct (buy_stock_reads u sym q s) as [m|r] eqn:Er; simpl; [auto|].
  apply buy_stock_reads_stock in Er. destruct Er as [st [Hf [Hid [Hp Ha]]]].
  apply find_by_symbol_by_id in Hf; [|exact Hwf].
  unfold buy_stock_writes. rewrite Hid, Ha.
  destruct (upsert_position _ _ _ _ _) as [e|t1] eqn:Eu; simpl; [auto|].
  destruct (Transactions.insert _ _) as [t2|]; simpl; [|auto].
  split; [apply existsb_update_where; reflexivity|].
  simpl in Eu. unfold total_units, held. simpl.
  rewrite (held_upsert _ _ _ _ _ _ sid (wf_position_key s Hwf u (Stocks.id st)) Eu).
  erewrite (available_update s); [|exact Hwf|exact Hf|reflexivity].
  unfold held_in at 1. fold (held_in sid (user_portfolios s)).
  destruct (String.eqb (Stocks.id st) sid); lia.
Qed.

Lemma units_sell_stock t u sym q s sid :
  wf s ->
  existsb (Stocks.has_id sid) (stocks (snd (sell_stock t u sym q s)))
  = existsb (Stocks.has_id sid) (stocks s)
  /\ total_units sid (snd (sell_stock t u sym q s)) = total_units sid s.
Proof.
  intro Hwf. unfold sell_stock.
  destruct (select_one _ (stocks s)) as [st|] eqn:Hf; simpl; [|auto].
  destruct (select_one _ (user_portfolios s)) as [pos|] eqn:Hpos; simpl; [|auto].
  destruct (_ <? _)%Z; simpl; [auto|].
  destruct (select_one _ (users s)) as [user|]; simpl; [|auto].
  destruct (Transactions.insert _ _) as [t2|]; simpl; [|auto].
  apply find_by_symbol_by_id in Hf; [|exact Hwf].
  split; [apply existsb_update_where; reflexivity|].
  unfold total_units. unfold held at 1. simpl.
  rewrite (held_after_sale s u (Stocks.id st) q pos sid Hwf Hpos).
  erewrite (available_update s); [|exact Hwf|exact Hf|reflexivity].
  destruct (String.eqb (Stocks.id st) sid); lia.
Qed.

Lemma units_insert_sample_stocks l i uuid4 s s' sid :
  insert_sample_stocks l i uuid4 s = Some s' ->
  existsb (Stocks.has_id sid) (stocks s) = true ->
  existsb (Stocks.has_id sid) (stocks s') = true
  /\ total_units sid s' = total_units sid s.
Proof.
  revert i s. induction l as [|[[[sym n] p] q] rest IH]; simpl; intros i s H He.
  - injection H as <-. auto.
  - destruct (Stocks.insert _ (stocks s)) as [t|] eqn:Ei; [|discriminate].
    destruct (insert_stock_units _ _ _ _ Ei He) as [He' Ha].
    apply IH in H; [|exact He'].
    destruct H as [H1 H2]. split; [exact H1|]. rewrite H2.
    unfold total_units. f_equal. exact Ha.
Qed.

Lemma units_insert_test_users todo i uuid4 s s' sid :
  insert_test_users todo i uuid4 s = Some s' ->
  stocks s' = stocks s /\ total_units sid s' = total_units sid s.
Proof.
  revert i s. induction todo as [|todo IH]; simpl; intros i s H.
  - injection H as <-. auto.
  - destruct (Users.insert _ (users s)) as [t|]; [|discriminate].
    apply IH in H. exact H.
Qed.

Lemma units_setup_initial_data su uu s sid :
  existsb (Stocks.has_id sid) (stocks s) = true ->
  existsb (Stocks.has_id sid) (stocks (snd (setup_initial_data su uu s))) = true
  /\ total_units sid (snd (setup_initial_data su uu s)) = total_units sid s.
Proof.
  intro He. unfold setup_initial_data.
  destruct (if (List.length (stocks s) =? 0)%nat then _ else _) as [s1|] eqn:E1;
    [|auto].
  assert (H1 : existsb (Stocks.has_id sid) (stocks s1) = true
               /\ total_units sid s1 = total_units sid s).
  { destruct (List.length (stocks s) =? 0)%nat.
    - exact (units_insert_sample_stocks _ _ _ _ _ _ E1 He).
    - injection E1 as <-. auto. }
  destruct H1 as [He1 Hu1].
  destruct (if (List.length (users s1) =? 0)%nat then _ else _) as [s2|] eqn:E2;
    [|auto].
  cbn [snd]. destruct (List.length (users s1) =? 0)%nat.
  - destruct (units_insert_test_users _ _ _ _ _ sid E2) as [Hs Hu].
    rewrite Hs, Hu. auto.
  - injection E2 as <-. auto.
Qed.

(** Whatever is called, a stock of the table stays in the table with the
    units it had. *)
Lemma units_apply o s sid :
  wf s ->
  existsb (Stocks.has_id sid) (stocks s) = true ->
  existsb (Stocks.has_id sid) (stocks (apply o s)) = true
  /\ total_units sid (apply o s) = total_units sid s.
Proof.
  intros Hwf He. destruct o; simpl.
  - now apply units_setup_initial_data.
  - now apply units_update_each.
  - now apply units_register_stock.
  - destruct (units_take_loan loan_id user_id amount s sid) as [-> Hu]. auto.
  - destruct (units_buy_stock transaction_id user_id symbol quantity s sid Hwf)
      as [-> Hu]. auto.
  - destruct (units_sell_stock transaction_id user_id symbol quantity s sid Hwf)
      as [-> Hu]. auto.
Qed.

Lemma units_run ops s sid :
  wf s ->
  existsb (Stocks.has_id sid) (stocks s) = true ->
  existsb (Stocks.has_id sid) (stocks (run ops s)) = true
  /\ total_units sid (run ops s) = total_units sid s.
Proof.
  revert s. induction ops as [|o ops IH]; intros s Hwf He; simpl; [auto|].
  destruct (units_apply o s sid Hwf He) as [He' Hu].
  destruct (IH (apply o s) (wf_apply o s Hwf) He') as [He'' Hu'].
  split; [exact He''|]. now rewrite Hu'.
Qed.

(** ** Conservation of units *)

Lemma filter_the_row {A : Type} (m : A -> bool) t r :
  (List.length (filter m t) <= 1)%nat -> find m t = Some r -> filter m t = [r].
Proof.
  induction t as [|a t IH]; simpl; intros Hu Hf; [discriminate|].
  destruct (m a) eqn:E.
  - injection Hf as ->. simpl in Hu.
    destruct (filter m t); [reflexivity|simpl in Hu; lia].
  - auto.
Qed.

Lemma existsb_find {A : Type} (m : A -> bool) t :
  existsb m t = true -> exists r, find m t = Some r.
Proof.
  induction t as [|a t IH]; simpl; [discriminate|].
  destruct (m a); [eauto|]. exact IH.
Qed.

(** In a database that is [wf], the units on offer are those of the row
    of the stock. *)
Lemma available_of_row s sid st :
  wf s -> stock_by_id sid s = Some st ->
  available sid s = Stocks.available_quantity st.
Proof.
  intros Hwf Hf. unfold available, select_all.
  rewrite (filter_the_row _ _ _ (wf_stock_id s Hwf sid) Hf). simpl. lia.
Qed.

(** A row that enters [stocks] brings its units, all of them on offer. *)
Lemma insert_stock_minted s new t h :
  wf s ->
  Stocks.insert new (stocks s) = Some t ->
  existsb (Stocks.has_id (Stocks.id new)) t = true
  /\ total_units (Stocks.id new) (with_history (with_stocks s t) h)
     = Stocks.available_quantity new.
Proof.
  intros Hwf Ei. apply stocks_insert_fresh in Ei. destruct Ei as [Hnil ->]. split.
  - rewrite existsb_app. simpl. unfold Stocks.has_id at 2.
    rewrite String.eqb_refl. apply orb_true_iff. right. reflexivity.
  - unfold total_units, available, held, held_in, select_all. simpl.
    rewrite sum_insert, Hnil. unfold Stocks.has_id at 1.
    rewrite String.eqb_refl. simpl.
    assert (Hh : filter (Portfolios.of_stock (Stocks.id new)) (user_portfolios s) = []).
    { destruct (filter (Portfolios.of_stock (Stocks.id new)) (user_portfolios s))
        as [|r l] eqn:E; [reflexivity|].
      assert (Hin : In r (filter (Portfolios.of_stock (Stocks.id new))
                                 (user_portfolios s)))
        by (rewrite E; now left).
      apply filter_In in Hin. destruct Hin as [Hin Hr].
      unfold Portfolios.of_stock in Hr. apply String.eqb_eq in Hr.
      pose proof (wf_position_stock s Hwf r Hin) as He. rewrite Hr in He.
      apply existsb_exists in He. destruct He as [st [Hst Hm]].
      rewrite (filter_nil_forall _ _ Hnil st Hst) in Hm. discriminate. }
    rewrite Hh. simpl. lia.
Qed.

(** Right after its registration a stock has the units minted. *)
Lemma units_minted i sym n p q s s1 :
  wf s ->
  register_stock i sym n p q s = (Success i, s1) ->
  existsb (Stocks.has_id i) (stocks s1) = true /\ total_units i s1 = q.
Proof.
  intros Hwf. unfold register_stock.
  destruct (fits_int64 q); [|discriminate].
  destruct (Stocks.insert _ (stocks s)) as [t|] eqn:Ei; [|discriminate].
  intro H. injection H as <-.
  exact (insert_stock_minted s _ t _ Hwf Ei).
Qed.

(** The units of a stock of the table, read from its row. *)
Lemma units_of_row s sid :
  wf s ->
  existsb (Stocks.has_id sid) (stocks s) = true ->
  exists st,
    stock_by_id sid s = Some st
    /\ (Stocks.available_quantity st + held sid s)%Z = total_units sid s.
Proof.
  intros Hwf He. destruct (existsb_find _ _ He) as [st Hst].
  exists st. split; [exact Hst|].
  rewrite <- (available_of_row _ _ _ Hwf Hst). reflexivity.
Qed.

(** Round [k] of the loop of lines 135-146 mints the units of sample
    [k]. *)
Lemma sample_stocks_minted l i uuid4 s s' k sym n p q :
  wf s ->
  insert_sample_stocks l i uuid4 s = Some s' ->
  nth_error l k = Some (sym, n, p, q) ->
  existsb (Stocks.has_id (uuid4 (i + k)%nat)) (stocks s') = true
  /\ total_units (uuid4 (i + k)%nat) s' = q.
Proof.
  revert i s k. induction l as [|[[[sym0 n0] p0] q0] rest IH]; intros i s k Hwf H Hk.
  - destruct k; discriminate.
  - simpl in H.
    destruct (Stocks.insert _ (stocks s)) as [t|] eqn:Ei; [|discriminate].
    destruct k as [|k]; simpl in Hk.
    + injection Hk as -> -> -> ->. rewrite Nat.add_0_r.
      destruct (insert_stock_minted s _ t
                  (stock_price_history s ++ [History.mk (uuid4 i) p]) Hwf Ei)
        as [He Hu].
      simpl in He, Hu.
      destruct (units_insert_sample_stocks _ _ _ _ _ (uuid4 i) H He) as [He' Hu'].
      split; [exact He'|]. rewrite Hu'. exact Hu.
    + replace (i + S k)%nat with (S i + k)%nat by lia.
      apply (IH (S i) _ k) in H; [exact H| |exact Hk].
      apply (wf_insert_history (with_stocks s t)).
      * apply stocks_insert_fresh in Ei. destruct Ei as [_ ->]. simpl.
        rewrite existsb_app. simpl. unfold Stocks.has_id at 2. simpl.
        rewrite String.eqb_refl. apply orb_true_iff. right. reflexivity.
      * eapply wf_insert_stock; eauto.
Qed.

(** X24.  Conservation, for calls taken one after the other: a stock
    registered with [quantity] units in a database that calls taken one
    after the other have built has, after any further sequence of calls
    each of which ends before the next begins (buys and sells among
    them), its [available_quantity] plus the quantities of all the
    positions in it equal to [quantity]. *)
Theorem conservation (before after : list op) (stock_id symbol name : string)
    (price : Q) (quantity : Z) (s1 : db) :
  register_stock stock_id symbol name price quantity (run before empty_db)
  = (Success stock_id, s1) ->
  exists st,
    stock_by_id stock_id (run after s1) = Some st
    /\ (Stocks.available_quantity st + held stock_id (run after s1))%Z = quantity.
Proof.
  intro Hreg.
  assert (Hwf0 : wf (run before empty_db)) by apply wf_run, wf_empty.
  assert (Hwf1 : wf s1).
  { pose proof (wf_register_stock stock_id symbol name price quantity _ Hwf0) as H.
    rewrite Hreg in H. exact H. }
  destruct (units_minted _ _ _ _ _ _ _ Hwf0 Hreg) as [He Hq].
  destruct (units_run after s1 stock_id Hwf1 He) as [He' Hu].
  destruct (existsb_find _ _ He') as [st Hst].
  exists st. split; [exact Hst|].
  rewrite <- (available_of_row _ _ _ (wf_run after s1 Hwf1) Hst).
  fold (total_units stock_id (run after s1)). now rewrite Hu.
Qed.

(** X21.  For calls taken one after the other, the stocks
    [setup_initial_data] mints on a table without stocks keep their
    units: sample [k] has, after any sequence of calls each of which ends
    before the next begins, the units of the sample, on offer or held. *)
Lemma samples_conserved (before after : list op)
    (stock_uuid4 user_uuid4 : nat -> string) (s1 : db) (k : nat)
    (symbol name : string) (price : Q) (quantity : Z) :
  stocks (run before empty_db) = [] ->
  setup_initial_data stock_uuid4 user_uuid4 (run before empty_db)
  = (Success tt, s1) ->
  nth_error sample_stocks k = Some (symbol, name, price, quantity) ->
  exists st,
    stock_by_id (stock_uuid4 k) (run after s1) = Some st
    /\ (Stocks.available_quantity st + held (stock_uuid4 k) (run after s1))%Z
       = quantity.
Proof.
  intros Hempty Hsetup Hk.
  assert (Hwf0 : wf (run before empty_db)) by apply wf_run, wf_empty.
  assert (Hwf1 : wf s1).
  { pose proof (wf_setup_initial_data stock_uuid4 user_uuid4 _ Hwf0) as H.
    rewrite Hsetup in H. exact H. }
  assert (H1 : existsb (Stocks.has_id (stock_uuid4 k)) (stocks s1) = true
               /\ total_units (stock_uuid4 k) s1 = quantity).
  { unfold setup_initial_data in Hsetup. rewrite Hempty in Hsetup.
    cbn [List.length Nat.eqb] in Hsetup.
    destruct (insert_sample_stocks sample_stocks 0 stock_uuid4 (run before empty_db))
      as [sa|] eqn:Ea; [|discriminate].
    destruct (sample_stocks_minted _ _ _ _ _ k _ _ _ _ Hwf0 Ea Hk) as [He Hu].
    simpl in He, Hu.
    destruct (if (List.length (users sa) =? 0)%nat then _ else _) as [sb|] eqn:Eb;
      [|discriminate].
    injection Hsetup as <-.
    destruct (List.length (users sa) =? 0)%nat.
    - destruct (units_insert_test_users _ _ _ _ _ (stock_uuid4 k) Eb) as [Hs Hu'].
      rewrite Hs, Hu'. auto.
    - injection Eb as <-. auto. }
  destruct H1 as [He Hq].
  destruct (units_run after s1 _ Hwf1 He) as [He' Hu].
  destruct (units_of_row _ _ (wf_run after s1 Hwf1) He') as [st [Hst Hst']].
  exists st. split; [exact Hst|]. now rewrite Hst', Hu.
Qed.

(** ** A buy that succeeds *)

Lemma buy_stock_success t u sym q s rcpt s' :
  buy_stock t u sym q s = (Success rcpt, s') ->
  exists st user,
    stock_by_symbol (upper sym) s = Some st
    /\ user_by_id u s = Some user
    /\ (q <= Stocks.available_quantity st)%Z
    /\ Stocks.current_price st * inject_Z q <= Users.balance user
    /\ upsert_position u (Stocks.id st) q (Stocks.current_price st)
         (user_portfolios s) = inr (user_portfolios s')
    /\ users s'
       = update_where (Users.has_id u)
           (Users.set_balance
              (Users.balance user - Stocks.current_price st * inject_Z q))
           (users s)
    /\ stocks s'
       = update_where (Stocks.has_id (Stocks.id st))
           (Stocks.set_available_quantity (Stocks.available_quantity st - q))
           (stocks s)
    /\ br_price rcpt = Stocks.current_price st
    /\ br_total_cost rcpt = Stocks.current_price st * inject_Z q
    /\ br_new_balance rcpt
       = Users.balance user - Stocks.current_price st * inject_Z q.
Proof.
  unfold buy_stock, buy_stock_reads, stock_by_symbol, user_by_id.
  destruct (select_one _ (stocks s)) as [st|]; [|discriminate].
  destruct (_ <? _)%Z eqn:Eq; [discriminate|].
  destruct (select_one _ (users s)) as [user|]; [|discriminate].
  destruct (Qlt_bool _ _) eqn:Eb; [discriminate|].
  unfold buy_stock_writes. simpl.
  destruct (upsert_position _ _ _ _ _) as [e|t1] eqn:Eu; [discriminate|].
  destruct (Transactions.insert _ _) as [t2|]; [|discriminate].
  intro H. injection H as <- <-. exists st, user. simpl.
  apply Z.ltb_ge in Eq. apply Qlt_bool_false in Eb.
  repeat split; auto.
Qed.

(** Lines 377-386: a position that exists. *)
Lemma upsert_existing u i q p t t' pos :
  select_one (Portfolios.has_key u i) t = Some pos ->
  upsert_position u i q p t = inr t' ->
  (Portfolios.quantity pos + q <> 0)%Z
  /\ select_one (Portfolios.has_key u i) t'
     = Some (Portfolios.mk (Portfolios.user_id pos) (Portfolios.stock_id pos)
               (Portfolios.quantity pos + q)
               ((inject_Z (Portfolios.quantity pos) * Portfolios.avg_buy_price pos
                 + inject_Z q * p)
                / inject_Z (Portfolios.quantity pos + q))).
Proof.
  intros Hf. unfold upsert_position. rewrite Hf.
  destruct (_ =? 0)%Z eqn:Ez; [discriminate|].
  intro H. injection H as <-. apply Z.eqb_neq in Ez. split; [exact Ez|].
  unfold select_one in *. rewrite find_update_where by reflexivity.
  rewrite Hf. reflexivity.
Qed.

Lemma find_append {A : Type} (p : A -> bool) t l :
  find p t = None -> find p (t ++ l) = find p l.
Proof.
  induction t as [|a t IH]; simpl; [reflexivity|].
  destruct (p a); [discriminate|exact IH].
Qed.

(** Lines 387-392: a position that does not. *)
Lemma upsert_fresh u i q p t t' :
  select_one (Portfolios.has_key u i) t = None ->
  upsert_position u i q p t = inr t' ->
  select_one (Portfolios.has_key u i) t' = Some (Portfolios.mk u i q p).
Proof.
  intros Hf. unfold upsert_position. rewrite Hf.
  destruct (Portfolios.insert _ t) as [t''|] eqn:Ei; [|discriminate].
  intro H. injection H as <-. unfold Portfolios.insert in Ei.
  apply insert_unless_some in Ei. destruct Ei as [_ ->].
  unfold select_one in *. rewrite (find_append _ _ _ Hf). simpl.
  unfold Portfolios.has_key. simpl. now rewrite !String.eqb_refl.
Qed.

(** ** The average buying price *)

Lemma buy_existing_position t u sym q s rcpt s' st pos :
  buy_stock t u sym q s = (Success rcpt, s') ->
  stock_by_symbol (upper sym) s = Some st ->
  position u (Stocks.id st) s = Some pos ->
  exists pos',
    position u (Stocks.id st) s' = Some pos'
    /\ Portfolios.quantity pos' = (Portfolios.quantity pos + q)%Z
    /\ (Portfolios.quantity pos + q <> 0)%Z
    /\ Portfolios.avg_buy_price pos'
       == (inject_Z (Portfolios.quantity pos) * Portfolios.avg_buy_price pos
           + inject_Z q * br_price rcpt)
          / (inject_Z (Portfolios.quantity pos) + inject_Z q).
Proof.
  intros Hb Hst Hpos. apply buy_stock_success in Hb.
  destruct Hb as [st0 [user [Hst0 [_ [_ [_ [Hup [_ [_ [Hp _]]]]]]]]]].
  rewrite Hst in Hst0. injection Hst0 as <-.
  destruct (upsert_existing _ _ _ _ _ _ _ Hpos Hup) as [Hnz Hf].
  eexists. split; [exact Hf|]. simpl. repeat split; auto.
  rewrite Hp, inject_Z_plus. reflexivity.
Qed.

Lemma buy_fresh_position t u sym q s rcpt s' st :
  buy_stock t u sym q s = (Success rcpt, s') ->
  stock_by_symbol (upper sym) s = Some st ->
  position u (Stocks.id st) s = None ->
  position u (Stocks.id st) s'
  = Some (Portfolios.mk u (Stocks.id st) q (br_price rcpt)).
Proof.
  intros Hb Hst Hpos. apply buy_stock_success in Hb.
  destruct Hb as [st0 [user [Hst0 [_ [_ [_ [Hup [_ [_ [Hp _]]]]]]]]]].
  rewrite Hst in Hst0. injection Hst0 as <-. rewrite Hp.
  exact (upsert_fresh _ _ _ _ _ _ Hpos Hup).
Qed.

(** C3.  A buy of [q] units that succeeds at price [p] turns a position
    of [old_qty] units at average [old_avg] into one of [old_qty + q]
    units at average [(old_qty * old_avg + q * p) / (old_qty + q)]; and
    after a buy of [q1] units at [p1] into a position that did not exist
    and a buy of [q2] more at [p2], the average is
    [(q1 * p1 + q2 * p2) / (q1 + q2)]. *)
Theorem weighted_average :
  (forall t u sym q s rcpt s' st pos,
     buy_stock t u sym q s = (Success rcpt, s') ->
     stock_by_symbol (upper sym) s = Some st ->
     position u (Stocks.id st) s = Some pos ->
     exists pos',
       position u (Stocks.id st) s' = Some pos'
       /\ Portfolios.quantity pos' = (Portfolios.quantity pos + q)%Z
       /\ (Portfolios.quantity pos + q <> 0)%Z
       /\ Portfolios.avg_buy_price pos'
          == (inject_Z (Portfolios.quantity pos) * Portfolios.avg_buy_price pos
              + inject_Z q * br_price rcpt)
             / (inject_Z (Portfolios.quantity pos) + inject_Z q))
  /\
  (forall t1 t2 u sym q1 q2 s r1 s1 between r2 s2 st st',
     stock_by_symbol (upper sym) s = Some st ->
     position u (Stocks.id st) s = None ->
     buy_stock t1 u sym q1 s = (Success r1, s1) ->
     stock_by_symbol (upper sym) between = Some st' ->
     Stocks.id st' = Stocks.id st ->
     position u (Stocks.id st) between = position u (Stocks.id st) s1 ->
     buy_stock t2 u sym q2 between = (Success r2, s2) ->
     exists pos,
       position u (Stocks.id st) s2 = Some pos
       /\ Portfolios.quantity pos = (q1 + q2)%Z
       /\ (q1 + q2 <> 0)%Z
       /\ Portfolios.avg_buy_price pos
          == (inject_Z q1 * br_price r1 + inject_Z q2 * br_price r2)
             / (inject_Z q1 + inject_Z q2)).
Proof.
  split.
  - intros. eapply buy_existing_position; eauto.
  - intros t1 t2 u sym q1 q2 s r1 s1 between r2 s2 st st'
           Hst Hnone Hb1 Hst' Hid Hsame Hb2.
    pose proof (buy_fresh_position _ _ _ _ _ _ _ _ Hb1 Hst Hnone) as Hp1.
    rewrite <- Hsame, <- Hid in Hp1.
    destruct (buy_existing_position _ _ _ _ _ _ _ _ _ Hb2 Hst' Hp1)
      as [pos [Hpos [Hq [Hnz Havg]]]].
    rewrite Hid in Hpos. exists pos. simpl in *. auto.
Qed.

(** ** Loans *)

Lemma find_none_existsb {A : Type} (p : A -> bool) t :
  find p t = None <-> existsb p t = false.
Proof.
  induction t as [|a t IH]; simpl; [tauto|].
  destruct (p a); simpl; [split; discriminate|exact IH].
Qed.

(** C7.  For a user of the table (and a loan identifier not yet in use):
    a loan that keeps [loan_amount + amount] within [max_loan] adds
    [amount] to the balance, adds [amount] to [loan_amount] and appends
    one row to [loans]; a loan that goes beyond [max_loan] is refused
    with the limit in the message and the database is left as it was. *)
Theorem take_loan_within_limit (loan_id user_id : string) (amount : Q)
    (s : db) (user : Users.row) :
  user_by_id user_id s = Some user ->
  existsb (fun r => String.eqb (Loans.id r) loan_id) (loans s) = false ->
  (Users.loan_amount user + amount <= Users.max_loan user ->
   exists rcpt s' user',
     take_loan loan_id user_id amount s = (Success rcpt, s')
     /\ user_by_id user_id s' = Some user'
     /\ Users.balance user' = Users.balance user + amount
     /\ Users.loan_amount user' = Users.loan_amount user + amount
     /\ loans s'
        = loans s ++ [Loans.mk loan_id user_id amount Loans.default_interest_rate]
     /\ lr_new_balance rcpt = Users.balance user + amount
     /\ lr_total_loan rcpt = Users.loan_amount user + amount)
  /\
  (Users.max_loan user < Users.loan_amount user + amount ->
   take_loan loan_id user_id amount s
   = (Failure (Loan_amount_exceeds (Users.max_loan user)), s)).
Proof.
  intros Hu Hfresh. unfold user_by_id in Hu. unfold take_loan. rewrite Hu. split.
  - intro Hle. apply Qlt_bool_false in Hle. rewrite Hle.
    unfold Loans.insert, insert_unless. simpl. rewrite Hfresh.
    eexists _, _, _. split; [reflexivity|]. unfold user_by_id. simpl.
    unfold select_one in *. rewrite find_update_where by reflexivity.
    rewrite Hu. simpl. repeat split; reflexivity.
  - intro Hlt. apply Qlt_bool_true in Hlt. rewrite Hlt. reflexivity.
Qed.

(** ** Registration *)

Lemma existsb_orb {A : Type} (a b : A -> bool) t :
  existsb (fun r => a r || b r)%bool t = (existsb a t || existsb b t)%bool.
Proof.
  induction t as [|x t IH]; simpl; [reflexivity|]. rewrite IH.
  destruct (a x), (b x), (existsb a t), (existsb b t); reflexivity.
Qed.

Lemma stocks_insert_spec new t :
  Stocks.insert new t
  = if (existsb (Stocks.has_id (Stocks.id new)) t
        || existsb (Stocks.has_symbol (Stocks.symbol new)) t)%bool
    then None else Some (t ++ [new]).
Proof.
  unfold Stocks.insert, insert_unless. rewrite existsb_orb. reflexivity.
Qed.



(** ** The theorems at work on the example databases *)

Lemma wf_seeded : wf seeded.
Proof. apply wf_run, wf_empty. Qed.

Lemma conservation_witness :
  register_stock "stock-xyz" "xyz" "Xyz Corp." 50 100 (run [boot] empty_db)
  = (Success "stock-xyz", hundred_units)
  /\ exists st,
       stock_by_id "stock-xyz" (run trades hundred_units) = Some st
       /\ (Stocks.available_quantity st + held "stock-xyz" (run trades hundred_units))%Z
          = 100%Z.
Proof.
  assert (Hreg : register_stock "stock-xyz" "xyz" "Xyz Corp." 50 100
                   (run [boot] empty_db)
                 = (Success "stock-xyz", hundred_units)) by by_evaluation.
  split; [exact Hreg|].
  exact (conservation [boot] trades "stock-xyz" "xyz" "Xyz Corp." 50 100
           hundred_units Hreg).
Defined.

Lemma weighted_average_witness :
  (exists pos,
     position "user-0" "stock-xyz" (snd second_buy) = Some pos
     /\ Portfolios.quantity pos = (10 + 30)%Z
     /\ (10 + 30 <> 0)%Z
     /\ Portfolios.avg_buy_price pos
        == (inject_Z 10 * 50 + inject_Z 30 * (1050 # 20))
           / (inject_Z 10 + inject_Z 30))
  /\
  (exists pos,
     position "user-0" "stock-xyz" (snd second_buy) = Some pos
     /\ Portfolios.quantity pos = (10 + 30)%Z
     /\ (10 + 30 <> 0)%Z
     /\ Portfolios.avg_buy_price pos
        == (inject_Z 10 * 50 + inject_Z 30 * (1050 # 20))
           / (inject_Z 10 + inject_Z 30)).
Proof.
  pose (st1 := Stocks.mk "stock-xyz" "XYZ" "Xyz Corp." 50 100).
  pose (st2 := Stocks.mk "stock-xyz" "XYZ" "Xyz Corp." (1050 # 20) 90).
  pose (r1 := mk_buy_receipt "t1" "XYZ" 10 50 500 9500).
  pose (r2 := mk_buy_receipt "t2" "XYZ" 30 (1050 # 20) (31500 # 20) (158500 # 20)).
  assert (Hst1 : stock_by_symbol (upper "XYZ") hundred_units = Some st1)
    by by_evaluation.
  assert (Hnone : position "user-0" (Stocks.id st1) hundred_units = None)
    by by_evaluation.
  assert (Hb1 : buy_stock "t1" "user-0" "XYZ" 10 hundred_units
                = (Success r1, snd first_buy)) by by_evaluation.
  assert (Hst2 : stock_by_symbol (upper "XYZ") risen = Some st2) by by_evaluation.
  assert (Hid : Stocks.id st2 = Stocks.id st1) by by_evaluation.
  assert (Hsame : position "user-0" (Stocks.id st1) risen
                  = position "user-0" (Stocks.id st1) (snd first_buy))
    by by_evaluation.
  assert (Hb2 : buy_stock "t2" "user-0" "XYZ" 30 risen
                = (Success r2, snd second_buy)) by by_evaluation.
  assert (Hpos : position "user-0" (Stocks.id st2) risen
                 = Some (Portfolios.mk "user-0" "stock-xyz" 10 50)) by by_evaluation.
  split.
  - exact (proj1 weighted_average "t2" "user-0" "XYZ" 30%Z risen r2 (snd second_buy)
             st2 (Portfolios.mk "user-0" "stock-xyz" 10 50) Hb2 Hst2 Hpos).
  - exact (proj2 weighted_average "t1" "t2" "user-0" "XYZ" 10%Z 30%Z hundred_units
             r1 (snd first_buy) risen r2 (snd second_buy) st1 st2
             Hst1 Hnone Hb1 Hst2 Hid Hsame Hb2).
Defined.

Lemma take_loan_within_limit_witness :
  (exists rcpt s' user',
     take_loan "l1" "user-0" 1500 seeded = (Success rcpt, s')
     /\ user_by_id "user-0" s' = Some user'
     /\ Users.balance user' = 10000 + 1500
     /\ Users.loan_amount user' = 0 + 1500
     /\ loans s'
        = loans seeded ++ [Loans.mk "l1" "user-0" 1500 Loans.default_interest_rate]
     /\ lr_new_balance rcpt = 10000 + 1500
     /\ lr_total_loan rcpt = 0 + 1500)
  /\ take_loan "l1" "user-0" 150000 seeded
     = (Failure (Loan_amount_exceeds 100000), seeded).
Proof.
  assert (Hu : user_by_id "user-0" seeded
               = Some (Users.mk "user-0" "user_1" 10000 0 100000)) by by_evaluation.
  assert (Hl : existsb (fun r => String.eqb (Loans.id r) "l1") (loans seeded) = false)
    by by_evaluation.
  assert (Hin : 0 + 1500 <= 100000) by (vm_compute; discriminate).
  assert (Hout : 100000 < 0 + 150000) by by_evaluation.
  split.
  - exact (proj1 (take_loan_within_limit "l1" "user-0" 1500 seeded _ Hu Hl) Hin).
  - exact (proj2 (take_loan_within_limit "l1" "user-0" 150000 seeded _ Hu Hl) Hout).
Defined.


(** ** Balances *)

(** X22.  A buy that succeeds leaves a balance that is not negative, and
    the balance of the user in the table is the [new_balance] of the
    answer. *)
Lemma buy_stock_balance t u sym q s rcpt s' :
  buy_stock t u sym q s = (Success rcpt, s') ->
  0 <= br_new_balance rcpt
  /\ exists user',
       user_by_id u s' = Some user' /\ Users.balance user' = br_new_balance rcpt.
Proof.
  intro Hb. apply buy_stock_success in Hb.
  destruct Hb as [st [user [_ [Hu [_ [Hle [_ [Hus [_ [_ [_ Hnb]]]]]]]]]]].
  rewrite Hnb. split; [lra|].
  unfold user_by_id, select_one in *. rewrite Hus.
  rewrite find_update_where by reflexivity. rewrite Hu. simpl. eauto.
Qed.

(** X23.  A sale that succeeds adds the price times the quantity to the
    balance of the user; a sale of a quantity that is not negative, at a
    price that is not negative, does not lower the balance. *)
Lemma sell_stock_balance t u sym q s rcpt s' :
  sell_stock t u sym q s = (Success rcpt, s') ->
  exists st user user',
    stock_by_symbol (upper sym) s = Some st
    /\ user_by_id u s = Some user
    /\ user_by_id u s' = Some user'
    /\ Users.balance user'
       = Users.balance user + Stocks.current_price st * inject_Z q
    /\ ((0 <= q)%Z -> 0 <= Stocks.current_price st ->
        Users.balance user <= Users.balance user').
Proof.
  unfold sell_stock, stock_by_symbol, user_by_id.
  destruct (select_one _ (stocks s)) as [st|]; [|discriminate].
  destruct (select_one _ (user_portfolios s)) as [pos|]; [|discriminate].
  destruct (_ <? _)%Z; [discriminate|].
  destruct (select_one _ (users s)) as [user|] eqn:Hu; [|discriminate].
  destruct (Transactions.insert _ _) as [t2|]; [|discriminate].
  intro H. injection H as <- <-. exists st, user. simpl.
  unfold select_one in *. rewrite find_update_where by reflexivity.
  rewrite Hu. simpl. eexists. repeat split; try reflexivity.
  simpl. intros Hq Hp.
  assert (0 <= inject_Z q) by (unfold Qle; simpl; lia).
  assert (0 <= Stocks.current_price st * inject_Z q) by (apply Qmult_le_0_compat; auto).
  lra.
Qed.

(** C2.  A committed sale can leave a negative balance: [sell_stock]
    accepts the quantity -20, and user_1, who holds 100 MSFT and 1000 in
    cash, is left with -800. *)
Theorem sale_of_negative_quantity_overdraws :
  reachable after_purchase
  /\ (exists user,
        user_by_id "user-0" after_purchase = Some user /\ 0 <= Users.balance user)
  /\ exists rcpt s' user',
       sell_stock "t2" "user-0" "MSFT" (-20) after_purchase = (Success rcpt, s')
       /\ user_by_id "user-0" s' = Some user'
       /\ Users.balance user' == -800
       /\ Users.balance user' < 0.
Proof.
  split; [eexists; reflexivity|]. split.
  - eexists. split; [by_evaluation|]. vm_compute. discriminate.
  - eexists _, _, _. split; [by_evaluation|]. split; [by_evaluation|].
    split; by_evaluation.
Qed.

(** ** The bounds of a price *)

(** After the loop of lines 197-216 a row is within the bounds or is a row
    of the table that none of the rounds has selected. *)
Lemma update_each_bounds cp fetched i s st :
  In st (stocks (update_each fetched i cp s)) ->
  in_bounds st
  \/ (In st (stocks s)
      /\ forall f, In f fetched -> Stocks.has_id (Stocks.id f) st = false).
Proof.
  revert i s. induction fetched as [|f rest IH]; intros i s Hin; simpl in Hin.
  - right. split; [exact Hin|]. intros f [].
  - apply IH in Hin. destruct Hin as [Hb|[Hin Hrest]]; [left; exact Hb|].
    simpl in Hin. apply in_update_where in Hin.
    destruct Hin as [r0 [Hr0 [[Hm ->]|[_ ->]]]].
    + right. split; [exact Hr0|].
      intros f' [<-|Hf']; [exact Hm|apply Hrest, Hf'].
    + left. unfold in_bounds. simpl. apply clamp_price_bounds.
Qed.

(** X7.  Every price is within 1 and 100 after [update_stock_prices],
    whatever is drawn and whatever the prices were before. *)
Lemma update_stock_prices_bounds cp s st :
  In st (stocks (update_stock_prices cp s)) -> in_bounds st.
Proof.
  intro Hin. apply update_each_bounds in Hin.
  destruct Hin as [Hb|[Hin Hnone]]; [exact Hb|].
  specialize (Hnone st Hin). unfold Stocks.has_id in Hnone.
  rewrite String.eqb_refl in Hnone. discriminate.
Qed.

(** C4.  The price [setup_initial_data] stores for AAPL is 150: a
    mutation of [current_price], the first of the stock, that leaves it
    above 100.  The one row of its history carries 150 too. *)
Theorem seeded_price_out_of_bounds :
  setup_initial_data (example_uuid4 "stock-") (example_uuid4 "user-") empty_db
  = (Success tt, seeded)
  /\ exists st,
       stock_by_symbol "AAPL" seeded = Some st
       /\ Stocks.current_price st == 150
       /\ ~ Stocks.current_price st <= 100
       /\ history_of (Stocks.id st) seeded = [History.mk (Stocks.id st) 150].
Proof.
  split; [by_evaluation|].
  eexists. split; [by_evaluation|]. split; [by_evaluation|].
  split; [|by_evaluation].
  vm_compute. intro H. apply H. reflexivity.
Qed.

(** ** Arguments that are not positive *)

(** C5.  [buy_stock] does not refuse a quantity below 1: the call with -5
    succeeds, credits user_1 with 450, raises the units of MSFT on offer
    from 900 to 905, opens a position of -5 units and writes a
    transaction. *)
Theorem buy_of_negative_quantity_succeeds :
  exists rcpt s' st user pos,
    buy_stock "t1" "user-0" "MSFT" (-5) seeded = (Success rcpt, s')
    /\ stock_by_symbol "MSFT" s' = Some st
    /\ Stocks.available_quantity st = 905%Z
    /\ user_by_id "user-0" s' = Some user
    /\ Users.balance user == 10450
    /\ position "user-0" (Stocks.id st) s' = Some pos
    /\ Portfolios.quantity pos = (-5)%Z
    /\ List.length (transactions s') = 1%nat
    /\ s' <> seeded.
Proof.
  eexists _, _, _, _, _.
  split; [by_evaluation|]. split; [by_evaluation|]. split; [by_evaluation|].
  split; [by_evaluation|]. split; [by_evaluation|]. split; [by_evaluation|].
  split; [by_evaluation|]. split; [by_evaluation|].
  intro H. apply (f_equal (fun d => List.length (transactions d))) in H.
  vm_compute in H. discriminate.
Qed.

(** The same for a loan of a negative amount. *)
Lemma loan_of_negative_amount_succeeds :
  exists rcpt s' user,
    take_loan "l1" "user-0" (-20000) seeded = (Success rcpt, s')
    /\ user_by_id "user-0" s' = Some user
    /\ Users.balance user == -10000
    /\ Users.loan_amount user == -20000.
Proof.
  eexists _, _, _.
  split; [by_evaluation|]. split; [by_evaluation|]. split; by_evaluation.
Qed.

(** ** A sale by a user the table does not have *)

(** [sell_stock] has no answer "User not found". *)
Lemma sell_stock_never_user_not_found t u sym q s :
  fst (sell_stock t u sym q s) <> Failure User_not_found.
Proof.
  unfold sell_stock.
  destruct (select_one _ (stocks s)) as [st|]; simpl; [|discriminate].
  destruct (select_one _ (user_portfolios s)) as [pos|]; simpl; [|discriminate].
  destruct (_ <? _)%Z; simpl; [discriminate|].
  destruct (select_one _ (users s)) as [user|]; simpl; [|discriminate].
  destruct (Transactions.insert _ _); simpl; discriminate.
Qed.

(** A sale that fails leaves the database as it was. *)
Lemma sell_stock_failure_unchanged t u sym q s :
  is_success (fst (sell_stock t u sym q s)) = false ->
  snd (sell_stock t u sym q s) = s.
Proof.
  unfold sell_stock.
  destruct (select_one _ (stocks s)) as [st|]; simpl; [|reflexivity].
  destruct (select_one _ (user_portfolios s)) as [pos|]; simpl; [|reflexivity].
  destruct (_ <? _)%Z; simpl; [reflexivity|].
  destruct (select_one _ (users s)) as [user|]; simpl; [|reflexivity].
  destruct (Transactions.insert _ _); simpl; [discriminate|reflexivity].
Qed.

(** C6.  MSFT is a stock of the table and "ghost" is no user: the sale
    is answered "Insufficient stocks to sell", not "User not found"; the
    database is left as it was. *)
Theorem sale_by_unknown_user :
  stock_by_symbol "MSFT" seeded <> None
  /\ user_by_id "ghost" seeded = None
  /\ sell_stock "t1" "ghost" "MSFT" 1 seeded
     = (Failure Insufficient_stocks_to_sell, seeded).
Proof.
  split; [vm_compute; discriminate|]. split; by_evaluation.
Qed.

(** ** The stock report *)

Lemma not_null_app {A B : Type} (col : A -> option B) l1 l2 :
  not_null col (l1 ++ l2) = not_null col l1 ++ not_null col l2.
Proof. unfold not_null. apply flat_map_app. Qed.

Lemma count_row {B : Type} (f : Transactions.row -> B)
    (hj : list (option History.row)) (t : option Transactions.row) :
  List.length
    (not_null (fun r : option Transactions.row * option History.row =>
                 option_map f (fst r))
       (map (fun h => (t, h)) hj))
  = (List.length (not_null (option_map f) [t]) * List.length hj)%nat.
Proof.
  induction hj as [|h hj IH]; [simpl; lia|].
  destruct t as [t|]; simpl in *; rewrite IH; lia.
Qed.

(** Every row of the first join meets every row of the second. *)
Lemma count_pairs {B : Type} (f : Transactions.row -> B)
    (hj : list (option History.row)) (tj : list (option Transactions.row)) :
  List.length
    (not_null (fun r : option Transactions.row * option History.row =>
                 option_map f (fst r))
       (flat_map (fun t => map (fun h => (t, h)) hj) tj))
  = (List.length (not_null (option_map f) tj) * List.length hj)%nat.
Proof.
  induction tj as [|t tj IH]; [reflexivity|].
  change (t :: tj) with ([t] ++ tj).
  rewrite flat_map_app, !not_null_app, !length_app, IH, Nat.mul_add_distr_r.
  f_equal. simpl flat_map. rewrite app_nil_r. apply count_row.
Qed.

Lemma sum_row (g : option Transactions.row -> Z)
    (hj : list (option History.row)) (t : option Transactions.row) :
  sql_sum
    (map (fun r : option Transactions.row * option History.row => g (fst r))
       (map (fun h => (t, h)) hj))
  = (g t * Z.of_nat (List.length hj))%Z.
Proof.
  induction hj as [|h hj IH]; [simpl; lia|].
  cbn [map sql_sum fold_right fst List.length]. fold (sql_sum).
  change (fold_right Z.add 0%Z) with sql_sum. rewrite IH. lia.
Qed.

Lemma sum_pairs (g : option Transactions.row -> Z)
    (hj : list (option History.row)) (tj : list (option Transactions.row)) :
  sql_sum
    (map (fun r : option Transactions.row * option History.row => g (fst r))
       (flat_map (fun t => map (fun h => (t, h)) hj) tj))
  = (sql_sum (map g tj) * Z.of_nat (List.length hj))%Z.
Proof.
  induction tj as [|t tj IH]; [reflexivity|].
  cbn [flat_map map]. rewrite map_app, sql_sum_app, IH, sum_row.
  change (sql_sum (g t :: map g tj)) with (g t + sql_sum (map g tj))%Z. lia.
Qed.

Lemma length_left_join {A : Type} (on : A -> bool) t :
  List.length (left_join on t) = Nat.max 1 (List.length (filter on t)).
Proof.
  unfold left_join. destruct (filter on t) as [|x l]; simpl; [reflexivity|].
  rewrite length_map. reflexivity.
Qed.

Lemma not_null_left_join {A B : Type} (f : A -> B) (on : A -> bool) t :
  not_null (option_map f) (left_join on t) = map f (filter on t).
Proof.
  unfold left_join. destruct (filter on t) as [|x l] eqn:E; [reflexivity|].
  clear E. generalize (x :: l). intro l'.
  induction l' as [|y l' IH]; simpl; [reflexivity|]. now rewrite IH.
Qed.

Lemma sum_left_join (k : transaction_kind) (on : Transactions.row -> bool) t :
  sql_sum (map (quantity_if k) (left_join on t))
  = sql_sum (map (quantity_of_kind k) (filter on t)).
Proof.
  unfold left_join. destruct (filter on t) as [|x l] eqn:E; [reflexivity|].
  clear E. generalize (x :: l). intro l'.
  induction l' as [|y l' IH]; simpl; [reflexivity|]. now rewrite IH.
Qed.

(** What the report calls [transaction_count] is the number of
    transactions of the stock times the number of its price records. *)
Lemma report_transaction_count s st :
  transaction_count (stock_report_of s st)
  = Z.of_nat (List.length (transactions_of (Stocks.id st) s)
              * Nat.max 1 (List.length (history_of (Stocks.id st) s))).
Proof.
  unfold stock_report_of, joined_rows, sql_count. simpl.
  rewrite count_pairs, not_null_left_join, length_map, length_left_join.
  reflexivity.
Qed.

(** And what it calls [total_bought] and [total_sold] are the quantities
    bought and sold times the number of price records. *)
Lemma report_volume s st :
  total_bought (stock_report_of s st)
  = (sql_sum (map (quantity_of_kind BUY) (transactions_of (Stocks.id st) s))
     * Z.of_nat (Nat.max 1 (List.length (history_of (Stocks.id st) s))))%Z
  /\ total_sold (stock_report_of s st)
     = (sql_sum (map (quantity_of_kind SELL) (transactions_of (Stocks.id st) s))
        * Z.of_nat (Nat.max 1 (List.length (history_of (Stocks.id st) s))))%Z.
Proof.
  unfold stock_report_of, joined_rows. simpl.
  rewrite !sum_pairs, !sum_left_join, length_left_join. split; reflexivity.
Qed.

(** C8.  After one buy of 10 MSFT and one update of the prices, MSFT has
    one transaction and two price records; the report gives a
    [transaction_count] of 2 and a [total_bought] of 20. *)
Theorem stock_report_counts_pairs :
  exists st,
    stock_by_symbol "MSFT" after_update = Some st
    /\ In (stock_report_of after_update st) (get_stock_report after_update)
    /\ List.length (transactions_of (Stocks.id st) after_update) = 1%nat
    /\ List.length (history_of (Stocks.id st) after_update) = 2%nat
    /\ transaction_count (stock_report_of after_update st) = 2%Z
    /\ sql_sum (map (quantity_of_kind BUY)
                    (transactions_of (Stocks.id st) after_update)) = 10%Z
    /\ total_bought (stock_report_of after_update st) = 20%Z.
Proof.
  eexists. split; [by_evaluation|]. split.
  - unfold get_stock_report. apply in_map.
    vm_compute. right. right. left. reflexivity.
  - repeat split; by_evaluation.
Qed.

(** ** Buys in parallel *)

(** A call that takes its two phases with nothing in between is a call of
    [buy_stock]. *)
Lemma advance_twice t u sym q s :
  let (c, s1) := advance (Ready t u sym q) s in
  advance c s1
  = (Returned (fst (buy_stock t u sym q s)), snd (buy_stock t u sym q s)).
Proof.
  unfold buy_stock. simpl.
  destruct (buy_stock_reads u sym q s) as [m|r]; simpl; [reflexivity|].
  destruct (buy_stock_writes t u sym q r s). reflexivity.
Qed.

(** One call after the other: one of the two buyers of [two_buyers] gets
    the unit, the other is told that the stock is not available. *)
Lemma serial_buys_do_not_oversell :
  exists pool s' st,
    run_schedule [0; 0; 1; 1]%nat two_buyers one_unit = (pool, s')
    /\ List.length (filter succeeded pool) = 1%nat
    /\ List.length (filter out_of_stock pool) = 1%nat
    /\ stock_by_id "stock-xyz" s' = Some st
    /\ Stocks.available_quantity st = 0%Z
    /\ held "stock-xyz" s' = 1%Z.
Proof.
  eexists _, _, _. split; [by_evaluation|].
  repeat split; by_evaluation.
Qed.

(** C9.  Two calls ([N] = 2) for one unit each of a stock with one unit
    ([I] = 1), the reads of both before the writes of either: both
    succeed, none is answered "Insufficient stock availability", and the
    stock ends with no unit on offer and two units held. *)
Theorem parallel_buys_oversell :
  exists pool s' st,
    available "stock-xyz" one_unit = 1%Z
    /\ List.length two_buyers = 2%nat
    /\ run_schedule [0; 1; 0; 1]%nat two_buyers one_unit = (pool, s')
    /\ List.length (filter succeeded pool) = 2%nat
    /\ List.length (filter out_of_stock pool) = 0%nat
    /\ stock_by_id "stock-xyz" s' = Some st
    /\ Stocks.available_quantity st = 0%Z
    /\ held "stock-xyz" s' = 2%Z.
Proof.
  eexists _, _, _. split; [by_evaluation|]. split; [reflexivity|].
  split; [by_evaluation|]. repeat split; by_evaluation.
Qed.

(** C1.  Two buys of 10 units each of a stock registered with 100 units,
    in two threads, the reads of both before the writes of either: both
    are committed, and the stock ends with 90 units on offer and 20 units
    held, 110 for the 100 minted. *)
Theorem overlapping_buys_break_conservation :
  exists pool s' st,
    register_stock "stock-xyz" "xyz" "Xyz Corp." 50 100 seeded
    = (Success "stock-xyz", hundred_units)
    /\ run_schedule [0; 1; 0; 1]%nat
         [Ready "t1" "user-0" "XYZ" 10; Ready "t2" "user-1" "XYZ" 10]
         hundred_units
       = (pool, s')
    /\ List.length (filter succeeded pool) = 2%nat
    /\ stock_by_id "stock-xyz" s' = Some st
    /\ Stocks.available_quantity st = 90%Z
    /\ held "stock-xyz" s' = 20%Z
    /\ (Stocks.available_quantity st + held "stock-xyz" s')%Z <> 100%Z.
Proof.
  eexists _, _, _. split; [by_evaluation|]. split; [by_evaluation|].
  split; [by_evaluation|]. split; [by_evaluation|]. split; [by_evaluation|].
  split; [by_evaluation|]. vm_compute. discriminate.
Qed.

(** ** Buys one after the other *)

Lemma find_update_where_image {A : Type} (m p : A -> bool) f t r :
  (forall r, p (f r) = p r) ->
  find p t = Some r ->
  find p (update_where m f t) = Some (if m r then f r else r).
Proof.
  intros Hp. induction t as [|a t IH]; simpl; [discriminate|].
  destruct (m a) eqn:Em.
  - rewrite Hp. destruct (p a) eqn:Ep.
    + intro H. injection H as <-. now rewrite Em.
    + exact IH.
  - destruct (p a) eqn:Ep.
    + intro H. injection H as <-. now rewrite Em.
    + exact IH.
Qed.

(** A buy that does not succeed leaves the database as it was. *)
Lemma buy_stock_failure_unchanged t u sym q s :
  is_success (fst (buy_stock t u sym q s)) = false ->
  snd (buy_stock t u sym q s) = s.
Proof.
  unfold buy_stock.
  destruct (buy_stock_reads u sym q s) as [m|r]; simpl; [reflexivity|].
  unfold buy_stock_writes.
  destruct (upsert_position _ _ _ _ _); simpl; [reflexivity|].
  destruct (Transactions.insert _ _); simpl; [discriminate|reflexivity].
Qed.

(** "Insufficient stock availability" is the answer of line 340 only. *)
Lemma buy_stock_sold_out t u sym q s st :
  stock_by_symbol (upper sym) s = Some st ->
  sold_out (fst (buy_stock t u sym q s)) = true ->
  (Stocks.available_quantity st < q)%Z.
Proof.
  unfold buy_stock, buy_stock_reads, stock_by_symbol. intros ->.
  destruct (_ <? _)%Z eqn:E; [intros _; now apply Z.ltb_lt|].
  destruct (select_one _ (users s)) as [user|]; simpl; [|discriminate].
  destruct (Qlt_bool _ _); simpl; [discriminate|].
  unfold buy_stock_writes.
  destruct (upsert_position _ _ _ _ _); simpl; [discriminate|].
  destruct (Transactions.insert _ _); simpl; discriminate.
Qed.

(** The row of the stock after a buy that succeeds. *)
Lemma buy_stock_takes_units t u sym q s rcpt s' st :
  buy_stock t u sym q s = (Success rcpt, s') ->
  stock_by_symbol (upper sym) s = Some st ->
  (q <= Stocks.available_quantity st)%Z
  /\ stock_by_symbol (upper sym) s'
     = Some (Stocks.set_available_quantity (Stocks.available_quantity st - q) st).
Proof.
  intros Hb Hst. apply buy_stock_success in Hb.
  destruct Hb as [st0 [user [Hst0 [_ [Hq [_ [_ [_ [Hs _]]]]]]]]].
  rewrite Hst in Hst0. injection Hst0 as <-. split; [exact Hq|].
  unfold stock_by_symbol, select_one in *. rewrite Hs.
  rewrite (find_update_where_image (Stocks.has_id (Stocks.id st))
             (Stocks.has_symbol (upper sym))
             (Stocks.set_available_quantity (Stocks.available_quantity st - q))
             _ st (fun _ => eq_refl) Hst).
  unfold Stocks.has_id. now rewrite String.eqb_refl.
Qed.

(** X20.  Taken one after the other, calls for one unit each, none of which
    fails for another reason than the lack of units, succeed until the
    units are gone: of [N >= I] calls exactly [I] succeed, [N - I] are
    answered "Insufficient stock availability", and no unit is left. *)
Theorem serial_buys_exactly_inventory calls sym s st rs s' :
  stock_by_symbol (upper sym) s = Some st ->
  (0 <= Stocks.available_quantity st <= Z.of_nat (List.length calls))%Z ->
  buy_one_each calls sym s = (rs, s') ->
  Forall (fun r => is_success r = true \/ sold_out r = true) rs ->
  Z.of_nat (List.length (filter is_success rs)) = Stocks.available_quantity st
  /\ Z.of_nat (List.length (filter sold_out rs))
     = (Z.of_nat (List.length calls) - Stocks.available_quantity st)%Z
  /\ exists st',
       stock_by_symbol (upper sym) s' = Some st'
       /\ Stocks.id st' = Stocks.id st
       /\ Stocks.available_quantity st' = 0%Z.
Proof.
  revert s st rs s'. induction calls as [|[t u] rest IH]; intros s st rs s' Hst HI Hrun Hall.
  - simpl in *. injection Hrun as <- <-. simpl.
    repeat split; try lia. exists st. repeat split; auto. lia.
  - simpl in Hrun.
    destruct (buy_stock t u sym 1 s) as [r s1] eqn:Hb.
    destruct (buy_one_each rest sym s1) as [rs1 s2] eqn:Hrest.
    injection Hrun as <- <-.
    inversion Hall as [|r0 rs0 Hr Hrs]; subst.
    cbn [List.length] in HI. rewrite Nat2Z.inj_succ in HI.
    destruct Hr as [Hr|Hr].
    + destruct r as [rcpt| |]; try discriminate.
      destruct (buy_stock_takes_units _ _ _ _ _ _ _ _ Hb Hst) as [Hq Hst1].
      destruct (IH _ _ _ _ Hst1 ltac:(simpl; lia) Hrest Hrs)
        as [Hsucc [Hout [st' [Hst' [Hid Hzero]]]]].
      simpl in Hsucc, Hout, Hid. cbn [filter is_success sold_out List.length].
      rewrite Nat2Z.inj_succ. repeat split; try lia.
      exists st'. auto.
    + pose proof Hr as Hlt.
      replace r with (fst (buy_stock t u sym 1 s)) in Hlt by (now rewrite Hb).
      apply (buy_stock_sold_out _ _ _ _ _ _ Hst) in Hlt.
      assert (Hs1 : s1 = s).
      { replace s1 with (snd (buy_stock t u sym 1 s)) by (now rewrite Hb).
        apply buy_stock_failure_unchanged. rewrite Hb. simpl.
        destruct r as [rcpt|m|e]; [discriminate|reflexivity|reflexivity]. }
      subst s1.
      destruct (IH _ _ _ _ Hst ltac:(lia) Hrest Hrs)
        as [Hsucc [Hout [st' [Hst' [Hid Hzero]]]]].
      assert (Hns : is_success r = false)
        by (destruct r as [rcpt|m|e]; [discriminate|reflexivity|reflexivity]).
      cbn [filter List.length]. rewrite Hns, Hr. cbn [List.length].
      rewrite Nat2Z.inj_succ. repeat split; try lia.
      exists st'. auto.
Qed.

Example serial_buys_example :
  exists rs s',
    buy_one_each [("t1", "user-0"); ("t2", "user-1")] "XYZ" one_unit = (rs, s')
    /\ List.length (filter is_success rs) = 1%nat
    /\ List.length (filter sold_out rs) = 1%nat.
Proof.
  eexists _, _. split; [by_evaluation|]. split; by_evaluation.
Qed.

(** ** What the stock report gets right *)

Lemma py_max_absorb m y : y <= m -> py_max m y = m.
Proof.
  intro H. unfold py_max. apply Qlt_bool_false in H. now rewrite H.
Qed.

Lemma py_min_absorb m y : m <= y -> py_min m y = m.
Proof.
  intro H. unfold py_min. apply Qlt_bool_false in H. now rewrite H.
Qed.

Lemma py_max_ge m y : m <= py_max m y /\ y <= py_max m y.
Proof.
  unfold py_max. destruct (Qlt_bool m y) eqn:E.
  - apply Qlt_bool_true in E. split; lra.
  - apply Qlt_bool_false in E. split; lra.
Qed.

Lemma py_min_le m y : py_min m y <= m /\ py_min m y <= y.
Proof.
  unfold py_min. destruct (Qlt_bool y m) eqn:E.
  - apply Qlt_bool_true in E. split; lra.
  - apply Qlt_bool_false in E. split; lra.
Qed.

Lemma fold_max_ge l x :
  x <= fold_left py_max l x /\ forall y, In y l -> y <= fold_left py_max l x.
Proof.
  revert x. induction l as [|a l IH]; intro x; simpl.
  - split; [lra|]. intros y [].
  - destruct (IH (py_max x a)) as [H1 H2]. destruct (py_max_ge x a) as [H3 H4].
    split; [lra|]. intros y [<-|Hy]; [lra|auto].
Qed.

Lemma fold_min_le l x :
  fold_left py_min l x <= x /\ forall y, In y l -> fold_left py_min l x <= y.
Proof.
  revert x. induction l as [|a l IH]; intro x; simpl.
  - split; [lra|]. intros y [].
  - destruct (IH (py_min x a)) as [H1 H2]. destruct (py_min_le x a) as [H3 H4].
    split; [lra|]. intros y [<-|Hy]; [lra|auto].
Qed.

Lemma fold_max_absorb l m :
  (forall y, In y l -> y <= m) -> fold_left py_max l m = m.
Proof.
  induction l as [|a l IH]; simpl; intro H; [reflexivity|].
  rewrite py_max_absorb by (apply H; now left). apply IH. intros y Hy. apply H. now right.
Qed.

Lemma fold_min_absorb l m :
  (forall y, In y l -> m <= y) -> fold_left py_min l m = m.
Proof.
  induction l as [|a l IH]; simpl; intro H; [reflexivity|].
  rewrite py_min_absorb by (apply H; now left). apply IH. intros y Hy. apply H. now right.
Qed.

(** MAX and MIN do not see the values a join repeats. *)
Lemma sql_max_repeated l l' :
  (forall y, In y l' -> In y l) -> sql_max (l ++ l') = sql_max l.
Proof.
  destruct l as [|x l]; simpl; intro H.
  - destruct l' as [|y l']; [reflexivity|]. destruct (H y); now left.
  - f_equal. rewrite fold_left_app. apply fold_max_absorb.
    intros y Hy. destruct (fold_max_ge l x) as [H1 H2].
    destruct (H y Hy) as [<-|Hin]; auto.
Qed.

Lemma sql_min_repeated l l' :
  (forall y, In y l' -> In y l) -> sql_min (l ++ l') = sql_min l.
Proof.
  destruct l as [|x l]; simpl; intro H.
  - destruct l' as [|y l']; [reflexivity|]. destruct (H y); now left.
  - f_equal. rewrite fold_left_app. apply fold_min_absorb.
    intros y Hy. destruct (fold_min_le l x) as [H1 H2].
    destruct (H y Hy) as [<-|Hin]; auto.
Qed.

Lemma not_null_snd_pairs {B : Type} (f : History.row -> B)
    (hj : list (option History.row)) (tj : list (option Transactions.row)) :
  not_null (fun r : option Transactions.row * option History.row =>
              option_map f (snd r))
    (flat_map (fun t => map (fun h => (t, h)) hj) tj)
  = flat_map (fun _ => not_null (option_map f) hj) tj.
Proof.
  induction tj as [|t tj IH]; [reflexivity|].
  cbn [flat_map]. rewrite not_null_app, IH. f_equal.
  clear IH. induction hj as [|h hj IHh]; [reflexivity|].
  simpl. now rewrite IHh.
Qed.

Lemma left_join_cons {A : Type} (on : A -> bool) t :
  exists x l, left_join on t = x :: l.
Proof.
  unfold left_join. destruct (filter on t) as [|x l]; simpl; eauto.
Qed.

(** [max_price] and [min_price] are those of the price records of the
    stock, and the volatility is 0 for a stock without any. *)
Lemma report_price_range s st :
  max_price (stock_report_of s st)
  = sql_max (map History.price (history_of (Stocks.id st) s))
  /\ min_price (stock_report_of s st)
     = sql_min (map History.price (history_of (Stocks.id st) s))
  /\ volatility_percent (stock_report_of s st)
     = volatility (max_price (stock_report_of s st))
                  (min_price (stock_report_of s st))
  /\ (history_of (Stocks.id st) s = [] ->
      volatility_percent (stock_report_of s st) = 0).
Proof.
  unfold stock_report_of, joined_rows. cbn [max_price min_price volatility_percent].
  rewrite not_null_snd_pairs, not_null_left_join.
  destruct (left_join_cons (Transactions.of_stock (Stocks.id st)) (transactions s))
    as [x [l ->]].
  cbn [flat_map].
  assert (Hrep : forall y,
            In y (flat_map (fun _ : option Transactions.row =>
                              map History.price
                                (filter (History.of_stock (Stocks.id st))
                                        (stock_price_history s))) l) ->
            In y (map History.price
                    (filter (History.of_stock (Stocks.id st)) (stock_price_history s)))).
  { intros y Hy. apply in_flat_map in Hy. destruct Hy as [_ [_ Hy]]. exact Hy. }
  rewrite (sql_max_repeated _ _ Hrep), (sql_min_repeated _ _ Hrep).
  unfold history_of, select_all. repeat split.
  intros ->. reflexivity.
Qed.

(** The formula of the volatility. *)
Lemma volatility_formula mx mn :
  ~ mx == 0 -> ~ mn == 0 ->
  volatility (Some mx) (Some mn) = ((mx - mn) / mn) * 100.
Proof.
  intros Hx Hn. unfold volatility, truthy.
  destruct (Qeq_bool mx 0) eqn:Ex; [apply Qeq_bool_iff in Ex; contradiction|].
  destruct (Qeq_bool mn 0) eqn:En; [apply Qeq_bool_iff in En; contradiction|].
  reflexivity.
Qed.

Lemma not_null_fst_pairs {B : Type} (f : Transactions.row -> B)
    (hj : list (option History.row)) (tj : list (option Transactions.row)) :
  not_null (fun r : option Transactions.row * option History.row =>
              option_map f (fst r))
    (flat_map (fun t => map (fun h => (t, h)) hj) tj)
  = flat_map (fun t => match t with
                       | Some r => map (fun _ => f r) hj
                       | None => []
                       end) tj.
Proof.
  induction tj as [|t tj IH]; [reflexivity|].
  cbn [flat_map]. rewrite not_null_app, IH. f_equal.
  clear IH. destruct t as [r|]; induction hj as [|h hj IHh]; try reflexivity.
  - simpl. simpl in IHh. now rewrite IHh.
  - simpl. simpl in IHh. exact IHh.
Qed.

Lemma Qsum_app l1 l2 : Qsum (l1 ++ l2) == Qsum l1 + Qsum l2.
Proof.
  induction l1 as [|x l1 IH]; simpl; [lra|]. rewrite IH. lra.
Qed.

Lemma Qsum_constant {A : Type} (x : Q) (l : list A) :
  Qsum (map (fun _ => x) l) == inject_Z (Z.of_nat (List.length l)) * x.
Proof.
  induction l as [|a l IH]; [change (0 == 0 * x); lra|].
  cbn [map Qsum fold_right List.length]. fold (Qsum (map (fun _ : A => x) l)).
  rewrite IH, Nat2Z.inj_succ. unfold Z.succ. rewrite inject_Z_plus.
  change (inject_Z 1) with 1. ring.
Qed.

(** The sum and the number of the prices of the joined rows: those of the
    transactions, [n] times each, [n] the number of rows of the second
    join. *)
Lemma repeated_prices (hj : list (option History.row)) (l : list Transactions.row) :
  let rep := flat_map (fun t : option Transactions.row =>
                         match t with
                         | Some r => map (fun _ => Transactions.price r) hj
                         | None => []
                         end) (map Some l) in
  Qsum rep
  == inject_Z (Z.of_nat (List.length hj)) * Qsum (map Transactions.price l)
  /\ List.length rep = (List.length hj * List.length l)%nat.
Proof.
  induction l as [|r l IH]; cbn zeta in *.
  - simpl. split; [lra|lia].
  - destruct IH as [IH1 IH2]. cbn [map flat_map]. split.
    + rewrite Qsum_app, IH1, Qsum_constant.
      cbn [Qsum fold_right]. fold (Qsum (map Transactions.price l)). ring.
    + rewrite length_app, IH2, length_map. cbn [List.length]. lia.
Qed.

Lemma sql_avg_nonempty l :
  (0 < List.length l)%nat ->
  sql_avg l = Some (Qsum l / inject_Z (Z.of_nat (List.length l))).
Proof.
  destruct l; simpl; [lia|reflexivity].
Qed.

(** [avg_transaction_price] is NULL for a stock without transactions;
    with transactions it is the mean of their prices in exact arithmetic,
    each price being counted once per price record (SQLite adds the
    repeated prices as doubles, and the last digits of its mean may
    differ). *)
Lemma report_avg_price s st :
  (transactions_of (Stocks.id st) s = [] ->
   avg_transaction_price (stock_report_of s st) = None)
  /\ (forall a,
        sql_avg (map Transactions.price (transactions_of (Stocks.id st) s)) = Some a ->
        exists a',
          avg_transaction_price (stock_report_of s st) = Some a' /\ a' == a).
Proof.
  unfold stock_report_of, joined_rows, transactions_of, select_all.
  cbn [avg_transaction_price]. rewrite not_null_fst_pairs.
  destruct (left_join_cons (History.of_stock (Stocks.id st)) (stock_price_history s))
    as [h [hj ->]].
  unfold left_join.
  destruct (filter (Transactions.of_stock (Stocks.id st)) (transactions s))
    as [|r l] eqn:E.
  - split; [reflexivity|]. intros a H. discriminate.
  - split; [discriminate|].
    destruct (repeated_prices (h :: hj) (r :: l)) as [Hsum Hlen].
    cbn zeta in Hsum, Hlen.
    set (rep := flat_map _ (map Some (r :: l))) in *.
    set (prices := map Transactions.price (r :: l)) in *.
    assert (Hp : List.length prices = List.length (r :: l))
      by (unfold prices; apply length_map).
    intros a Ha.
    rewrite sql_avg_nonempty in Ha by (rewrite Hp; cbn [List.length]; lia).
    assert (Ea : a = Qsum prices / inject_Z (Z.of_nat (List.length prices)))
      by congruence.
    clear Ha. subst a.
    rewrite sql_avg_nonempty by (rewrite Hlen; cbn [List.length]; lia).
    eexists. split; [reflexivity|].
    rewrite Hsum, Hlen, Hp, Nat2Z.inj_mul, inject_Z_mult.
    assert (H1 : 0 < inject_Z (Z.of_nat (List.length (h :: hj))))
      by (cbn [List.length]; unfold Qlt; simpl; lia).
    assert (H2 : 0 < inject_Z (Z.of_nat (List.length (r :: l))))
      by (cbn [List.length]; unfold Qlt; simpl; lia).
    field. split; lra.
Qed.

(** ** The invariant [ledger], statement by statement *)

Lemma existsb_append {A : Type} (p : A -> bool) t x :
  existsb p t = true -> existsb p (t ++ [x]) = true.
Proof. intro H. rewrite existsb_app, H. reflexivity. Qed.

(** The row a predicate selects, when it selects one row at most. *)
Lemma the_row_is_found {A : Type} (m : A -> bool) t r r0 :
  (List.length (filter m t) <= 1)%nat -> find m t = Some r ->
  In r0 t -> m r0 = true -> r0 = r.
Proof.
  intros Hu Hf Hin Hm. pose proof (find_the_row m t r0 Hu Hin Hm) as H.
  congruence.
Qed.

Lemma Qsum_append l x : Qsum (l ++ [x]) == Qsum l + x.
Proof. rewrite Qsum_app. simpl. lra. Qed.

(** The sums of a user after one more transaction. *)
Lemma sums_after_transaction k u txs t :
  Qsum (map (amount_if k) (select_all (by_user u) (txs ++ [t])))
  == Qsum (map (amount_if k) (select_all (by_user u) txs))
     + (if by_user u t then amount_if k t else 0).
Proof.
  unfold select_all. rewrite filter_app. simpl.
  destruct (by_user u t); simpl.
  - rewrite map_app. simpl. apply Qsum_append.
  - rewrite app_nil_r. lra.
Qed.

Lemma ledger_empty : ledger empty_db.
Proof.
  constructor; simpl; intros; try lia; contradiction.
Qed.

(** Nothing of [ledger] looks at the price history. *)
Lemma ledger_with_history s t : ledger s -> ledger (with_history s t).
Proof. intros [H1 H2 H3 H4 H5 H6 H7 H8]. constructor; assumption. Qed.

(** [stocks] may change as long as no identifier leaves it. *)
Lemma ledger_with_stocks s t :
  (forall i, existsb (Stocks.has_id i) (stocks s) = true ->
             existsb (Stocks.has_id i) t = true) ->
  ledger s -> ledger (with_stocks s t).
Proof.
  intros Hk [H1 H2 H3 H4 H5 H6 H7 H8]. constructor; try assumption.
  intros x Hx. apply Hk. now apply H5.
Qed.

(** [user_portfolios] may change as long as its rows belong to users. *)
Lemma ledger_with_portfolios s t :
  (forall r, In r t -> existsb (Users.has_id (Portfolios.user_id r)) (users s) = true) ->
  ledger s -> ledger (with_portfolios s t).
Proof.
  intros Hk [H1 H2 H3 H4 H5 H6 H7 H8]. constructor; assumption.
Qed.

(** A user enters a table that has seen no transaction. *)
Lemma ledger_insert_user s i n t :
  transactions s = [] ->
  Users.insert (Users.mk i n 10000 0 100000) (users s) = Some t ->
  ledger s -> ledger (with_users s t).
Proof.
  intros Htx Hi [H1 H2 H3 H4 H5 H6 H7 H8]. unfold Users.insert in Hi.
  apply insert_unless_some in Hi. destruct Hi as [Hnil ->].
  assert (Hfresh : filter (Users.has_id i) (users s) = []).
  { destruct (filter (Users.has_id i) (users s)) as [|r l] eqn:E; [reflexivity|].
    assert (Hin : In r (filter (Users.has_id i) (users s))) by (rewrite E; now left).
    apply filter_In in Hin. destruct Hin as [Hin Hr].
    pose proof (filter_nil_forall _ _ Hnil r Hin) as Hc. simpl in Hc.
    unfold Users.has_id in Hr. rewrite Hr in Hc. discriminate. }
  constructor; simpl.
  - intro j. unfold select_all. rewrite filter_app, length_app. simpl.
    destruct (Users.has_id j (Users.mk i n 10000 0 100000)) eqn:E; simpl;
      [|specialize (H1 j); unfold select_all in H1; lia].
    unfold Users.has_id in E. simpl in E. apply String.eqb_eq in E. subst j.
    rewrite Hfresh. simpl. lia.
  - intros u Hu. apply in_app_or in Hu. destruct Hu as [Hu|[<-|[]]]; [auto|].
    simpl. unfold Qle. simpl. lia.
  - intros r Hr. apply existsb_append. auto.
  - intros x Hx. apply existsb_append. auto.
  - exact H5.
  - intros l Hl. apply existsb_append. auto.
  - exact H7.
  - intros u Hu. unfold total_sales_of, total_purchases_of. simpl.
    apply in_app_or in Hu. destruct Hu as [Hu|[<-|[]]].
    + specialize (H8 u Hu). unfold total_sales_of, total_purchases_of in H8.
      exact H8.
    + rewrite Htx. simpl. unfold initial_balance. lra.
Qed.

(** A loan: one row of [loans], and [amount] more on both sides of the
    account of the user. *)
Lemma ledger_loan s uid user amount l :
  select_one (Users.has_id uid) (users s) = Some user ->
  Users.loan_amount user + amount <= Users.max_loan user ->
  Loans.user_id l = uid ->
  ledger s ->
  ledger (with_users (with_loans s (loans s ++ [l]))
            (update_where (Users.has_id uid)
               (Users.set_balance_loan (Users.balance user + amount)
                                       (Users.loan_amount user + amount))
               (users s))).
Proof.
  intros Hf Hle Hl [H1 H2 H3 H4 H5 H6 H7 H8].
  assert (Hk : forall i, existsb (Users.has_id i)
                           (update_where (Users.has_id uid)
                              (Users.set_balance_loan (Users.balance user + amount)
                                 (Users.loan_amount user + amount)) (users s))
                         = existsb (Users.has_id i) (users s))
    by (intro i; apply existsb_update_where; reflexivity).
  constructor; simpl.
  - intro j. unfold select_all. rewrite filter_update_where_length by reflexivity.
    apply H1.
  - intros u Hu. apply in_update_where in Hu.
    destruct Hu as [r0 [Hr0 [[_ ->]|[Hm ->]]]]; [auto|].
    rewrite (the_row_is_found _ _ _ _ (H1 uid) Hf Hr0 Hm). simpl. exact Hle.
  - intros r Hr. rewrite Hk. auto.
  - intros x Hx. rewrite Hk. auto.
  - exact H5.
  - intros x Hx. rewrite Hk. apply in_app_or in Hx.
    destruct Hx as [Hx|[<-|[]]]; [auto|]. rewrite Hl. eapply find_existsb; eauto.
  - exact H7.
  - intros u Hu. unfold total_sales_of, total_purchases_of. simpl.
    apply in_update_where in Hu.
    destruct Hu as [r0 [Hr0 [[_ ->]|[Hm ->]]]].
    + specialize (H8 r0 Hr0). exact H8.
    + rewrite (the_row_is_found _ _ _ _ (H1 uid) Hf Hr0 Hm). simpl.
      pose proof (find_some _ _ Hf) as [Hin _]. specialize (H8 user Hin).
      unfold total_sales_of, total_purchases_of in H8. lra.
Qed.

(** A trade: one row of [transactions], and its amount on the balance of
    the user, added for a sale and taken off for a purchase. *)
Lemma ledger_trade s uid user nb t :
  select_one (Users.has_id uid) (users s) = Some user ->
  Transactions.user_id t = uid ->
  existsb (Stocks.has_id (Transactions.stock_id t)) (stocks s) = true ->
  Transactions.total_amount t
  == Transactions.price t * inject_Z (Transactions.quantity t) ->
  nb == Users.balance user + (amount_if SELL t - amount_if BUY t) ->
  ledger s ->
  ledger (with_transactions
            (with_users s
               (update_where (Users.has_id uid) (Users.set_balance nb) (users s)))
            (transactions s ++ [t])).
Proof.
  intros Hf Ht Hst Hamount Hnb [H1 H2 H3 H4 H5 H6 H7 H8].
  assert (Hk : forall i, existsb (Users.has_id i)
                           (update_where (Users.has_id uid) (Users.set_balance nb)
                                         (users s))
                         = existsb (Users.has_id i) (users s))
    by (intro i; apply existsb_update_where; reflexivity).
  pose proof (find_some _ _ Hf) as [Hin Hid].
  unfold Users.has_id in Hid. apply String.eqb_eq in Hid.
  constructor; simpl.
  - intro j. unfold select_all. rewrite filter_update_where_length by reflexivity.
    apply H1.
  - intros u Hu. apply in_update_where in Hu.
    destruct Hu as [r0 [Hr0 [[_ ->]|[Hm ->]]]]; simpl; auto.
  - intros r Hr. rewrite Hk. auto.
  - intros x Hx. rewrite Hk. apply in_app_or in Hx.
    destruct Hx as [Hx|[<-|[]]]; [auto|]. rewrite Ht. eapply find_existsb; eauto.
  - intros x Hx. apply in_app_or in Hx. destruct Hx as [Hx|[<-|[]]]; auto.
  - intros x Hx. rewrite Hk. auto.
  - intros x Hx. apply in_app_or in Hx. destruct Hx as [Hx|[<-|[]]]; auto.
  - intros u Hu. unfold total_sales_of, total_purchases_of. simpl.
    rewrite !sums_after_transaction.
    apply in_update_where in Hu.
    destruct Hu as [r0 [Hr0 [[Hm ->]|[Hm ->]]]].
    + specialize (H8 r0 Hr0). unfold total_sales_of, total_purchases_of in H8.
      assert (Hother : by_user (Users.id r0) t = false).
      { unfold by_user. rewrite Ht. rewrite String.eqb_sym. exact Hm. }
      rewrite Hother. lra.
    + rewrite (the_row_is_found _ _ _ _ (H1 uid) Hf Hr0 Hm). simpl.
      specialize (H8 user Hin). unfold total_sales_of, total_purchases_of in H8.
      assert (Hself : by_user (Users.id user) t = true).
      { unfold by_user. rewrite Ht, Hid. apply String.eqb_refl. }
      rewrite Hself. lra.
Qed.

(** The rows of the upsert belong to the users the rows before belonged
    to, and to the buyer. *)
Lemma upsert_position_users (P : string -> Prop) u i q p t t' :
  (forall r, In r t -> P (Portfolios.user_id r)) -> P u ->
  upsert_position u i q p t = inr t' ->
  forall r, In r t' -> P (Portfolios.user_id r).
Proof.
  intros Hall Hu. unfold upsert_position.
  destruct (select_one _ t) as [pos|].
  - destruct (_ =? 0)%Z; [discriminate|]. intro H. injection H as <-.
    intros r Hr. apply in_update_where in Hr.
    destruct Hr as [r0 [Hr0 [[_ ->]|[_ ->]]]]; simpl; auto.
  - destruct (Portfolios.insert _ t) as [t''|] eqn:Ei; [|discriminate].
    intro H. injection H as <-. unfold Portfolios.insert in Ei.
    apply insert_unless_some in Ei. destruct Ei as [_ ->].
    intros r Hr. apply in_app_or in Hr. destruct Hr as [Hr|[<-|[]]]; auto.
Qed.

(** ** The methods keep [ledger] *)

Lemma ledger_register_stock i sym n p q s :
  ledger s -> ledger (snd (register_stock i sym n p q s)).
Proof.
  intro Hl. unfold register_stock.
  destruct (fits_int64 q); [|exact Hl].
  destruct (Stocks.insert _ (stocks s)) as [t|] eqn:Ei; simpl; [|exact Hl].
  apply (ledger_with_history (with_stocks s t)).
  apply ledger_with_stocks; [|exact Hl].
  apply stocks_insert_fresh in Ei. destruct Ei as [_ ->].
  intros j Hj. now apply existsb_append.
Qed.

Lemma ledger_update_each cp fetched i s :
  ledger s -> ledger (update_each fetched i cp s).
Proof.
  revert i s. induction fetched as [|st rest IH]; intros i s Hl; simpl; [exact Hl|].
  apply IH. apply (ledger_with_history (with_stocks s _)).
  apply ledger_with_stocks; [|exact Hl].
  intros j Hj. rewrite existsb_update_where by reflexivity. exact Hj.
Qed.

Lemma ledger_take_loan l u a s : ledger s -> ledger (snd (take_loan l u a s)).
Proof.
  intro Hl. unfold take_loan.
  destruct (select_one _ (users s)) as [user|] eqn:Hu; simpl; [|exact Hl].
  destruct (Qlt_bool _ _) eqn:Eb; simpl; [exact Hl|].
  destruct (Loans.insert _ _) as [t|] eqn:Ei; simpl; [|exact Hl].
  unfold Loans.insert in Ei. apply insert_unless_some in Ei. destruct Ei as [_ ->].
  apply Qlt_bool_false in Eb.
  exact (ledger_loan s u user a (Loans.mk l u a Loans.default_interest_rate)
           Hu Eb eq_refl Hl).
Qed.

Lemma ledger_buy_stock t u sym q s : ledger s -> ledger (snd (buy_stock t u sym q s)).
Proof.
  intro Hl. unfold buy_stock, buy_stock_reads.
  destruct (select_one _ (stocks s)) as [st|] eqn:Hst; simpl; [|exact Hl].
  destruct (_ <? _)%Z; simpl; [exact Hl|].
  destruct (select_one _ (users s)) as [user|] eqn:Hu; simpl; [|exact Hl].
  destruct (Qlt_bool _ _); simpl; [exact Hl|].
  unfold buy_stock_writes. simpl.
  destruct (upsert_position _ _ _ _ _) as [e|t1] eqn:Eu; simpl; [exact Hl|].
  destruct (Transactions.insert _ _) as [t2|] eqn:Ei; simpl; [|exact Hl].
  unfold Transactions.insert in Ei. apply insert_unless_some in Ei.
  destruct Ei as [_ ->]. simpl.
  set (row := Transactions.mk t u (Stocks.id st) BUY q (Stocks.current_price st)
                (Stocks.current_price st * inject_Z q)).
  set (nb := Users.balance user - Stocks.current_price st * inject_Z q).
  assert (Hst' : existsb (Stocks.has_id (Stocks.id st)) (stocks s) = true).
  { apply find_some in Hst. destruct Hst as [Hin _].
    apply existsb_exists. exists st. split; [exact Hin|].
    unfold Stocks.has_id. apply String.eqb_refl. }
  assert (Hnb : nb == Users.balance user + (amount_if SELL row - amount_if BUY row))
    by (unfold nb, amount_if; simpl; lra).
  pose proof (ledger_trade s u user nb row Hu eq_refl Hst' (Qeq_refl _) Hnb Hl) as H1.
  apply (ledger_with_stocks _
           (update_where (Stocks.has_id (Stocks.id st))
              (Stocks.set_available_quantity (Stocks.available_quantity st - q))
              (stocks s))) in H1.
  - apply (ledger_with_portfolios _ t1) in H1; [exact H1|].
    simpl. simpl in Eu.
    apply (upsert_position_users
             (fun x => existsb (Users.has_id x)
                         (update_where (Users.has_id u) (Users.set_balance nb)
                                       (users s)) = true)
             _ _ _ _ _ _ ) with (3 := Eu).
    + intros r Hr. rewrite existsb_update_where by reflexivity.
      apply (lg_position_user s Hl r Hr).
    + rewrite existsb_update_where by reflexivity. eapply find_existsb; eauto.
  - intros j Hj. simpl in Hj. rewrite existsb_update_where by reflexivity. exact Hj.
Qed.

Lemma ledger_sell_stock t u sym q s : ledger s -> ledger (snd (sell_stock t u sym q s)).
Proof.
  intro Hl. unfold sell_stock.
  destruct (select_one _ (stocks s)) as [st|] eqn:Hst; simpl; [|exact Hl].
  destruct (select_one _ (user_portfolios s)) as [pos|]; simpl; [|exact Hl].
  destruct (_ <? _)%Z; simpl; [exact Hl|].
  destruct (select_one _ (users s)) as [user|] eqn:Hu; simpl; [|exact Hl].
  destruct (Transactions.insert _ _) as [t2|] eqn:Ei; simpl; [|exact Hl].
  unfold Transactions.insert in Ei. apply insert_unless_some in Ei.
  destruct Ei as [_ ->]. simpl.
  set (row := Transactions.mk t u (Stocks.id st) SELL q (Stocks.current_price st)
                (Stocks.current_price st * inject_Z q)).
  set (nb := Users.balance user + Stocks.current_price st * inject_Z q).
  assert (Hst' : existsb (Stocks.has_id (Stocks.id st)) (stocks s) = true).
  { apply find_some in Hst. destruct Hst as [Hin _].
    apply existsb_exists. exists st. split; [exact Hin|].
    unfold Stocks.has_id. apply String.eqb_refl. }
  assert (Hnb : nb == Users.balance user + (amount_if SELL row - amount_if BUY row))
    by (unfold nb, amount_if; simpl; lra).
  pose proof (ledger_trade s u user nb row Hu eq_refl Hst' (Qeq_refl _) Hnb Hl) as H1.
  apply (ledger_with_stocks _
           (update_where (Stocks.has_id (Stocks.id st))
              (Stocks.set_available_quantity (Stocks.available_quantity st + q))
              (stocks s))) in H1.
  - apply (ledger_with_portfolios _
             (if (Portfolios.quantity pos - q =? 0)%Z
              then delete_where (Portfolios.has_key u (Stocks.id st))
                                (user_portfolios s)
              else update_where (Portfolios.has_key u (Stocks.id st))
                     (Portfolios.set_quantity (Portfolios.quantity pos - q))
                     (user_portfolios s))) in H1; [exact H1|].
    simpl. intros r Hr. rewrite existsb_update_where by reflexivity.
    destruct (_ =? 0)%Z.
    + apply in_delete_where in Hr. apply (lg_position_user s Hl r Hr).
    + apply in_update_where in Hr.
      destruct Hr as [r0 [Hr0 [[_ ->]|[_ ->]]]]; simpl;
        apply (lg_position_user s Hl r0 Hr0).
  - intros j Hj. simpl in Hj. rewrite existsb_update_where by reflexivity. exact Hj.
Qed.

Lemma ledger_insert_sample_stocks l i uuid4 s s' :
  insert_sample_stocks l i uuid4 s = Some s' -> ledger s -> ledger s'.
Proof.
  revert i s. induction l as [|[[[sym n] p] q] rest IH]; simpl; intros i s H Hl.
  - injection H as <-. exact Hl.
  - destruct (Stocks.insert _ (stocks s)) as [t|] eqn:Ei; [|discriminate].
    apply IH in H; [exact H|].
    apply (ledger_with_history (with_stocks s t)).
    apply ledger_with_stocks; [|exact Hl].
    apply stocks_insert_fresh in Ei. destruct Ei as [_ ->].
    intros j Hj. now apply existsb_append.
Qed.

Lemma ledger_insert_test_users todo i uuid4 s s' :
  transactions s = [] ->
  insert_test_users todo i uuid4 s = Some s' -> ledger s -> ledger s'.
Proof.
  revert i s. induction todo as [|todo IH]; simpl; intros i s Htx H Hl.
  - injection H as <-. exact Hl.
  - destruct (Users.insert _ (users s)) as [t|] eqn:Ei; [|discriminate].
    apply IH in H; [exact H|exact Htx|].
    eapply ledger_insert_user; eauto.
Qed.

(** Without users there is no transaction. *)
Lemma no_users_no_transactions s :
  ledger s -> users s = [] -> transactions s = [].
Proof.
  intros Hl Hu. destruct (transactions s) as [|t l] eqn:E; [reflexivity|].
  pose proof (lg_transaction_user s Hl t) as H. rewrite E, Hu in H.
  specialize (H (or_introl eq_refl)). discriminate.
Qed.

Lemma insert_sample_stocks_users l i uuid4 s s' :
  insert_sample_stocks l i uuid4 s = Some s' ->
  users s' = users s /\ transactions s' = transactions s.
Proof.
  revert i s. induction l as [|[[[sym n] p] q] rest IH]; simpl; intros i s H.
  - injection H as <-. auto.
  - destruct (Stocks.insert _ (stocks s)) as [t|]; [|discriminate].
    apply IH in H. exact H.
Qed.

Lemma ledger_setup_initial_data su uu s :
  ledger s -> ledger (snd (setup_initial_data su uu s)).
Proof.
  intro Hl. unfold setup_initial_data.
  destruct (if (List.length (stocks s) =? 0)%nat then _ else _) as [s1|] eqn:E1;
    [|exact Hl].
  assert (Hl1 : ledger s1).
  { destruct (List.length (stocks s) =? 0)%nat.
    - exact (ledger_insert_sample_stocks _ _ _ _ _ E1 Hl).
    - injection E1 as <-. exact Hl. }
  destruct (if (List.length (users s1) =? 0)%nat then _ else _) as [s2|] eqn:E2;
    [|exact Hl].
  cbn [snd]. destruct (List.length (users s1) =? 0)%nat eqn:En.
  - apply Nat.eqb_eq in En. apply length_zero_iff_nil in En.
    exact (ledger_insert_test_users _ _ _ _ _
             (no_users_no_transactions s1 Hl1 En) E2 Hl1).
  - injection E2 as <-. exact Hl1.
Qed.

Lemma ledger_apply o s : ledger s -> ledger (apply o s).
Proof.
  destruct o; simpl.
  - apply ledger_setup_initial_data.
  - apply ledger_update_each.
  - apply ledger_register_stock.
  - apply ledger_take_loan.
  - apply ledger_buy_stock.
  - apply ledger_sell_stock.
Qed.

Lemma ledger_run ops s : ledger s -> ledger (run ops s).
Proof.
  revert s. induction ops as [|o ops IH]; intros s Hl; simpl; [exact Hl|].
  apply IH, ledger_apply, Hl.
Qed.

(** ** What holds of every database the methods build *)

(** X1.  Loan bound: whatever calls were made since the empty database,
    no user owes more than [max_loan]. *)
Theorem loan_never_exceeds_limit (ops : list op) (u : Users.row) :
  In u (users (run ops empty_db)) ->
  Users.loan_amount u <= Users.max_loan u.
Proof.
  apply (lg_loan_bound _ (ledger_run ops empty_db ledger_empty)).
Qed.

Lemma loan_never_exceeds_limit_witness :
  In (Users.mk "user-0" "user_1" 101000 91000 100000)
     (users (run [boot; Take_loan "l1" "user-0" 91000;
                  Take_loan "l2" "user-0" 9500] empty_db))
  /\ 91000 <= 100000.
Proof.
  assert (Hin : In (Users.mk "user-0" "user_1" 101000 91000 100000)
                   (users (run [boot; Take_loan "l1" "user-0" 91000;
                                Take_loan "l2" "user-0" 9500] empty_db)))
    by (vm_compute; left; reflexivity).
  split; [exact Hin|].
  exact (loan_never_exceeds_limit _ _ Hin).
Defined.

(** X3.  Referential integrity, which SQLite is not asked to enforce: in
    every database the methods build, a position belongs to a user and
    to a stock of the tables, a transaction too, a loan belongs to a
    user and a price record to a stock. *)
Theorem rows_belong_to_users_and_stocks (ops : list op) :
  (forall r, In r (user_portfolios (run ops empty_db)) ->
     user_by_id (Portfolios.user_id r) (run ops empty_db) <> None
     /\ stock_by_id (Portfolios.stock_id r) (run ops empty_db) <> None)
  /\ (forall t, In t (transactions (run ops empty_db)) ->
        user_by_id (Transactions.user_id t) (run ops empty_db) <> None
        /\ stock_by_id (Transactions.stock_id t) (run ops empty_db) <> None)
  /\ (forall l, In l (loans (run ops empty_db)) ->
        user_by_id (Loans.user_id l) (run ops empty_db) <> None)
  /\ (forall h, In h (stock_price_history (run ops empty_db)) ->
        stock_by_id (History.stock_id h) (run ops empty_db) <> None).
Proof.
  pose proof (ledger_run ops empty_db ledger_empty) as Hl.
  pose proof (wf_run ops empty_db wf_empty) as Hw.
  assert (Hne : forall (A : Type) (p : A -> bool) t,
            existsb p t = true -> find p t <> None).
  { intros A p t He Hn. apply find_none_existsb in Hn. congruence. }
  unfold user_by_id, stock_by_id, select_one.
  split; [|split; [|split]].
  - intros x Hx. split; apply Hne.
    + apply (lg_position_user _ Hl x Hx).
    + apply (wf_position_stock _ Hw x Hx).
  - intros x Hx. split; apply Hne.
    + apply (lg_transaction_user _ Hl x Hx).
    + apply (lg_transaction_stock _ Hl x Hx).
  - intros x Hx. apply Hne, (lg_loan_user _ Hl x Hx).
  - intros x Hx. apply Hne, (wf_history_stock _ Hw x Hx).
Qed.

Lemma rows_belong_to_users_and_stocks_witness :
  In (Loans.mk "l1" "user-2" 500 Loans.default_interest_rate)
     (loans (run ([boot; Register_stock "stock-xyz" "xyz" "Xyz Corp." 50 100]
                    ++ trades) empty_db))
  /\ user_by_id "user-2"
       (run ([boot; Register_stock "stock-xyz" "xyz" "Xyz Corp." 50 100]
               ++ trades) empty_db) <> None.
Proof.
  assert (Hin : In (Loans.mk "l1" "user-2" 500 Loans.default_interest_rate)
                   (loans (run ([boot; Register_stock "stock-xyz" "xyz" "Xyz Corp." 50 100]
                                  ++ trades) empty_db)))
    by (vm_compute; left; reflexivity).
  split; [exact Hin|].
  exact (proj1 (proj2 (proj2 (rows_belong_to_users_and_stocks
                                ([boot; Register_stock "stock-xyz" "xyz"
                                          "Xyz Corp." 50 100] ++ trades))))
           _ Hin).
Defined.

(** X4.  The audit trail: in every database the methods build, the
    [total_amount] of a transaction is its price times its quantity. *)
Theorem transaction_amount_is_price_times_quantity (ops : list op)
    (t : Transactions.row) :
  In t (transactions (run ops empty_db)) ->
  Transactions.total_amount t
  == Transactions.price t * inject_Z (Transactions.quantity t).
Proof.
  apply (lg_amount _ (ledger_run ops empty_db ledger_empty)).
Qed.

Lemma transaction_amount_is_price_times_quantity_witness :
  In (Transactions.mk "t1" "user-0" "stock-2" BUY 100 90 9000)
     (transactions after_purchase)
  /\ 9000 == 90 * inject_Z 100.
Proof.
  assert (Hin : In (Transactions.mk "t1" "user-0" "stock-2" BUY 100 90 9000)
                   (transactions
                      (run [boot; Buy_stock "t1" "user-0" "MSFT" 100] empty_db)))
    by (vm_compute; left; reflexivity).
  split; [exact Hin|].
  exact (transaction_amount_is_price_times_quantity _ _ Hin).
Defined.

(** X5.  Keys: in every database the methods build, an identifier names
    at most one stock and at most one user, and a user has at most one
    position in a stock. *)
Theorem keys_are_unique (ops : list op) :
  (forall i,
     (List.length (select_all (Stocks.has_id i) (stocks (run ops empty_db))) <= 1)%nat)
  /\ (forall i,
        (List.length (select_all (Users.has_id i) (users (run ops empty_db))) <= 1)%nat)
  /\ (forall u i,
        (List.length (select_all (Portfolios.has_key u i)
                        (user_portfolios (run ops empty_db))) <= 1)%nat).
Proof.
  pose proof (ledger_run ops empty_db ledger_empty) as Hl.
  pose proof (wf_run ops empty_db wf_empty) as Hw.
  split; [exact (wf_stock_id _ Hw)|].
  split; [exact (lg_user_id _ Hl)|exact (wf_position_key _ Hw)].
Qed.

(** ** Calls that do not succeed *)

(** X6.  All or nothing: a call of [register_stock], [take_loan],
    [buy_stock] or [sell_stock] that does not answer success, whatever
    the reason (a refusal, an exception caught, an exception that
    leaves the method), leaves every table as it was. *)
Theorem failed_call_changes_nothing (o : op) (s : db) :
  match o with
  | Setup_initial_data _ _ | Update_stock_prices _ => True
  | Register_stock i sym n p q =>
      is_success (fst (register_stock i sym n p q s)) = false -> apply o s = s
  | Take_loan l u a =>
      is_success (fst (take_loan l u a s)) = false -> apply o s = s
  | Buy_stock t u sym q =>
      is_success (fst (buy_stock t u sym q s)) = false -> apply o s = s
  | Sell_stock t u sym q =>
      is_success (fst (sell_stock t u sym q s)) = false -> apply o s = s
  end.
Proof.
  destruct o; simpl; auto.
  - unfold register_stock.
    destruct (fits_int64 quantity); [|reflexivity].
    destruct (Stocks.insert _ (stocks s)); simpl; [discriminate|reflexivity].
  - unfold take_loan.
    destruct (select_one _ (users s)); simpl; [|reflexivity].
    destruct (Qlt_bool _ _); simpl; [reflexivity|].
    destruct (Loans.insert _ _); simpl; [discriminate|reflexivity].
  - apply buy_stock_failure_unchanged.
  - apply sell_stock_failure_unchanged.
Qed.

Lemma failed_call_changes_nothing_witness :
  apply (Buy_stock "t1" "user-0" "MSFT" 1000) seeded = seeded
  /\ apply (Sell_stock "t1" "user-0" "MSFT" 1) seeded = seeded
  /\ apply (Take_loan "l1" "nobody" 10) seeded = seeded
  /\ apply (Register_stock "stock-9" "aapl" "Apple" 10 10) seeded = seeded.
Proof.
  split; [|split; [|split]].
  - apply (failed_call_changes_nothing (Buy_stock "t1" "user-0" "MSFT" 1000) seeded).
    vm_compute; reflexivity.
  - apply (failed_call_changes_nothing (Sell_stock "t1" "user-0" "MSFT" 1) seeded).
    vm_compute; reflexivity.
  - apply (failed_call_changes_nothing (Take_loan "l1" "nobody" 10) seeded).
    vm_compute; reflexivity.
  - apply (failed_call_changes_nothing
             (Register_stock "stock-9" "aapl" "Apple" 10 10) seeded).
    vm_compute; reflexivity.
Defined.

(** ** One update of the prices *)

Lemma find_update_where_any {A : Type} (m p : A -> bool) f t :
  (forall r, p (f r) = p r) ->
  find p (update_where m f t)
  = option_map (fun r => if m r then f r else r) (find p t).
Proof.
  intro Hp. induction t as [|a t IH]; simpl; [reflexivity|].
  destruct (m a) eqn:Em.
  - rewrite Hp. destruct (p a); [simpl; now rewrite Em|exact IH].
  - destruct (p a); [simpl; now rewrite Em|exact IH].
Qed.

(** The rounds for other stocks leave the row of a stock alone. *)
Lemma update_each_other cp fetched i s sid :
  (forall f, In f fetched -> Stocks.has_id sid f = false) ->
  select_one (Stocks.has_id sid) (stocks (update_each fetched i cp s))
  = select_one (Stocks.has_id sid) (stocks s).
Proof.
  revert i s. induction fetched as [|f rest IH]; intros i s Hno; simpl; [reflexivity|].
  rewrite IH by (intros g Hg; apply Hno; now right). simpl.
  unfold select_one. rewrite find_update_where_any by reflexivity.
  destruct (find (Stocks.has_id sid) (stocks s)) as [r|] eqn:Hf; [|reflexivity].
  simpl. apply find_some in Hf. destruct Hf as [_ Hr].
  unfold Stocks.has_id in Hr. apply String.eqb_eq in Hr.
  pose proof (Hno f (or_introl eq_refl)) as Hff. unfold Stocks.has_id in Hff.
  unfold Stocks.has_id. rewrite Hr, String.eqb_sym, Hff. reflexivity.
Qed.

(** The last round for a stock decides its price. *)
Lemma update_each_row cp pre f post i s st0 :
  (forall g, In g post -> Stocks.has_id (Stocks.id f) g = false) ->
  select_one (Stocks.has_id (Stocks.id f)) (stocks s) = Some st0 ->
  select_one (Stocks.has_id (Stocks.id f))
    (stocks (update_each (pre ++ f :: post) i cp s))
  = Some (Stocks.set_current_price
            (clamp_price
               (Stocks.current_price f * (1 + cp (i + List.length pre)%nat)))
            st0).
Proof.
  revert i s st0. induction pre as [|g pre IH]; intros i s st0 Hpost Hf.
  - simpl. rewrite update_each_other by exact Hpost. simpl.
    unfold select_one in *. rewrite find_update_where_any by reflexivity.
    rewrite Hf. simpl. apply find_some in Hf. destruct Hf as [_ Hr].
    rewrite Hr. rewrite Nat.add_0_r. reflexivity.
  - simpl.
    replace (i + S (List.length pre))%nat with (S i + List.length pre)%nat by lia.
    set (np := clamp_price (Stocks.current_price g * (1 + cp i))).
    rewrite (IH (S i) _ (if Stocks.has_id (Stocks.id g) st0
                         then Stocks.set_current_price np st0 else st0) Hpost).
    + destruct (Stocks.has_id (Stocks.id g) st0); reflexivity.
    + simpl. unfold select_one in *. rewrite find_update_where_any by reflexivity.
      rewrite Hf. reflexivity.
Qed.

Lemma rest_does_not_match {A : Type} (m : A -> bool) pre x post :
  (List.length (filter m (pre ++ x :: post)) <= 1)%nat -> m x = true ->
  forall g, In g post -> m g = false.
Proof.
  intros Hu Hx. rewrite filter_app, length_app in Hu. simpl in Hu.
  rewrite Hx in Hu. simpl in Hu.
  apply filter_nil_forall.
  destruct (filter m post); [reflexivity|simpl in Hu; lia].
Qed.

(** X8.  What one update does to a stock: the row at place [k] of
    [stocks] (the round [k] of the loop, in a database that is [wf])
    keeps all its columns but [current_price], which becomes
    [max(1, min(100, price * (1 + change_percent)))], [change_percent]
    being the value drawn in round [k]. *)
Theorem price_update_of_a_stock (cp : nat -> Q) (s : db) (k : nat)
    (st : Stocks.row) :
  wf s ->
  nth_error (stocks s) k = Some st ->
  stock_by_id (Stocks.id st) (update_stock_prices cp s)
  = Some (Stocks.set_current_price
            (clamp_price (Stocks.current_price st * (1 + cp k))) st).
Proof.
  intros Hwf Hk.
  destruct (nth_error_split _ _ Hk) as [pre [post [Hs Hlen]]].
  assert (Hm : Stocks.has_id (Stocks.id st) st = true)
    by (unfold Stocks.has_id; apply String.eqb_refl).
  assert (Hin : In st (stocks s)) by (rewrite Hs; apply in_elt).
  pose proof (find_the_row _ _ _ (wf_stock_id s Hwf (Stocks.id st)) Hin Hm) as Hf.
  pose proof (wf_stock_id s Hwf (Stocks.id st)) as Hu.
  unfold select_all in Hu. rewrite Hs in Hu.
  pose proof (rest_does_not_match _ _ _ _ Hu Hm) as Hpost.
  unfold stock_by_id, update_stock_prices. rewrite Hs at 1.
  rewrite (update_each_row cp pre st post 0 s st Hpost Hf).
  rewrite Hlen. reflexivity.
Qed.

Lemma price_update_of_a_stock_witness :
  stock_by_id "stock-2" (update_stock_prices (fun _ => -1 # 10) seeded)
  = Some (Stocks.set_current_price (clamp_price (90 * (1 + (-1 # 10))))
            (Stocks.mk "stock-2" "MSFT" "Microsoft Corp." 90 900)).
Proof.
  assert (Hk : nth_error (stocks seeded) 2
               = Some (Stocks.mk "stock-2" "MSFT" "Microsoft Corp." 90 900))
    by by_evaluation.
  exact (price_update_of_a_stock (fun _ => -1 # 10) seeded 2 _ wf_seeded Hk).
Defined.

Lemma update_each_frame (cp : nat -> Q) fetched i s :
  users (update_each fetched i cp s) = users s
  /\ user_portfolios (update_each fetched i cp s) = user_portfolios s
  /\ transactions (update_each fetched i cp s) = transactions s
  /\ loans (update_each fetched i cp s) = loans s
  /\ map (fun r => (Stocks.id r, Stocks.symbol r, Stocks.name r,
                    Stocks.available_quantity r))
         (stocks (update_each fetched i cp s))
     = map (fun r => (Stocks.id r, Stocks.symbol r, Stocks.name r,
                      Stocks.available_quantity r))
           (stocks s)
  /\ stock_price_history (update_each fetched i cp s)
     = stock_price_history s
       ++ map (fun jf : nat * Stocks.row =>
                 History.mk (Stocks.id (snd jf))
                   (clamp_price (Stocks.current_price (snd jf) * (1 + cp (fst jf)))))
              (combine (seq i (List.length fetched)) fetched).
Proof.
  revert i s. induction fetched as [|f rest IH]; intros i s.
  - simpl. rewrite app_nil_r. repeat split; reflexivity.
  - simpl update_each.
    destruct (IH (S i)
                (with_history
                   (with_stocks s
                      (update_where (Stocks.has_id (Stocks.id f))
                         (Stocks.set_current_price
                            (clamp_price (Stocks.current_price f * (1 + cp i))))
                         (stocks s)))
                   (stock_price_history s
                    ++ [History.mk (Stocks.id f)
                          (clamp_price (Stocks.current_price f * (1 + cp i)))])))
      as [H1 [H2 [H3 [H4 [H5 H6]]]]].
    simpl in H1, H2, H3, H4, H5, H6.
    rewrite H1, H2, H3, H4, H5, H6.
    repeat split.
    + unfold update_where. rewrite map_map. apply map_ext.
      intro r. destruct (Stocks.has_id (Stocks.id f) r); reflexivity.
    + simpl. rewrite <- app_assoc. reflexivity.
Qed.

(** X9.  One update touches nothing but prices: users, positions,
    transactions and loans are as before; the stocks keep their place,
    identifier, symbol, name and units; and the price history grows by
    one record per stock, carrying the price computed in its round. *)
Theorem price_update_touches_prices_only (cp : nat -> Q) (s : db) :
  users (update_stock_prices cp s) = users s
  /\ user_portfolios (update_stock_prices cp s) = user_portfolios s
  /\ transactions (update_stock_prices cp s) = transactions s
  /\ loans (update_stock_prices cp s) = loans s
  /\ map (fun r => (Stocks.id r, Stocks.symbol r, Stocks.name r,
                    Stocks.available_quantity r))
         (stocks (update_stock_prices cp s))
     = map (fun r => (Stocks.id r, Stocks.symbol r, Stocks.name r,
                      Stocks.available_quantity r))
           (stocks s)
  /\ stock_price_history (update_stock_prices cp s)
     = stock_price_history s
       ++ map (fun jf : nat * Stocks.row =>
                 History.mk (Stocks.id (snd jf))
                   (clamp_price (Stocks.current_price (snd jf) * (1 + cp (fst jf)))))
              (combine (seq 0 (List.length (stocks s))) (stocks s)).
Proof.
  exact (update_each_frame cp (stocks s) 0 s).
Qed.

(** ** Sales *)

Lemma find_delete_where {A : Type} (m : A -> bool) t :
  find m (delete_where m t) = None.
Proof.
  unfold delete_where. induction t as [|a t IH]; simpl; [reflexivity|].
  destruct (m a) eqn:E; simpl; [exact IH|]. rewrite E. exact IH.
Qed.

(** X11.  A sale that succeeds takes its units off the position and
    leaves the average buying price alone; the position is deleted when
    no unit is left. *)
Theorem sale_and_the_position (t u sym : string) (q : Z) (s s' : db)
    (rcpt : sell_receipt) (st : Stocks.row) (pos : Portfolios.row) :
  sell_stock t u sym q s = (Success rcpt, s') ->
  stock_by_symbol (upper sym) s = Some st ->
  position u (Stocks.id st) s = Some pos ->
  (q <= Portfolios.quantity pos)%Z
  /\ sr_price rcpt = Stocks.current_price st
  /\ sr_total_earnings rcpt = Stocks.current_price st * inject_Z q
  /\ position u (Stocks.id st) s'
     = if (Portfolios.quantity pos - q =? 0)%Z then None
       else Some (Portfolios.mk (Portfolios.user_id pos) (Portfolios.stock_id pos)
                    (Portfolios.quantity pos - q) (Portfolios.avg_buy_price pos)).
Proof.
  unfold sell_stock, stock_by_symbol, position. intros H Hst Hpos.
  rewrite Hst, Hpos in H.
  destruct (_ <? _)%Z eqn:Eq; [discriminate|].
  destruct (select_one _ (users s)) as [user|]; [|discriminate].
  destruct (Transactions.insert _ _) as [t2|]; [|discriminate].
  injection H as <- <-. simpl. apply Z.ltb_ge in Eq.
  split; [exact Eq|]. split; [reflexivity|]. split; [reflexivity|].
  destruct (_ =? 0)%Z.
  - apply find_delete_where.
  - unfold select_one in *. rewrite find_update_where by reflexivity.
    rewrite Hpos. reflexivity.
Qed.

Lemma sale_and_the_position_witness :
  exists rcpt s',
    sell_stock "t2" "user-0" "msft" 40 after_purchase = (Success rcpt, s')
    /\ (40 <= 100)%Z
    /\ sr_price rcpt = 90
    /\ position "user-0" "stock-2" s'
       = Some (Portfolios.mk "user-0" "stock-2" (100 - 40) 90).
Proof.
  destruct (sell_stock "t2" "user-0" "msft" 40 after_purchase) as [r s'] eqn:E.
  destruct r as [rcpt|m|e];
    [|vm_compute in E; discriminate|vm_compute in E; discriminate].
  assert (Hst : stock_by_symbol (upper "msft") after_purchase
                = Some (Stocks.mk "stock-2" "MSFT" "Microsoft Corp." 90 800))
    by by_evaluation.
  assert (Hpos : position "user-0" "stock-2" after_purchase
                 = Some (Portfolios.mk "user-0" "stock-2" 100 90))
    by by_evaluation.
  destruct (sale_and_the_position _ _ _ _ _ _ _ _ _ E Hst Hpos) as [H1 [H2 [_ H4]]].
  exists rcpt, s'. split; [reflexivity|]. split; [exact H1|]. split; [exact H2|].
  exact H4.
Defined.

(** ** A purchase undone by a sale *)

Lemma find_none_filter_nil {A : Type} (p : A -> bool) t :
  find p t = None -> filter p t = [].
Proof.
  induction t as [|a t IH]; simpl; [reflexivity|].
  destruct (p a); [discriminate|]. exact IH.
Qed.

Lemma update_where_back {A : Type} (m : A -> bool) f1 f2 t :
  (forall r, m (f1 r) = m r) ->
  (forall r, In r t -> m r = true -> f2 (f1 r) = r) ->
  update_where m f2 (update_where m f1 t) = t.
Proof.
  intros Hm Hb. induction t as [|a t IH]; simpl; [reflexivity|].
  rewrite IH by (intros r Hr; apply Hb; now right).
  destruct (m a) eqn:E.
  - rewrite Hm, E. rewrite (Hb a (or_introl eq_refl) E). reflexivity.
  - rewrite E. reflexivity.
Qed.

(** The table after the INSERT of lines 389-392. *)
Lemma upsert_fresh_table u i q p t t' :
  select_one (Portfolios.has_key u i) t = None ->
  upsert_position u i q p t = inr t' ->
  t' = t ++ [Portfolios.mk u i q p].
Proof.
  intros Hf. unfold upsert_position. rewrite Hf.
  destruct (Portfolios.insert _ t) as [t''|] eqn:Ei; [|discriminate].
  intro H. injection H as <-. unfold Portfolios.insert in Ei.
  apply insert_unless_some in Ei. tauto.
Qed.

(** X10.  Round trip: a purchase into a position that did not exist,
    followed by the sale of the same quantity at the same price, succeeds
    and gives back the tables [stocks] and [user_portfolios] as they
    were; the sale earns what the purchase cost, the balance of the user
    is the old one minus the cost plus the earnings, computed in this
    order, the loan is untouched; what remains of the two calls is two
    rows of [transactions]. *)
Theorem purchase_undone_by_sale (t1 t2 u sym : string) (q : Z) (s s1 : db)
    (r1 : buy_receipt) (st : Stocks.row) (user : Users.row) :
  wf s ->
  stock_by_symbol (upper sym) s = Some st ->
  user_by_id u s = Some user ->
  position u (Stocks.id st) s = None ->
  buy_stock t1 u sym q s = (Success r1, s1) ->
  existsb (fun r => String.eqb (Transactions.id r) t2) (transactions s1) = false ->
  exists r2 s2 user2,
    sell_stock t2 u sym q s1 = (Success r2, s2)
    /\ sr_total_earnings r2 = br_total_cost r1
    /\ stocks s2 = stocks s
    /\ user_portfolios s2 = user_portfolios s
    /\ user_by_id u s2 = Some user2
    /\ Users.balance user2
       = Users.balance user - br_total_cost r1 + sr_total_earnings r2
    /\ Users.loan_amount user2 = Users.loan_amount user
    /\ List.length (transactions s2) = S (S (List.length (transactions s))).
Proof.
  intros Hwf Hst Hu Hnone Hb Hfresh.
  pose proof (buy_stock_takes_units _ _ _ _ _ _ _ _ Hb Hst) as [_ Hst1].
  pose proof (buy_fresh_position _ _ _ _ _ _ _ _ Hb Hst Hnone) as Hpos1.
  pose proof Hb as Hb'. apply buy_stock_success in Hb'.
  destruct Hb' as [st0 [user0 [Hst0 [Hu0 [_ [_ [Hup [Hus [Hss [Hp [Hc _]]]]]]]]]]].
  rewrite Hst in Hst0. injection Hst0 as <-.
  rewrite Hu in Hu0. injection Hu0 as <-.
  pose proof (upsert_fresh_table _ _ _ _ _ _ Hnone Hup) as Hpf.
  assert (Htx : List.length (transactions s1) = S (List.length (transactions s))).
  { unfold buy_stock in Hb.
    destruct (buy_stock_reads u sym q s) as [m|r]; [discriminate|].
    unfold buy_stock_writes in Hb.
    destruct (upsert_position _ _ _ _ _); [discriminate|].
    destruct (Transactions.insert _ _) as [t'|] eqn:Ei; [|discriminate].
    injection Hb as _ <-. simpl.
    unfold Transactions.insert in Ei. apply insert_unless_some in Ei.
    destruct Ei as [_ ->]. rewrite length_app. simpl. lia. }
  unfold sell_stock. unfold stock_by_symbol in Hst1. rewrite Hst1.
  unfold position in Hpos1. simpl Stocks.id. rewrite Hpos1. simpl Portfolios.quantity.
  rewrite Z.ltb_irrefl.
  assert (Hu1 : select_one (Users.has_id u) (users s1)
                = Some (Users.set_balance
                          (Users.balance user - Stocks.current_price st * inject_Z q)
                          user)).
  { rewrite Hus. unfold user_by_id, select_one in *.
    rewrite find_update_where by reflexivity. rewrite Hu. reflexivity. }
  rewrite Hu1. unfold Transactions.insert, insert_unless. simpl.
  rewrite Hfresh. rewrite Z.sub_diag. simpl.
  eexists _, _, _. split; [reflexivity|]. simpl.
  split; [rewrite Hc; reflexivity|].
  split.
  { rewrite Hss. apply update_where_back; [reflexivity|].
    intros r Hr Hm.
    pose proof (find_by_symbol_by_id s _ _ Hwf Hst) as Hf.
    rewrite (the_row_is_found _ _ _ _ (wf_stock_id s Hwf (Stocks.id st)) Hf Hr Hm).
    destruct st as [i sy n p a]. unfold Stocks.set_available_quantity. simpl.
    f_equal. lia. }
  split.
  { rewrite Hpf. unfold delete_where. rewrite filter_app. simpl.
    unfold Portfolios.has_key at 2. simpl. rewrite !String.eqb_refl. simpl.
    rewrite app_nil_r. apply (delete_where_untouched (Portfolios.has_key u (Stocks.id st))).
    apply find_none_filter_nil. exact Hnone. }
  split.
  { unfold user_by_id, select_one in *. simpl.
    rewrite find_update_where by reflexivity.
    rewrite Hu1. reflexivity. }
  split; [rewrite Hc; reflexivity|].
  split; [reflexivity|].
  rewrite length_app. simpl. rewrite Htx. lia.
Qed.

Lemma purchase_undone_by_sale_witness :
  exists r2 s2 user2,
    sell_stock "t2" "user-0" "XYZ" 10 (snd first_buy) = (Success r2, s2)
    /\ sr_total_earnings r2 = 500
    /\ stocks s2 = stocks hundred_units
    /\ user_portfolios s2 = user_portfolios hundred_units
    /\ user_by_id "user-0" s2 = Some user2
    /\ Users.balance user2 = 10000 - 500 + sr_total_earnings r2
    /\ Users.loan_amount user2 = 0
    /\ List.length (transactions s2)
       = S (S (List.length (transactions hundred_units))).
Proof.
  assert (Hwf : wf hundred_units) by apply wf_run, wf_empty.
  assert (Hst : stock_by_symbol (upper "XYZ") hundred_units
                = Some (Stocks.mk "stock-xyz" "XYZ" "Xyz Corp." 50 100))
    by by_evaluation.
  assert (Hu : user_by_id "user-0" hundred_units
               = Some (Users.mk "user-0" "user_1" 10000 0 100000))
    by by_evaluation.
  assert (Hnone : position "user-0" "stock-xyz" hundred_units = None)
    by by_evaluation.
  assert (Hb : buy_stock "t1" "user-0" "XYZ" 10 hundred_units
               = (Success (mk_buy_receipt "t1" "XYZ" 10 50 500 9500), snd first_buy))
    by by_evaluation.
  assert (Hfresh : existsb (fun r => String.eqb (Transactions.id r) "t2")
                     (transactions (snd first_buy)) = false)
    by by_evaluation.
  exact (purchase_undone_by_sale "t1" "t2" "user-0" "XYZ" 10 hundred_units
           (snd first_buy) _ _ _ Hwf Hst Hu Hnone Hb Hfresh).
Defined.

(** ** Symbols in any case *)

Lemma upper_ascii_twice c : upper_ascii (upper_ascii c) = upper_ascii c.
Proof.
  unfold upper_ascii.
  destruct ((97 <=? nat_of_ascii c) && (nat_of_ascii c <=? 122))%nat eqn:E;
    [|now rewrite E].
  apply andb_true_iff in E. destruct E as [E1 E2].
  apply Nat.leb_le in E1, E2.
  rewrite nat_ascii_embedding by lia.
  destruct (97 <=? nat_of_ascii c - 32)%nat eqn:E3; [|reflexivity].
  apply Nat.leb_le in E3. lia.
Qed.

Lemma upper_twice sym : upper (upper sym) = upper sym.
Proof.
  induction sym as [|c sym IH]; simpl; [reflexivity|].
  now rewrite upper_ascii_twice, IH.
Qed.

(** The case of a symbol does not matter: a purchase, a sale and a
    registration under a symbol do what they do under its upper case (for
    ASCII symbols, those [upper] converts). *)
Lemma symbols_in_any_case (id user_id symbol name : string) (price : Q)
    (quantity : Z) (s : db) :
  buy_stock id user_id (upper symbol) quantity s
  = buy_stock id user_id symbol quantity s
  /\ sell_stock id user_id (upper symbol) quantity s
     = sell_stock id user_id symbol quantity s
  /\ register_stock id (upper symbol) name price quantity s
     = register_stock id symbol name price quantity s.
Proof.
  unfold buy_stock, buy_stock_reads, buy_stock_writes, sell_stock, register_stock.
  rewrite !upper_twice. repeat split; reflexivity.
Qed.

(** X12.  Registration, then lookup: a stock that [register_stock] has
    accepted is the one every later lookup finds, by its identifier and
    by its symbol written in any case; it carries the symbol in upper
    case, the name and the quantity given, and the price clamped. *)
Theorem registered_stock_is_found (stock_id symbol symbol' name : string)
    (price : Q) (quantity : Z) (s s' : db) :
  register_stock stock_id symbol name price quantity s = (Success stock_id, s') ->
  upper symbol' = upper symbol ->
  stock_by_symbol (upper symbol') s'
  = Some (Stocks.mk stock_id (upper symbol) name (clamp_price price) quantity)
  /\ stock_by_id stock_id s'
     = Some (Stocks.mk stock_id (upper symbol) name (clamp_price price) quantity).
Proof.
  unfold register_stock. destruct (fits_int64 quantity); [|discriminate].
  rewrite stocks_insert_spec. simpl.
  destruct (existsb (Stocks.has_id stock_id) (stocks s)) eqn:E1; [discriminate|].
  destruct (existsb (Stocks.has_symbol (upper symbol)) (stocks s)) eqn:E2;
    [discriminate|].
  simpl. intro H. injection H as <-. intros ->.
  apply find_none_existsb in E1, E2.
  unfold stock_by_symbol, stock_by_id, select_one. simpl.
  rewrite (find_append _ _ _ E1), (find_append _ _ _ E2). simpl.
  unfold Stocks.has_symbol, Stocks.has_id. simpl. rewrite !String.eqb_refl.
  split; reflexivity.
Qed.

Lemma registered_stock_is_found_witness :
  stock_by_symbol (upper "Xyz") hundred_units
  = Some (Stocks.mk "stock-xyz" (upper "xyz") "Xyz Corp." (clamp_price 50) 100)
  /\ stock_by_id "stock-xyz" hundred_units
     = Some (Stocks.mk "stock-xyz" (upper "xyz") "Xyz Corp." (clamp_price 50) 100).
Proof.
  assert (Hreg : register_stock "stock-xyz" "xyz" "Xyz Corp." 50 100 seeded
                 = (Success "stock-xyz", hundred_units)) by by_evaluation.
  assert (Hup : upper "Xyz" = upper "xyz") by by_evaluation.
  exact (registered_stock_is_found "stock-xyz" "xyz" "Xyz" "Xyz Corp." 50 100
           seeded hundred_units Hreg Hup).
Defined.

(** ** The value of the positions of a user *)

Lemma fold_left_plus {A : Type} (g : A -> Q) l a :
  fold_left (fun acc h => acc + g h) l a == a + Qsum (map g l).
Proof.
  revert a. induction l as [|x l IH]; intro a; simpl; [lra|].
  rewrite IH. lra.
Qed.

Lemma Qsum_pairs {A B : Type} (val : A * B -> Q) (F : A -> list B) l :
  Qsum (map val (flat_map (fun a => map (fun b => (a, b)) (F a)) l))
  == Qsum (map (fun a => Qsum (map (fun b => val (a, b)) (F a))) l).
Proof.
  induction l as [|a l IH]; simpl; [lra|].
  rewrite map_app, Qsum_app, IH, map_map. lra.
Qed.

(** The report of a user adds up the value of their positions. *)
Lemma report_value uid s rep :
  get_user_report uid s = Success rep ->
  exists user,
    user_by_id uid s = Some user
    /\ ur_balance rep = Users.balance user
    /\ ur_loan_amount rep = Users.loan_amount user
    /\ ur_portfolio_value rep == holdings_value uid s
    /\ ur_net_worth rep
       == Users.balance user + holdings_value uid s - Users.loan_amount user
    /\ ur_total_pnl rep == ur_net_worth rep - initial_balance.
Proof.
  unfold get_user_report, user_by_id.
  destruct (select_one _ (users s)) as [user|]; [|discriminate].
  intro H. injection H as <-. exists user. simpl.
  assert (Hv : fold_left (fun acc h => acc + position_value h)
                 (map holding_of (holdings_of uid s)) 0
               == holdings_value uid s).
  { rewrite fold_left_plus, map_map. unfold holdings_of, holdings_value, value_at.
    rewrite (Qsum_pairs (fun x => position_value (holding_of x))). simpl. lra. }
  repeat split; try reflexivity; rewrite ?Hv; lra.
Qed.

(** ** Sorting *)

Section Sorting.
Context {A : Type} (lt : A -> A -> bool).
Hypothesis lt_asym : forall x y, lt x y = true -> lt y x = false.

Lemma insert_desc_perm x l : Permutation (insert_desc lt x l) (x :: l).
Proof.
  induction l as [|y l IH]; simpl; [apply Permutation_refl|].
  destruct (lt x y); [|apply Permutation_refl].
  apply perm_trans with (y :: x :: l); [now apply perm_skip|apply perm_swap].
Qed.

Lemma sort_desc_perm l : Permutation (sort_desc lt l) l.
Proof.
  induction l as [|x l IH]; simpl; [apply perm_nil|].
  apply perm_trans with (x :: sort_desc lt l); [apply insert_desc_perm|].
  now apply perm_skip.
Qed.

Lemma insert_desc_sorted x l :
  Sorted (not_smaller lt) l -> Sorted (not_smaller lt) (insert_desc lt x l).
Proof.
  induction l as [|y l IH]; simpl; intro Hs.
  - constructor; constructor.
  - destruct (lt x y) eqn:E.
    + inversion Hs as [|y' l' Hl Hh]; subst. constructor; [now apply IH|].
      destruct l as [|z l]; simpl.
      * constructor. unfold not_smaller. now apply lt_asym.
      * destruct (lt x z); constructor.
        -- inversion Hh; assumption.
        -- unfold not_smaller. now apply lt_asym.
    + constructor; [exact Hs|]. constructor. exact E.
Qed.

Lemma sort_desc_sorted l : Sorted (not_smaller lt) (sort_desc lt l).
Proof.
  induction l as [|x l IH]; simpl; [constructor|].
  now apply insert_desc_sorted.
Qed.

End Sorting.

Lemma py_prefix_firstn {A : Type} (limit : Z) (l : list A) :
  exists n, py_prefix limit l = firstn n l.
Proof.
  unfold py_prefix. destruct (0 <=? limit)%Z; eauto.
Qed.

Lemma in_firstn {A : Type} n (l : list A) y : In y (firstn n l) -> In y l.
Proof.
  revert l. induction n as [|n IH]; intros [|x l]; simpl; try tauto.
  intros [H|H]; [now left|right; now apply IH].
Qed.

Lemma firstn_strongly_sorted {A : Type} (R : A -> A -> Prop) n l :
  StronglySorted R l -> StronglySorted R (firstn n l).
Proof.
  revert l. induction n as [|n IH]; intros l Hs; simpl; [constructor|].
  destruct l as [|x l]; [constructor|].
  inversion Hs as [|x' l' Hl Hf]; subst. constructor; [now apply IH|].
  apply Forall_forall. intros y Hy. apply in_firstn in Hy.
  rewrite Forall_forall in Hf. now apply Hf.
Qed.

Lemma firstn_head {A : Type} n (l : list A) x rest :
  firstn n l = x :: rest -> exists tl, l = x :: tl.
Proof.
  destruct n; simpl; [discriminate|].
  destruct l as [|y l]; [discriminate|]. intro H. injection H as -> _. eauto.
Qed.

Lemma sorted_weaken {A : Type} (R R' : A -> A -> Prop) l :
  (forall x y, R x y -> R' x y) -> Sorted R l -> Sorted R' l.
Proof.
  intros HR. induction 1 as [|x l Hs IH Hh]; constructor; [exact IH|].
  destruct Hh; constructor. now apply HR.
Qed.

Lemma py_prefix_length {A : Type} (limit : Z) (l : list A) :
  ((0 <= limit)%Z ->
   List.length (py_prefix limit l) = Nat.min (Z.to_nat limit) (List.length l))
  /\ ((limit < 0)%Z ->
      List.length (py_prefix limit l)
      = (List.length l - Z.to_nat (- limit))%nat).
Proof.
  unfold py_prefix. split; intro H.
  - destruct (0 <=? limit)%Z eqn:E; [apply length_firstn|].
    apply Z.leb_gt in E. lia.
  - destruct (0 <=? limit)%Z eqn:E; [apply Z.leb_le in E; lia|].
    rewrite length_firstn. lia.
Qed.

Lemma py_prefix_all {A : Type} (limit : Z) (l : list A) :
  (Z.of_nat (List.length l) <= limit)%Z -> py_prefix limit l = l.
Proof.
  intro H. unfold py_prefix.
  destruct (0 <=? limit)%Z eqn:E; [|apply Z.leb_gt in E; lia].
  apply firstn_all2. lia.
Qed.

Lemma by_total_pnl_asym x y : by_total_pnl x y = true -> by_total_pnl y x = false.
Proof.
  unfold by_total_pnl. rewrite Qlt_bool_true, Qlt_bool_false. lra.
Qed.

Lemma by_volume_then_performance_asym x y :
  by_volume_then_performance x y = true -> by_volume_then_performance y x = false.
Proof.
  unfold by_volume_then_performance. intro H.
  apply orb_true_iff in H. apply orb_false_iff.
  destruct H as [H|H].
  - apply Z.ltb_lt in H. split; [apply Z.ltb_ge; lia|].
    apply andb_false_iff. left. apply Z.eqb_neq. lia.
  - apply andb_true_iff in H. destruct H as [H1 H2].
    apply Z.eqb_eq in H1. apply Qlt_bool_true in H2.
    split; [apply Z.ltb_ge; lia|].
    apply andb_false_iff. right. apply Qlt_bool_false. lra.
Qed.

(** The users of the leaderboard before the slice. *)
Lemma ranked_users_sorted s :
  StronglySorted (fun x y => ru_total_pnl y <= ru_total_pnl x)
    (sort_desc by_total_pnl (map (rank_user s) (users s))).
Proof.
  apply Sorted_StronglySorted.
  - intros x y z Hxy Hyz. lra.
  - apply sorted_weaken with (R := not_smaller by_total_pnl).
    + intros x y H. unfold not_smaller, by_total_pnl in H.
      now apply Qlt_bool_false in H.
    + apply sort_desc_sorted. exact by_total_pnl_asym.
Qed.

(** X13.  The leaderboard of [get_top_users]: its entries are in
    descending order of [total_pnl]; each is the entry of a user of the
    table; for a limit that is not negative there are [limit] of them, or
    as many as there are users if these are fewer, and for a negative
    limit the last [-limit] users of the ranking are left out; and no
    user has a [total_pnl] above that of the first entry. *)
Theorem top_users_are_ranked (limit : Z) (s : db) :
  StronglySorted (fun x y => ru_total_pnl y <= ru_total_pnl x)
    (get_top_users limit s)
  /\ (forall x, In x (get_top_users limit s) ->
      exists u, In u (users s) /\ x = rank_user s u)
  /\ ((0 <= limit)%Z ->
      List.length (get_top_users limit s)
      = Nat.min (Z.to_nat limit) (List.length (users s)))
  /\ ((limit < 0)%Z ->
      List.length (get_top_users limit s)
      = (List.length (users s) - Z.to_nat (- limit))%nat)
  /\ (forall x rest, get_top_users limit s = x :: rest ->
      forall u, In u (users s) ->
                ru_total_pnl (rank_user s u) <= ru_total_pnl x).
Proof.
  unfold get_top_users.
  set (ranked := sort_desc by_total_pnl (map (rank_user s) (users s))).
  assert (Hperm : Permutation ranked (map (rank_user s) (users s)))
    by apply sort_desc_perm.
  assert (Hlen : List.length ranked = List.length (users s))
    by (rewrite (Permutation_length Hperm); apply length_map).
  pose proof (ranked_users_sorted s) as Hsorted. fold ranked in Hsorted.
  destruct (py_prefix_firstn limit ranked) as [n Hn].
  split; [|split; [|split; [|split]]].
  - rewrite Hn. now apply firstn_strongly_sorted.
  - intros x Hx. rewrite Hn in Hx. apply in_firstn in Hx.
    apply (Permutation_in _ Hperm) in Hx. apply in_map_iff in Hx.
    destruct Hx as [u [Hu Hin]]. eauto.
  - intro H. rewrite <- Hlen. now apply py_prefix_length.
  - intro H. rewrite <- Hlen. now apply py_prefix_length.
  - intros x rest Hx u Hu. rewrite Hn in Hx.
    destruct (firstn_head _ _ _ _ Hx) as [tl Htl].
    assert (Hin : In (rank_user s u) ranked).
    { apply (Permutation_in _ (Permutation_sym Hperm)). now apply in_map. }
    rewrite Htl in Hsorted, Hin. inversion Hsorted as [|x' l' _ Hall]; subst.
    destruct Hin as [<-|Hin]; [lra|].
    rewrite Forall_forall in Hall. now apply Hall.
Qed.

(** ** The leaderboard and the report of a user *)

Lemma filter_none {A : Type} (t : list A) : filter (fun _ => false) t = [].
Proof. induction t; simpl; auto. Qed.

Lemma value_of_position_rows (p : Portfolios.row) (l : list Stocks.row) :
  not_null row_value (map (fun st => (Some p, st)) (map Some l))
  = map (fun st => inject_Z (Portfolios.quantity p) * Stocks.current_price st) l.
Proof.
  induction l as [|st l IH]; simpl; [reflexivity|]. simpl in IH. now rewrite IH.
Qed.

Lemma value_of_user_rows (t : list Stocks.row) (l : list Portfolios.row) :
  Qsum (not_null row_value
          (flat_map
             (fun up : option Portfolios.row =>
                map (fun st => (up, st))
                  (left_join
                     (fun st => match up with
                                | Some p => Stocks.has_id (Portfolios.stock_id p) st
                                | None => false
                                end) t))
             (map Some l)))
  == Qsum (map (value_at t) l).
Proof.
  induction l as [|p l IH]; [reflexivity|].
  cbn [map flat_map]. rewrite not_null_app, Qsum_app, IH.
  cbn [Qsum fold_right]. fold (Qsum (map (value_at t) l)).
  apply Qplus_comp; [|reflexivity].
  unfold value_at, select_all, left_join.
  destruct (filter (Stocks.has_id (Portfolios.stock_id p)) t) as [|st0 l0].
  - reflexivity.
  - rewrite value_of_position_rows. reflexivity.
Qed.

(** [portfolio_value] of [get_top_users] is the value of the positions
    of the user. *)
Lemma portfolio_value_of_holdings u s :
  portfolio_value_of u s == holdings_value (Users.id u) s.
Proof.
  unfold portfolio_value_of, user_rows, holdings_value, select_all.
  unfold left_join at 2.
  destruct (filter (of_user (Users.id u)) (user_portfolios s)) as [|p l] eqn:E.
  - cbn [flat_map]. unfold left_join. rewrite filter_none. reflexivity.
  - apply value_of_user_rows.
Qed.

(** X15.  The leaderboard and the report agree: in every database the
    methods build, an entry of [get_top_users] carries the username, the
    balance, the loan, the portfolio value, the net worth and the
    [total_pnl] that [get_user_report] gives for that user. *)
Theorem leaderboard_agrees_with_report (ops : list op) (limit : Z)
    (x : ranked_user) :
  In x (get_top_users limit (run ops empty_db)) ->
  exists u rep,
    In u (users (run ops empty_db))
    /\ get_user_report (Users.id u) (run ops empty_db) = Success rep
    /\ ru_username x = ur_username rep
    /\ ru_balance x = ur_balance rep
    /\ ru_loan_amount x = ur_loan_amount rep
    /\ ru_portfolio_value x == ur_portfolio_value rep
    /\ ru_net_worth x == ur_net_worth rep
    /\ ru_total_pnl x == ur_total_pnl rep.
Proof.
  set (s := run ops empty_db). intro Hx.
  assert (Hl : ledger s) by apply ledger_run, ledger_empty.
  unfold get_top_users in Hx.
  destruct (py_prefix_firstn limit
              (sort_desc by_total_pnl (map (rank_user s) (users s)))) as [n Hn].
  rewrite Hn in Hx. apply in_firstn in Hx.
  apply (Permutation_in _ (sort_desc_perm by_total_pnl _)) in Hx.
  apply in_map_iff in Hx. destruct Hx as [u [<- Hu]].
  assert (Hm : Users.has_id (Users.id u) u = true)
    by (unfold Users.has_id; apply String.eqb_refl).
  pose proof (find_the_row _ _ _ (lg_user_id s Hl (Users.id u)) Hu Hm) as Hf.
  assert (Hrep : exists rep, get_user_report (Users.id u) s = Success rep).
  { unfold get_user_report, select_one. rewrite Hf. eauto. }
  destruct Hrep as [rep Hrep].
  exists u, rep. split; [exact Hu|]. split; [exact Hrep|].
  destruct (report_value _ _ _ Hrep)
    as [user [Huser [_ [_ [Hv [Hn' Hp]]]]]].
  unfold user_by_id, select_one in Huser. rewrite Hf in Huser.
  injection Huser as <-.
  assert (Hfields : ur_username rep = Users.username u
                    /\ ur_balance rep = Users.balance u
                    /\ ur_loan_amount rep = Users.loan_amount u).
  { unfold get_user_report, select_one in Hrep. rewrite Hf in Hrep.
    injection Hrep as <-. repeat split. }
  destruct Hfields as [-> [-> ->]].
  pose proof (portfolio_value_of_holdings u s) as Hpv.
  unfold rank_user. cbn [ru_username ru_balance ru_loan_amount
                           ru_portfolio_value ru_net_worth ru_total_pnl].
  unfold initial_balance in *.
  repeat split; try reflexivity; rewrite Hpv; lra.
Qed.

Lemma leaderboard_agrees_with_report_witness :
  exists x,
    In x (get_top_users 3 after_update)
    /\ exists u rep,
         In u (users after_update)
         /\ get_user_report (Users.id u) after_update = Success rep
         /\ ru_username x = ur_username rep
         /\ ru_balance x = ur_balance rep
         /\ ru_loan_amount x = ur_loan_amount rep
         /\ ru_portfolio_value x == ur_portfolio_value rep
         /\ ru_net_worth x == ur_net_worth rep
         /\ ru_total_pnl x == ur_total_pnl rep.
Proof.
  assert (H : exists x,
             In x (get_top_users 3
                     (run [boot; Buy_stock "t1" "user-0" "MSFT" 10;
                           Update_stock_prices (fun _ => 1 # 20)] empty_db))).
  { destruct (get_top_users 3 _) as [|x l] eqn:E;
      [vm_compute in E; discriminate|].
    exists x. left. reflexivity. }
  destruct H as [x Hin]. exists x. split; [exact Hin|].
  exact (leaderboard_agrees_with_report
           [boot; Buy_stock "t1" "user-0" "MSFT" 10;
            Update_stock_prices (fun _ => 1 # 20)] 3 x Hin).
Defined.

(** ** The ranking of the stocks *)

Lemma length_flat_map_constant {A B : Type} (l : list A) (c : list B) :
  List.length (flat_map (fun _ => c) l) = (List.length l * List.length c)%nat.
Proof.
  induction l as [|a l IH]; simpl; [reflexivity|].
  rewrite length_app, IH. reflexivity.
Qed.

(** [COUNT(sph.id)] counts every price record once per transaction. *)
Lemma history_count_pairs s st :
  history_count s st
  = Z.of_nat (Nat.max 1 (List.length (transactions_of (Stocks.id st) s))
              * List.length (history_of (Stocks.id st) s)).
Proof.
  unfold history_count, joined_rows, sql_count.
  rewrite not_null_snd_pairs, not_null_left_join, length_flat_map_constant,
    length_left_join, length_map.
  reflexivity.
Qed.

Lemma ranked_stocks_sorted l :
  StronglySorted (fun x y => (rs_total_volume y <= rs_total_volume x)%Z)
    (sort_desc by_volume_then_performance l).
Proof.
  apply Sorted_StronglySorted.
  - intros x y z Hxy Hyz. lia.
  - apply sorted_weaken with (R := not_smaller by_volume_then_performance).
    + intros x y H. unfold not_smaller, by_volume_then_performance in H.
      apply orb_false_iff in H. destruct H as [H _]. now apply Z.ltb_ge in H.
    + apply sort_desc_sorted. exact by_volume_then_performance_asym.
Qed.

(** X16.  The ranking of [get_top_stocks].  A stock is a candidate when
    the number of its price records, times the number of its transactions
    or 1 if it has none, is above 1: two price records, or one price
    record and two transactions.  The entries are entries of candidates,
    in descending order of [total_volume]; with a limit that is not below
    the number of stocks every candidate is listed.  [total_volume] is
    the quantity bought times the number of price records (1 if there is
    none), and [transaction_count] the number of transactions times that
    number. *)
Theorem top_stocks_are_ranked (limit : Z) (s : db) :
  let candidate st :=
    (1 < Nat.max 1 (List.length (transactions_of (Stocks.id st) s))
         * List.length (history_of (Stocks.id st) s))%nat in
  (forall x, In x (get_top_stocks limit s) ->
     exists st, In st (stocks s) /\ candidate st /\ x = rank_stock s st)
  /\ StronglySorted (fun x y => (rs_total_volume y <= rs_total_volume x)%Z)
       (get_top_stocks limit s)
  /\ (forall st, In st (stocks s) -> candidate st ->
      (Z.of_nat (List.length (stocks s)) <= limit)%Z ->
      In (rank_stock s st) (get_top_stocks limit s))
  /\ (forall st,
        rs_total_volume (rank_stock s st)
        = (sql_sum (map (quantity_of_kind BUY) (transactions_of (Stocks.id st) s))
           * Z.of_nat (Nat.max 1 (List.length (history_of (Stocks.id st) s))))%Z
        /\ rs_transaction_count (rank_stock s st)
           = Z.of_nat (List.length (transactions_of (Stocks.id st) s)
                       * Nat.max 1 (List.length (history_of (Stocks.id st) s)))).
Proof.
  intro candidate. unfold get_top_stocks.
  set (cands := filter (fun st => (1 <? history_count s st)%Z) (stocks s)).
  set (ranked := sort_desc by_volume_then_performance (map (rank_stock s) cands)).
  assert (Hperm : Permutation ranked (map (rank_stock s) cands))
    by apply sort_desc_perm.
  assert (Hc : forall st, In st cands <-> In st (stocks s) /\ candidate st).
  { intro st. unfold cands, candidate. rewrite filter_In, history_count_pairs.
    rewrite Z.ltb_lt. split; intros [H1 H2]; (split; [exact H1|lia]). }
  destruct (py_prefix_firstn limit ranked) as [n Hn].
  split; [|split; [|split]].
  - intros x Hx. rewrite Hn in Hx. apply in_firstn in Hx.
    apply (Permutation_in _ Hperm) in Hx. apply in_map_iff in Hx.
    destruct Hx as [st [Hst Hin]]. apply Hc in Hin. destruct Hin as [Hin Hcand].
    exists st. auto.
  - rewrite Hn. apply firstn_strongly_sorted, ranked_stocks_sorted.
  - intros st Hin Hcand Hlim. rewrite py_prefix_all.
    + apply (Permutation_in _ (Permutation_sym Hperm)). apply in_map.
      apply Hc. auto.
    + rewrite (Permutation_length Hperm), length_map.
      pose proof (filter_length_le (fun st => (1 <? history_count s st)%Z) (stocks s)).
      fold cands in H. lia.
  - intro st. unfold rank_stock, joined_rows, sql_count.
    cbn [rs_total_volume rs_transaction_count].
    rewrite sum_pairs, sum_left_join, count_pairs, not_null_left_join,
      length_map, !length_left_join.
    split; reflexivity.
Qed.

(** ** The seeding, once *)

Lemma length_update_where {A : Type} (p : A -> bool) f t :
  List.length (update_where p f t) = List.length t.
Proof. apply length_map. Qed.

Lemma insert_sample_stocks_length l i uuid4 s s' :
  insert_sample_stocks l i uuid4 s = Some s' ->
  List.length (stocks s') = (List.length (stocks s) + List.length l)%nat.
Proof.
  revert i s. induction l as [|[[[sym n] p] q] rest IH]; simpl; intros i s H.
  - injection H as <-. lia.
  - destruct (Stocks.insert _ (stocks s)) as [t|] eqn:Ei; [|discriminate].
    apply IH in H. rewrite H. simpl.
    apply stocks_insert_fresh in Ei. destruct Ei as [_ ->].
    rewrite length_app. simpl. lia.
Qed.

Lemma insert_test_users_length todo i uuid4 s s' :
  insert_test_users todo i uuid4 s = Some s' ->
  stocks s' = stocks s
  /\ List.length (users s') = (List.length (users s) + todo)%nat.
Proof.
  revert i s. induction todo as [|todo IH]; simpl; intros i s H.
  - injection H as <-. split; [reflexivity|lia].
  - destruct (Users.insert _ (users s)) as [t|] eqn:Ei; [|discriminate].
    apply IH in H. destruct H as [-> ->]. simpl. split; [reflexivity|].
    unfold Users.insert, insert_unless in Ei.
    destruct (existsb _ (users s)); [discriminate|]. injection Ei as <-.
    rewrite length_app. simpl. lia.
Qed.

(** What [setup_initial_data] leaves when it succeeds. *)
Lemma setup_initial_data_tables su uu s s1 :
  setup_initial_data su uu s = (Success tt, s1) ->
  (0 < List.length (stocks s1))%nat /\ (0 < List.length (users s1))%nat.
Proof.
  unfold setup_initial_data.
  destruct (if (List.length (stocks s) =? 0)%nat then _ else _) as [s0|] eqn:E1;
    [|discriminate].
  destruct (if (List.length (users s0) =? 0)%nat then _ else _) as [s2|] eqn:E2;
    [|discriminate].
  intro H. injection H as <-.
  assert (H0 : (0 < List.length (stocks s0))%nat).
  { destruct (List.length (stocks s) =? 0)%nat eqn:En.
    - apply insert_sample_stocks_length in E1. rewrite E1. simpl. lia.
    - injection E1 as <-. apply Nat.eqb_neq in En. lia. }
  destruct (List.length (users s0) =? 0)%nat eqn:En.
  - apply insert_test_users_length in E2. destruct E2 as [-> ->]. lia.
  - injection E2 as <-. apply Nat.eqb_neq in En. lia.
Qed.

(** No method takes a row off [stocks] or [users]. *)
Lemma tables_keep_their_rows o s :
  (List.length (stocks s) <= List.length (stocks (apply o s)))%nat
  /\ (List.length (users s) <= List.length (users (apply o s)))%nat.
Proof.
  destruct o; simpl.
  - unfold setup_initial_data.
    destruct (if (List.length (stocks s) =? 0)%nat then _ else _) as [s0|] eqn:E1;
      [|simpl; lia].
    destruct (if (List.length (users s0) =? 0)%nat then _ else _) as [s2|] eqn:E2;
      [|simpl; lia].
    cbn [snd].
    assert (H0 : (List.length (stocks s) <= List.length (stocks s0))%nat
                 /\ users s0 = users s).
    { destruct (List.length (stocks s) =? 0)%nat.
      - split; [apply insert_sample_stocks_length in E1; lia|].
        apply insert_sample_stocks_users in E1. tauto.
      - injection E1 as <-. auto. }
    destruct H0 as [H0 H1]. rewrite <- H1.
    destruct (List.length (users s0) =? 0)%nat.
    + apply insert_test_users_length in E2. destruct E2 as [-> ->]. lia.
    + injection E2 as <-. lia.
  - unfold update_stock_prices.
    destruct (update_each_frame change_percent (stocks s) 0 s)
      as [-> [_ [_ [_ [H _]]]]].
    apply (f_equal (@List.length _)) in H. rewrite !length_map in H. lia.
  - unfold register_stock.
    destruct (fits_int64 quantity); [|simpl; lia].
    destruct (Stocks.insert _ (stocks s)) as [t|] eqn:Ei; simpl; [|lia].
    apply stocks_insert_fresh in Ei. destruct Ei as [_ ->].
    rewrite length_app. simpl. lia.
  - unfold take_loan.
    destruct (select_one _ (users s)); simpl; [|lia].
    destruct (Qlt_bool _ _); simpl; [lia|].
    destruct (Loans.insert _ _); simpl; [|lia].
    rewrite length_update_where. lia.
  - unfold buy_stock.
    destruct (buy_stock_reads user_id symbol quantity s); simpl; [lia|].
    unfold buy_stock_writes.
    destruct (upsert_position _ _ _ _ _); simpl; [lia|].
    destruct (Transactions.insert _ _); simpl; [|lia].
    rewrite !length_update_where. lia.
  - unfold sell_stock.
    destruct (select_one _ (stocks s)); simpl; [|lia].
    destruct (select_one _ (user_portfolios s)); simpl; [|lia].
    destruct (_ <? _)%Z; simpl; [lia|].
    destruct (select_one _ (users s)); simpl; [|lia].
    destruct (Transactions.insert _ _); simpl; [|lia].
    rewrite !length_update_where. lia.
Qed.

Lemma tables_keep_their_rows_run ops s :
  (List.length (stocks s) <= List.length (stocks (run ops s)))%nat
  /\ (List.length (users s) <= List.length (users (run ops s)))%nat.
Proof.
  revert s. induction ops as [|o ops IH]; intro s; simpl; [lia|].
  destruct (tables_keep_their_rows o s), (IH (apply o s)).
  unfold run in *. lia.
Qed.

(** X17.  The seeding happens once: after a call of [setup_initial_data]
    that succeeded, and whatever calls followed, a new call (the
    constructor on the same file) succeeds and leaves the database as it
    is; no call takes a row off [stocks] or [users]. *)
Theorem seeding_happens_once (su uu su' uu' : nat -> string) (s s1 : db)
    (after : list op) :
  setup_initial_data su uu s = (Success tt, s1) ->
  setup_initial_data su' uu' (run after s1) = (Success tt, run after s1)
  /\ (List.length (stocks s1) <= List.length (stocks (run after s1)))%nat
  /\ (List.length (users s1) <= List.length (users (run after s1)))%nat.
Proof.
  intro H. apply setup_initial_data_tables in H. destruct H as [Hs Hu].
  destruct (tables_keep_their_rows_run after s1) as [Hs' Hu'].
  split; [|split; assumption].
  unfold setup_initial_data.
  destruct (List.length (stocks (run after s1)) =? 0)%nat eqn:E1;
    [apply Nat.eqb_eq in E1; lia|].
  destruct (List.length (users (run after s1)) =? 0)%nat eqn:E2;
    [apply Nat.eqb_eq in E2; lia|].
  reflexivity.
Qed.

Lemma seeding_happens_once_witness :
  setup_initial_data (example_uuid4 "s-") (example_uuid4 "u-") (run trades seeded)
  = (Success tt, run trades seeded)
  /\ (List.length (stocks seeded) <= List.length (stocks (run trades seeded)))%nat
  /\ (List.length (users seeded) <= List.length (users (run trades seeded)))%nat.
Proof.
  assert (H : setup_initial_data (example_uuid4 "stock-") (example_uuid4 "user-")
                empty_db
              = (Success tt, seeded)) by by_evaluation.
  exact (seeding_happens_once (example_uuid4 "stock-") (example_uuid4 "user-")
           (example_uuid4 "s-") (example_uuid4 "u-")
           empty_db seeded trades H).
Defined.

(** ** The figures of the stock report *)

(** X18.  The row of a stock in [get_stock_report], with [n] the number
    of price records of the stock, or 1 if it has none:
    [transaction_count] is [n] times the number of its transactions,
    [total_bought] and [total_sold] are [n] times the quantities bought
    and sold; [max_price] and [min_price] are the largest and the
    smallest of its price records; [avg_transaction_price] is NULL for a
    stock without transactions and for no other; and the volatility is 0
    for a stock without price records. *)
Theorem stock_report_figures (s : db) (st : Stocks.row) :
  let mine := transactions_of (Stocks.id st) s in
  let records := history_of (Stocks.id st) s in
  let n := Nat.max 1 (List.length records) in
  let row := stock_report_of s st in
  transaction_count row = Z.of_nat (List.length mine * n)
  /\ total_bought row
     = (sql_sum (map (quantity_of_kind BUY) mine) * Z.of_nat n)%Z
  /\ total_sold row
     = (sql_sum (map (quantity_of_kind SELL) mine) * Z.of_nat n)%Z
  /\ max_price row = sql_max (map History.price records)
  /\ min_price row = sql_min (map History.price records)
  /\ (mine = [] <-> avg_transaction_price row = None)
  /\ (records = [] -> volatility_percent row = 0).
Proof.
  cbv zeta.
  destruct (report_volume s st) as [Hb Hs].
  destruct (report_price_range s st) as [Hmax [Hmin [_ Hv]]].
  destruct (report_avg_price s st) as [Hnone Havg].
  split; [apply report_transaction_count|].
  split; [exact Hb|]. split; [exact Hs|]. split; [exact Hmax|].
  split; [exact Hmin|]. split; [|exact Hv].
  split; [exact Hnone|].
  revert Havg. destruct (transactions_of (Stocks.id st) s) as [|r l];
    intros Havg H; [reflexivity|].
  destruct (Havg _ eq_refl) as [a' [Ha' _]]. congruence.
Qed.

Lemma update_stock_prices_bounds_witness :
  exists st,
    In st (stocks (update_stock_prices (fun _ => 1 # 10) seeded))
    /\ Stocks.symbol st = "AAPL"
    /\ in_bounds st.
Proof.
  assert (H : exists st,
             In st (stocks (update_stock_prices (fun _ => 1 # 10) seeded))
             /\ Stocks.symbol st = "AAPL").
  { destruct (stocks (update_stock_prices (fun _ => 1 # 10) seeded))
      as [|st l] eqn:E; [vm_compute in E; discriminate|].
    exists st. split; [left; reflexivity|].
    vm_compute in E. injection E as <- _. reflexivity. }
  destruct H as [st [Hin Hsym]]. exists st.
  split; [exact Hin|]. split; [exact Hsym|].
  exact (update_stock_prices_bounds (fun _ => 1 # 10) seeded st Hin).
Defined.

Lemma serial_buys_exactly_inventory_witness :
  exists st rs s',
    stock_by_symbol (upper "xyz") one_unit = Some st
    /\ buy_one_each [("t1", "user-0"); ("t2", "user-1")] "xyz" one_unit = (rs, s')
    /\ Z.of_nat (List.length (filter is_success rs)) = Stocks.available_quantity st
    /\ Z.of_nat (List.length (filter sold_out rs))
       = (Z.of_nat (List.length [("t1", "user-0"); ("t2", "user-1")])
          - Stocks.available_quantity st)%Z
    /\ exists st',
         stock_by_symbol (upper "xyz") s' = Some st'
         /\ Stocks.id st' = Stocks.id st
         /\ Stocks.available_quantity st' = 0%Z.
Proof.
  assert (H1 : exists st,
             stock_by_symbol (upper "xyz") one_unit = Some st
             /\ Stocks.available_quantity st = 1%Z).
  { destruct (stock_by_symbol (upper "xyz") one_unit) as [st|] eqn:E;
      [|vm_compute in E; discriminate].
    exists st. split; [reflexivity|].
    vm_compute in E. injection E as <-. reflexivity. }
  assert (H2 : exists rs s',
             buy_one_each [("t1", "user-0"); ("t2", "user-1")] "xyz" one_unit
             = (rs, s')
             /\ Forall (fun r => is_success r = true \/ sold_out r = true) rs).
  { destruct (buy_one_each _ "xyz" one_unit) as [rs s'] eqn:E.
    exists rs, s'. split; [reflexivity|].
    vm_compute in E. injection E as <- _.
    constructor; [left; reflexivity|].
    constructor; [right; reflexivity|constructor]. }
  destruct H1 as [st [Hst Hq]]. destruct H2 as [rs [s' [Hrun Hall]]].
  assert (HI : (0 <= Stocks.available_quantity st
                <= Z.of_nat (List.length [("t1", "user-0"); ("t2", "user-1")]))%Z)
    by (rewrite Hq; simpl; lia).
  exists st, rs, s'. split; [exact Hst|]. split; [exact Hrun|].
  exact (serial_buys_exactly_inventory _ "xyz" one_unit st rs s' Hst HI Hrun Hall).
Defined.

Lemma samples_conserved_witness :
  exists st,
    stock_by_id (example_uuid4 "stock-" 2)
      (run [Buy_stock "t1" "user-0" "MSFT" 10;
            Update_stock_prices (fun _ => 1 # 20);
            Buy_stock "t2" "user-1" "msft" 25;
            Sell_stock "t3" "user-0" "Msft" 4] seeded) = Some st
    /\ (Stocks.available_quantity st
        + held (example_uuid4 "stock-" 2)
            (run [Buy_stock "t1" "user-0" "MSFT" 10;
                  Update_stock_prices (fun _ => 1 # 20);
                  Buy_stock "t2" "user-1" "msft" 25;
                  Sell_stock "t3" "user-0" "Msft" 4] seeded))%Z
       = 900%Z.
Proof.
  assert (H1 : stocks (run [] empty_db) = []) by reflexivity.
  assert (H2 : setup_initial_data (example_uuid4 "stock-") (example_uuid4 "user-")
                 (run [] empty_db)
               = (Success tt, seeded)) by by_evaluation.
  assert (H3 : nth_error sample_stocks 2
               = Some ("MSFT", "Microsoft Corp.", 90, 900%Z)) by reflexivity.
  exact (samples_conserved [] _ (example_uuid4 "stock-") (example_uuid4 "user-")
           seeded 2 "MSFT" "Microsoft Corp." 90 900 H1 H2 H3).
Defined.

Lemma buy_stock_balance_witness :
  exists rcpt s',
    buy_stock "t1" "user-0" "MSFT" 100 seeded = (Success rcpt, s')
    /\ 0 <= br_new_balance rcpt
    /\ exists user',
         user_by_id "user-0" s' = Some user'
         /\ Users.balance user' = br_new_balance rcpt.
Proof.
  assert (H : exists rcpt s',
             buy_stock "t1" "user-0" "MSFT" 100 seeded = (Success rcpt, s')).
  { destruct (buy_stock "t1" "user-0" "MSFT" 100 seeded) as [[rcpt|m|e] s'] eqn:E;
      [eauto|vm_compute in E; discriminate|vm_compute in E; discriminate]. }
  destruct H as [rcpt [s' H]]. exists rcpt, s'. split; [exact H|].
  exact (buy_stock_balance "t1" "user-0" "MSFT" 100 seeded rcpt s' H).
Defined.

Lemma sell_stock_balance_witness :
  exists rcpt s',
    sell_stock "t2" "user-0" "MSFT" 40 after_purchase = (Success rcpt, s')
    /\ exists st user user',
         stock_by_symbol (upper "MSFT") after_purchase = Some st
         /\ user_by_id "user-0" after_purchase = Some user
         /\ user_by_id "user-0" s' = Some user'
         /\ Users.balance user'
            = Users.balance user + Stocks.current_price st * inject_Z 40
         /\ ((0 <= 40)%Z -> 0 <= Stocks.current_price st ->
             Users.balance user <= Users.balance user').
Proof.
  assert (H : exists rcpt s',
             sell_stock "t2" "user-0" "MSFT" 40 after_purchase = (Success rcpt, s')).
  { destruct (sell_stock "t2" "user-0" "MSFT" 40 after_purchase)
      as [[rcpt|m|e] s'] eqn:E;
      [eauto|vm_compute in E; discriminate|vm_compute in E; discriminate]. }
  destruct H as [rcpt [s' H]]. exists rcpt, s'. split; [exact H|].
  exact (sell_stock_balance "t2" "user-0" "MSFT" 40 after_purchase rcpt s' H).
Defined.

(** ** The positions in the report of a user *)

Lemma existsb_filter_length {A : Type} (p : A -> bool) t :
  existsb p t = true -> (0 < List.length (filter p t))%nat.
Proof.
  induction t as [|a t IH]; simpl; [discriminate|].
  destruct (p a); simpl; [lia|exact IH].
Qed.

(** A join that meets one row for every row of the left table. *)
Lemma join_one_each {A B : Type} (F : A -> list B) (l : list A) :
  (forall a, In a l -> List.length (F a) = 1%nat) ->
  map fst (flat_map (fun a => map (fun b => (a, b)) (F a)) l) = l.
Proof.
  induction l as [|a l IH]; intro H; [reflexivity|].
  cbn [flat_map]. rewrite map_app, IH by (intros; apply H; now right).
  specialize (H a (or_introl eq_refl)).
  destruct (F a) as [|b [|b' r]]; try discriminate. reflexivity.
Qed.

(** X19.  The report of a user: [get_user_report] answers "User not
    found" exactly for an identifier that names no user; in a database
    that calls taken one after the other have built, a report lists the
    positions of the user, one entry each, in some order, with the
    quantity and the average price of the position; the value of an
    entry is its quantity times the current price of the stock and its
    profit the quantity times the difference of the two prices. *)
Theorem report_lists_the_positions (ops : list op) (user_id : string) :
  (user_by_id user_id (run ops empty_db) = None <->
   get_user_report user_id (run ops empty_db) = Failure User_not_found)
  /\ forall rep,
       get_user_report user_id (run ops empty_db) = Success rep ->
       Permutation
         (map (fun h => (hd_quantity h, hd_avg_buy_price h)) (ur_portfolio rep))
         (map (fun p => (Portfolios.quantity p, Portfolios.avg_buy_price p))
              (select_all (of_user user_id) (user_portfolios (run ops empty_db))))
       /\ Forall (fun h =>
                    position_value h = inject_Z (hd_quantity h) * hd_current_price h
                    /\ position_pnl h
                       = inject_Z (hd_quantity h)
                         * (hd_current_price h - hd_avg_buy_price h))
                 (ur_portfolio rep).
Proof.
  set (s := run ops empty_db).
  assert (Hw : wf s) by apply wf_run, wf_empty.
  unfold get_user_report, user_by_id.
  destruct (select_one (Users.has_id user_id) (users s)) as [user|].
  - split; [split; discriminate|].
    intros rep H. injection H as <-. cbn [ur_portfolio].
    split.
    + rewrite map_map.
      change (fun x => (hd_quantity (holding_of x), hd_avg_buy_price (holding_of x)))
        with (fun x : Portfolios.row * Stocks.row =>
                (fun p => (Portfolios.quantity p, Portfolios.avg_buy_price p)) (fst x)).
      rewrite <- (map_map fst). unfold holdings_of.
      rewrite join_one_each; [apply Permutation_refl|].
      intros p Hp.
      unfold select_all in Hp. apply filter_In in Hp. destruct Hp as [Hp _].
      pose proof (wf_stock_id s Hw (Portfolios.stock_id p)) as H1.
      pose proof (existsb_filter_length _ _ (wf_position_stock s Hw p Hp)) as H2.
      unfold select_all in *. lia.
    + apply Forall_forall. intros h Hh. apply in_map_iff in Hh.
      destruct Hh as [x [<- _]]. split; reflexivity.
  - split; [split; reflexivity|]. intros rep H. discriminate.
Qed.

(** ** The report of a user and the calls of the others *)

Lemma find_update_where_other {A : Type} (m p : A -> bool) f t :
  (forall r, m r = true -> p r = false /\ p (f r) = false) ->
  find p (update_where m f t) = find p t.
Proof.
  intro H. induction t as [|a t IH]; simpl; [reflexivity|].
  destruct (m a) eqn:E.
  - destruct (H a E) as [-> ->]. exact IH.
  - destruct (p a); [reflexivity|exact IH].
Qed.

Lemma filter_update_where_other {A : Type} (m p : A -> bool) f t :
  (forall r, m r = true -> p r = false /\ p (f r) = false) ->
  filter p (update_where m f t) = filter p t.
Proof.
  intro H. induction t as [|a t IH]; simpl; [reflexivity|].
  destruct (m a) eqn:E.
  - destruct (H a E) as [-> ->]. exact IH.
  - destruct (p a); [now rewrite IH|exact IH].
Qed.

Lemma filter_delete_where_other {A : Type} (m p : A -> bool) t :
  (forall r, m r = true -> p r = false) ->
  filter p (delete_where m t) = filter p t.
Proof.
  intro H. unfold delete_where. induction t as [|a t IH]; simpl; [reflexivity|].
  destruct (m a) eqn:E; simpl.
  - rewrite (H a E). exact IH.
  - destruct (p a); [now rewrite IH|exact IH].
Qed.

Lemma other_user (u v a : string) :
  u <> v -> String.eqb a u = true -> String.eqb a v = false.
Proof.
  intros Hne Ha. apply String.eqb_eq in Ha. subst a. now apply String.eqb_neq.
Qed.

(** The position of one user is no position of another. *)
Lemma has_key_other u v i r :
  u <> v -> Portfolios.has_key u i r = true -> of_user v r = false.
Proof.
  intros Hne H. unfold Portfolios.has_key in H. apply andb_true_iff in H.
  destruct H as [H _]. unfold of_user. now apply (other_user u v).
Qed.

Lemma upsert_position_other u v i q p t t' :
  u <> v -> upsert_position u i q p t = inr t' ->
  select_all (of_user v) t' = select_all (of_user v) t.
Proof.
  intros Hne. unfold upsert_position, select_all.
  destruct (select_one (Portfolios.has_key u i) t) as [pos|].
  - destruct (_ =? 0)%Z; [discriminate|]. intro H. injection H as <-.
    apply filter_update_where_other. intros r Hr.
    split; apply (has_key_other u v i); auto.
  - unfold Portfolios.insert, insert_unless.
    destruct (existsb _ t); [discriminate|]. intro H. injection H as <-.
    rewrite filter_app. simpl. unfold of_user at 2. simpl.
    apply String.eqb_neq in Hne. rewrite Hne. apply app_nil_r.
Qed.

(** The entries of a report do not show the units on offer. *)
Lemma holding_without_units m a up i (t : list Stocks.row) :
  map (fun st => holding_of (up, st))
      (filter (Stocks.has_id i) (update_where m (Stocks.set_available_quantity a) t))
  = map (fun st => holding_of (up, st)) (filter (Stocks.has_id i) t).
Proof.
  induction t as [|st t IHt]; [reflexivity|].
  cbn [update_where map filter]. fold (update_where m (Stocks.set_available_quantity a) t).
  assert (E : Stocks.has_id i (if m st then Stocks.set_available_quantity a st else st)
              = Stocks.has_id i st) by (destruct (m st); reflexivity).
  rewrite E. destruct (Stocks.has_id i st); [|exact IHt].
  cbn [map]. rewrite IHt. f_equal. destruct (m st); reflexivity.
Qed.

Lemma holdings_without_units m a (l : list Portfolios.row) (t : list Stocks.row) :
  map holding_of
    (flat_map (fun up => map (fun st => (up, st))
                           (select_all (Stocks.has_id (Portfolios.stock_id up))
                              (update_where m (Stocks.set_available_quantity a) t)))
       l)
  = map holding_of
      (flat_map (fun up => map (fun st => (up, st))
                             (select_all (Stocks.has_id (Portfolios.stock_id up)) t))
         l).
Proof.
  induction l as [|up l IH]; [reflexivity|].
  cbn [flat_map]. rewrite !map_app, IH. f_equal.
  unfold select_all. rewrite !map_map. apply holding_without_units.
Qed.

(** What a report is made of. *)
Lemma report_of_the_same_rows v s s' :
  select_one (Users.has_id v) (users s') = select_one (Users.has_id v) (users s) ->
  map holding_of (holdings_of v s') = map holding_of (holdings_of v s) ->
  select_all (by_user v) (transactions s')
  = select_all (by_user v) (transactions s) ->
  get_user_report v s' = get_user_report v s.
Proof.
  intros Hu Hh Ht. unfold get_user_report, total_sales_of, total_purchases_of.
  rewrite Hu, Hh, Ht. reflexivity.
Qed.

Lemma users_of_others u v f t :
  u <> v ->
  (forall r, Users.id (f r) = Users.id r) ->
  select_one (Users.has_id v) (update_where (Users.has_id u) f t)
  = select_one (Users.has_id v) t.
Proof.
  intros Hne Hf. apply find_update_where_other. intros r Hr.
  unfold Users.has_id in *. rewrite Hf. split; now apply (other_user u v).
Qed.

(** X14.  The calls of one user do not show in the report of another:
    a loan, a purchase or a sale by user [u], succeeding or not, leaves
    what [get_user_report] answers for any other user [v] as it was,
    entry by entry. *)
Theorem calls_of_others_leave_the_report (s : db) (u v : string) :
  u <> v ->
  (forall l a,
     get_user_report v (snd (take_loan l u a s)) = get_user_report v s)
  /\ (forall t sym q,
        get_user_report v (snd (buy_stock t u sym q s)) = get_user_report v s)
  /\ (forall t sym q,
        get_user_report v (snd (sell_stock t u sym q s)) = get_user_report v s).
Proof.
  intro Hne. split; [|split].
  - intros l a. unfold take_loan.
    destruct (select_one _ (users s)) as [user|]; [|reflexivity].
    destruct (Qlt_bool _ _); [reflexivity|].
    destruct (Loans.insert _ _); [|reflexivity].
    apply report_of_the_same_rows; simpl; [|reflexivity|reflexivity].
    apply users_of_others; [exact Hne|reflexivity].
  - intros t sym q. unfold buy_stock.
    destruct (buy_stock_reads u sym q s) as [m|r]; [reflexivity|].
    unfold buy_stock_writes. simpl.
    destruct (upsert_position _ _ _ _ _) as [e|t'] eqn:Eu; [reflexivity|].
    unfold Transactions.insert, insert_unless.
    destruct (existsb _ _); [reflexivity|]. simpl.
    apply report_of_the_same_rows; simpl.
    + apply users_of_others; [exact Hne|reflexivity].
    + unfold holdings_of. simpl.
      rewrite (upsert_position_other _ _ _ _ _ _ _ Hne Eu).
      apply holdings_without_units.
    + unfold select_all. rewrite filter_app. simpl. unfold by_user at 2. simpl.
      apply String.eqb_neq in Hne. rewrite Hne. apply app_nil_r.
  - intros t sym q. unfold sell_stock.
    destruct (select_one _ (stocks s)) as [st|]; [|reflexivity].
    destruct (select_one _ (user_portfolios s)) as [pos|]; [|reflexivity].
    destruct (_ <? _)%Z; [reflexivity|].
    destruct (select_one _ (users s)) as [user|]; [|reflexivity].
    unfold Transactions.insert, insert_unless. simpl.
    destruct (existsb _ _); [reflexivity|]. simpl.
    apply report_of_the_same_rows; simpl.
    + apply users_of_others; [exact Hne|reflexivity].
    + unfold holdings_of. simpl.
      assert (Hp : select_all (of_user v)
                     (if (Portfolios.quantity pos - q =? 0)%Z
                      then delete_where (Portfolios.has_key u (Stocks.id st))
                             (user_portfolios s)
                      else update_where (Portfolios.has_key u (Stocks.id st))
                             (Portfolios.set_quantity (Portfolios.quantity pos - q))
                             (user_portfolios s))
                   = select_all (of_user v) (user_portfolios s)).
      { unfold select_all. destruct (_ =? 0)%Z.
        - apply filter_delete_where_other. intros r Hr.
          now apply (has_key_other u v (Stocks.id st)).
        - apply filter_update_where_other. intros r Hr.
          split; apply (has_key_other u v (Stocks.id st)); auto. }
      rewrite Hp. apply holdings_without_units.
    + unfold select_all. rewrite filter_app. simpl. unfold by_user at 2. simpl.
      apply String.eqb_neq in Hne. rewrite Hne. apply app_nil_r.
Qed.

Lemma calls_of_others_leave_the_report_witness :
  (forall l a,
     get_user_report "user-1" (snd (take_loan l "user-0" a (snd second_buy)))
     = get_user_report "user-1" (snd second_buy))
  /\ (forall t sym q,
        get_user_report "user-1" (snd (buy_stock t "user-0" sym q (snd second_buy)))
        = get_user_report "user-1" (snd second_buy))
  /\ (forall t sym q,
        get_user_report "user-1" (snd (sell_stock t "user-0" sym q (snd second_buy)))
        = get_user_report "user-1" (snd second_buy)).
Proof.
  assert (Hne : "user-0" <> "user-1") by discriminate.
  exact (calls_of_others_leave_the_report (snd second_buy) "user-0" "user-1" Hne).
Defined.

(** ** The positions and the transactions *)

Lemma units_held_upsert u i q p t t' u' i' :
  (List.length (select_all (Portfolios.has_key u i) t) <= 1)%nat ->
  upsert_position u i q p t = inr t' ->
  sql_sum (map Portfolios.quantity (select_all (Portfolios.has_key u' i') t'))
  = (sql_sum (map Portfolios.quantity (select_all (Portfolios.has_key u' i') t))
     + (if String.eqb u u' && String.eqb i i' then q else 0))%Z.
Proof.
  intros Hu. unfold upsert_position.
  destruct (select_one (Portfolios.has_key u i) t) as [pos|] eqn:Ef.
  - destruct (Portfolios.quantity pos + q =? 0)%Z; [discriminate|].
    intro H. injection H as <-. unfold select_all.
    rewrite (sum_update_where _ _ _ _ _ pos Hu Ef).
    apply find_some in Ef. destruct Ef as [_ Ek].
    unfold Portfolios.has_key in Ek. apply andb_true_iff in Ek.
    destruct Ek as [Eu Ei]. apply String.eqb_eq in Eu, Ei.
    unfold Portfolios.has_key. simpl. rewrite Eu, Ei.
    destruct (String.eqb u u' && String.eqb i i'); lia.
  - destruct (Portfolios.insert _ t) as [t''|] eqn:Ei; [|discriminate].
    intro H. injection H as <-. unfold Portfolios.insert in Ei.
    apply insert_unless_some in Ei. destruct Ei as [_ ->].
    unfold select_all. rewrite sum_insert.
    unfold Portfolios.has_key. simpl. reflexivity.
Qed.

Lemma units_held_after_sale u i q pos t u' i' :
  (List.length (select_all (Portfolios.has_key u i) t) <= 1)%nat ->
  select_one (Portfolios.has_key u i) t = Some pos ->
  sql_sum (map Portfolios.quantity
             (select_all (Portfolios.has_key u' i')
                (if (Portfolios.quantity pos - q =? 0)%Z
                 then delete_where (Portfolios.has_key u i) t
                 else update_where (Portfolios.has_key u i)
                        (Portfolios.set_quantity (Portfolios.quantity pos - q)) t)))
  = (sql_sum (map Portfolios.quantity (select_all (Portfolios.has_key u' i') t))
     - (if String.eqb u u' && String.eqb i i' then q else 0))%Z.
Proof.
  intros Hu Ef.
  pose proof Ef as Ek. apply find_some in Ek. destruct Ek as [_ Ek].
  unfold Portfolios.has_key in Ek. apply andb_true_iff in Ek.
  destruct Ek as [Eu Ei]. apply String.eqb_eq in Eu, Ei.
  unfold select_all.
  destruct (Portfolios.quantity pos - q =? 0)%Z eqn:Ez.
  - apply Z.eqb_eq in Ez.
    rewrite (sum_delete_where _ _ _ _ pos Hu Ef).
    unfold Portfolios.has_key. rewrite Eu, Ei.
    destruct (String.eqb u u' && String.eqb i i'); lia.
  - rewrite (sum_update_where _ _ _ _ _ pos Hu Ef).
    unfold Portfolios.has_key. simpl. rewrite Eu, Ei.
    destruct (String.eqb u u' && String.eqb i i'); lia.
Qed.

(** The rows of [user_portfolios] and of [transactions] are written by
    [buy_stock] and [sell_stock] only. *)
Lemma insert_sample_stocks_positions l i uuid4 s s' :
  insert_sample_stocks l i uuid4 s = Some s' ->
  user_portfolios s' = user_portfolios s /\ transactions s' = transactions s.
Proof.
  revert i s. induction l as [|[[[sym n] p] q] rest IH]; simpl; intros i s H.
  - injection H as <-. auto.
  - destruct (Stocks.insert _ (stocks s)) as [t|]; [|discriminate].
    apply IH in H. exact H.
Qed.

Lemma insert_test_users_positions todo i uuid4 s s' :
  insert_test_users todo i uuid4 s = Some s' ->
  user_portfolios s' = user_portfolios s /\ transactions s' = transactions s.
Proof.
  revert i s. induction todo as [|todo IH]; simpl; intros i s H.
  - injection H as <-. auto.
  - destruct (Users.insert _ (users s)) as [t|]; [|discriminate].
    apply IH in H. exact H.
Qed.

Lemma setup_initial_data_positions su uu s :
  user_portfolios (snd (setup_initial_data su uu s)) = user_portfolios s
  /\ transactions (snd (setup_initial_data su uu s)) = transactions s.
Proof.
  unfold setup_initial_data.
  destruct (if (List.length (stocks s) =? 0)%nat then _ else _) as [s1|] eqn:E1;
    [|auto].
  assert (H1 : user_portfolios s1 = user_portfolios s
               /\ transactions s1 = transactions s).
  { destruct (List.length (stocks s) =? 0)%nat.
    - exact (insert_sample_stocks_positions _ _ _ _ _ E1).
    - injection E1 as <-. auto. }
  destruct (if (List.length (users s1) =? 0)%nat then _ else _) as [s2|] eqn:E2;
    [|auto].
  cbn [snd]. destruct H1 as [<- <-].
  destruct (List.length (users s1) =? 0)%nat.
  - exact (insert_test_users_positions _ _ _ _ _ E2).
  - injection E2 as <-. auto.
Qed.

(** One call keeps the units held equal to the units bought less the
    units sold. *)
Lemma units_held_apply o s :
  wf s ->
  (forall u i, units_held u i s = net_bought u i s) ->
  forall u i, units_held u i (apply o s) = net_bought u i (apply o s).
Proof.
  intros Hwf Hinv u' i'. unfold units_held, net_bought.
  destruct o; simpl.
  - destruct (setup_initial_data_positions stock_uuid4 user_uuid4 s) as [-> ->].
    apply Hinv.
  - unfold update_stock_prices.
    destruct (update_each_frame change_percent (stocks s) 0 s)
      as [_ [-> [-> _]]].
    apply Hinv.
  - unfold register_stock. destruct (fits_int64 quantity); [|apply Hinv].
    destruct (Stocks.insert _ (stocks s)); simpl; apply Hinv.
  - unfold take_loan.
    destruct (select_one _ (users s)); [|apply Hinv].
    destruct (Qlt_bool _ _); [apply Hinv|].
    destruct (Loans.insert _ _); simpl; apply Hinv.
  - unfold buy_stock.
    destruct (buy_stock_reads user_id symbol quantity s) as [m|r]; [apply Hinv|].
    unfold buy_stock_writes. simpl.
    destruct (upsert_position _ _ _ _ _) as [e|t'] eqn:Eu; [apply Hinv|].
    unfold Transactions.insert, insert_unless.
    destruct (existsb _ _); [apply Hinv|]. simpl.
    rewrite (units_held_upsert _ _ _ _ _ _ u' i'
               (wf_position_key s Hwf user_id (rd_stock_id r)) Eu).
    unfold select_all. rewrite sum_insert.
    unfold trade_of at 2, signed_quantity at 2. simpl.
    pose proof (Hinv u' i') as H. unfold units_held, net_bought, select_all in H.
    rewrite H. reflexivity.
  - unfold sell_stock.
    destruct (select_one _ (stocks s)) as [st|]; [|apply Hinv].
    destruct (select_one _ (user_portfolios s)) as [pos|] eqn:Ep; [|apply Hinv].
    destruct (_ <? _)%Z; [apply Hinv|].
    destruct (select_one _ (users s)) as [user|]; [|apply Hinv].
    unfold Transactions.insert, insert_unless. simpl.
    destruct (existsb _ _); [apply Hinv|]. simpl.
    rewrite (units_held_after_sale _ _ _ _ _ u' i'
               (wf_position_key s Hwf user_id (Stocks.id st)) Ep).
    unfold select_all. rewrite sum_insert.
    unfold trade_of at 2, signed_quantity at 2. simpl.
    pose proof (Hinv u' i') as H. unfold units_held, net_bought, select_all in H.
    rewrite H. destruct (String.eqb user_id u' && String.eqb (Stocks.id st) i'); lia.
Qed.

Lemma units_held_run ops s :
  wf s ->
  (forall u i, units_held u i s = net_bought u i s) ->
  forall u i, units_held u i (run ops s) = net_bought u i (run ops s).
Proof.
  revert s. induction ops as [|o ops IH]; intros s Hwf Hinv; [exact Hinv|].
  simpl. apply IH; [now apply wf_apply|now apply units_held_apply].
Qed.

(** X2.  The positions are accounted for by the transactions: in a
    database that calls taken one after the other have built, the
    quantity of the position of a user in a stock is what the rows of
    [transactions] say the user has bought of the stock less what they
    say the user has sold; without a position the two are equal. *)
Theorem positions_match_the_transactions (ops : list op)
    (user_id stock_id : string) :
  (forall pos,
     position user_id stock_id (run ops empty_db) = Some pos ->
     Portfolios.quantity pos = net_bought user_id stock_id (run ops empty_db))
  /\ (position user_id stock_id (run ops empty_db) = None ->
      net_bought user_id stock_id (run ops empty_db) = 0%Z).
Proof.
  set (s := run ops empty_db).
  assert (Hwf : wf s) by apply wf_run, wf_empty.
  assert (Hinv : units_held user_id stock_id s = net_bought user_id stock_id s).
  { apply units_held_run; [apply wf_empty|]. intros u i. reflexivity. }
  unfold position, select_one. unfold units_held, select_all in Hinv.
  pose proof (wf_position_key s Hwf user_id stock_id) as Hu.
  unfold select_all in Hu. split.
  - intros pos Hp. rewrite <- Hinv.
    rewrite (filter_the_row _ _ _ Hu Hp). simpl. lia.
  - intro Hp. rewrite <- Hinv.
    rewrite (find_none_filter_nil _ _ Hp). reflexivity.
Qed.
